(** * Metrics accumulator, flatten transform and persistence assembler

    A shallow embedding of [metrics_calculator.py]:
    - the helper [_safe_pct], with its double-precision arithmetic carried
      out on [SpecFloat] (binary64: precision 53, maximal exponent 1024);
    - the class [MetricsAccumulator] as a store of attributes threaded
      through a state-and-exception monad;
    - [_sanitize_flat_key] and [flatten_metric];
    - [save_metrics_to_dynamodb] with its collaborators as parameters.

    Python values are the JSON-shaped ones (None, booleans, integers,
    strings, lists, dictionaries); strings are sequences of code points
    below 256, and the character tables are the interpreter's for that
    range.  Floats occur inside [_safe_pct] only.  An exception is an
    outcome of its own: [TypeError] for an unhashable dictionary key or a
    bad argument of [int], [AttributeError] for a missing method,
    [ValueError] for a text [int] cannot read.  The limits of the
    interpreter (recursion depth, memory) are left out.  [json.loads], the
    clock and the two collaborators of the persistence step are parameters. *)

From Stdlib Require Import ZArith String Ascii List Bool Lia SpecFloat.
From stdpp Require Import base option list functions gmap strings pretty.

Local Open Scope string_scope.
Local Open Scope Z_scope.

#[local] Set Warnings "-register-all".

(** ** Python values and the builtins the module relies on *)

Module Py.

Inductive value : Type :=
| VNone
| VBool (b : bool)
| VInt (n : Z)
| VStr (s : string)
| VList (l : list value)
| VDict (d : list (value * value)).

(** A [dict] keeps its entries in insertion order. *)
Definition dict : Type := list (value * value).

Inductive exn : Type := TypeError | AttributeError | ValueError.

Inductive result (A : Type) : Type :=
| Ok (a : A)
| Raise (e : exn).
Arguments Ok {A} a.
Arguments Raise {A} e.

(** [bool(v)] *)
Definition truthy (v : value) : bool :=
  match v with
  | VNone => false
  | VBool b => b
  | VInt n => negb (n =? 0)
  | VStr s => negb (String.eqb s "")
  | VList l => match l with [] => false | _ => true end
  | VDict d => match d with [] => false | _ => true end
  end.

(** [a or b] *)
Definition py_or (a b : value) : value := if truthy a then a else b.

(** Lists and dictionaries cannot be hashed. *)
Definition hashable (v : value) : bool :=
  match v with
  | VList _ | VDict _ => false
  | _ => true
  end.

(** Equality of dictionary keys: [True == 1] and [False == 0]. *)
Definition key_eqb (a b : value) : bool :=
  match a, b with
  | VNone, VNone => true
  | VBool x, VBool y => Bool.eqb x y
  | VBool x, VInt n | VInt n, VBool x => n =? (if x then 1 else 0)
  | VInt n, VInt m => n =? m
  | VStr s, VStr t => String.eqb s t
  | _, _ => false
  end.

(** [v == "literal"] *)
Definition str_is (v : value) (s : string) : bool :=
  match v with
  | VStr t => String.eqb t s
  | _ => false
  end.

(** *** Characters *)

Definition code (c : ascii) : N := N_of_ascii c.

Definition between (lo hi n : N) : bool := ((lo <=? n) && (n <=? hi))%N.

(** [str.isalnum] on one character. *)
Definition isalnum (c : ascii) : bool :=
  let n := code c in
  between 48 57 n || between 65 90 n || between 97 122 n
  || (n =? 170)%N || between 178 179 n || (n =? 181)%N
  || between 185 186 n || between 188 190 n
  || between 192 214 n || between 216 246 n || between 248 255 n.

(** [str.isspace] on one character. *)
Definition isspace (c : ascii) : bool :=
  let n := code c in
  between 9 13 n || between 28 32 n || (n =? 133)%N || (n =? 160)%N.

(** [str.isprintable] on one character. *)
Definition isprintable (c : ascii) : bool :=
  let n := code c in
  negb (between 0 31 n || between 127 160 n || (n =? 173)%N).

Definition lower_char (c : ascii) : ascii :=
  let n := code c in
  if between 65 90 n || between 192 214 n || between 216 222 n
  then ascii_of_N (n + 32)
  else c.

(** *** Strings *)

Fixpoint map_string (f : ascii -> ascii) (s : string) : string :=
  match s with
  | EmptyString => EmptyString
  | String c s' => String (f c) (map_string f s')
  end.

Fixpoint lstrip (p : ascii -> bool) (s : string) : string :=
  match s with
  | EmptyString => EmptyString
  | String c s' => if p c then lstrip p s' else s
  end.

Fixpoint rstrip (p : ascii -> bool) (s : string) : string :=
  match s with
  | EmptyString => EmptyString
  | String c s' =>
      match rstrip p s' with
      | EmptyString => if p c then EmptyString else String c EmptyString
      | r => String c r
      end
  end.

Definition strip_with (p : ascii -> bool) (s : string) : string :=
  rstrip p (lstrip p s).

(** [s.lower()] and [s.strip()] *)
Definition lower (s : string) : string := map_string lower_char s.
Definition strip (s : string) : string := strip_with isspace s.

Fixpoint string_mem (c : ascii) (s : string) : bool :=
  match s with
  | EmptyString => false
  | String c' s' => Ascii.eqb c c' || string_mem c s'
  end.

Definition hex_digit (n : N) : ascii :=
  if (n <? 10)%N then ascii_of_N (48 + n) else ascii_of_N (87 + n).

(** [repr(s)] for a string: the text is quoted with apostrophes unless it
    holds one and no double quote; backslash, the quote in use, tab, newline
    and carriage return take a backslash, other unprintable characters are
    written as a two-digit hexadecimal escape. *)
Definition repr_char (quote : ascii) (c : ascii) : string :=
  let n := code c in
  if Ascii.eqb c quote || (n =? 92)%N then String "\" (String c EmptyString)
  else if (n =? 9)%N then "\t"
  else if (n =? 10)%N then "\n"
  else if (n =? 13)%N then "\r"
  else if isprintable c then String c EmptyString
  else "\x" ++ String (hex_digit (n / 16)) (String (hex_digit (n mod 16)) EmptyString).

Fixpoint repr_chars (quote : ascii) (s : string) : string :=
  match s with
  | EmptyString => EmptyString
  | String c s' => repr_char quote c ++ repr_chars quote s'
  end.

Definition apostrophe : ascii := ascii_of_N 39.
Definition double_quote : ascii := ascii_of_N 34.

Definition repr_str (s : string) : string :=
  let quote :=
    if string_mem apostrophe s && negb (string_mem double_quote s)
    then double_quote else apostrophe in
  String quote (repr_chars quote s ++ String quote EmptyString).

(** [repr(v)] *)
Fixpoint py_repr (v : value) : string :=
  match v with
  | VNone => "None"
  | VBool true => "True"
  | VBool false => "False"
  | VInt n => pretty n
  | VStr s => repr_str s
  | VList l =>
      "[" ++
      (fix elems (l : list value) : string :=
         match l with
         | [] => ""
         | x :: l' =>
             py_repr x ++ match l' with [] => "" | _ => ", " ++ elems l' end
         end) l ++ "]"
  | VDict d =>
      "{" ++
      (fix entries (d : list (value * value)) : string :=
         match d with
         | [] => ""
         | (k, x) :: d' =>
             py_repr k ++ ": " ++ py_repr x ++
             match d' with [] => "" | _ => ", " ++ entries d' end
         end) d ++ "}"
  end.

(** [str(v)] *)
Definition py_str (v : value) : string :=
  match v with
  | VStr s => s
  | _ => py_repr v
  end.

End Py.

(** ** Percentages *)

Module Pct.

(** Binary64. *)
Definition prec : Z := 53.
Definition emax : Z := 1024.

(** An integer as the exact (unrounded) float operand. *)
Definition of_int (n : Z) : spec_float :=
  match n with
  | Z0 => S754_zero false
  | Zpos p => S754_finite false p 0
  | Zneg p => S754_finite true p 0
  end.

(** [numer / denom] on integers: the correctly rounded quotient;
    [None] stands for ZeroDivisionError and for OverflowError. *)
Definition truediv (numer denom : Z) : option spec_float :=
  if denom =? 0 then None
  else
    match SFdiv prec emax (of_int numer) (of_int denom) with
    | S754_infinity _ | S754_nan => None
    | q => Some q
    end.

(** [round(x)] with no digits: the nearest integer, halves to the even
    one; [None] stands for OverflowError (infinity) and ValueError (NaN). *)
Definition py_round (x : spec_float) : option Z :=
  match x with
  | S754_zero _ => Some 0
  | S754_infinity _ | S754_nan => None
  | S754_finite s m e =>
      let magnitude :=
        if 0 <=? e then Z.pos m * 2 ^ e
        else
          let unit := 2 ^ (- e) in
          let q := Z.pos m / unit in
          let r := Z.pos m mod unit in
          match Z.compare (2 * r) unit with
          | Lt => q
          | Gt => q + 1
          | Eq => if Z.even q then q else q + 1
          end in
      Some (if s then - magnitude else magnitude)
  end.

(** Return integer percentage, guarding divide-by-zero. *)
Definition _safe_pct (numer denom : Z) : Z :=
  if denom =? 0 then 0
  else
    match truediv numer denom with
    | None => 0
    | Some q =>
        match py_round (SFmul prec emax q (of_int 100)) with
        | Some r => r
        | None => 0
        end
    end.

(** The percentage in the specification's words, [round(100*n/d)] and 0
    for a zero denominator, read as the same language evaluates it: the
    exact product, one correctly rounded division, halves to the even
    integer. *)
Definition spec_percentage (n d : Z) : Z :=
  if d =? 0 then 0
  else
    match truediv (100 * n) d with
    | None => 0
    | Some q => default 0 (py_round q)
    end.

(** [r] is an integer nearest to [100*n/d], for a nonzero [d]: it lies
    within a half of the quotient. *)
Definition nearest_percent (r n d : Z) : Prop :=
  2 * Z.abs (r * d - 100 * n) <= Z.abs d.

(** [100*n/d] lies half way between two integers. *)
Definition exact_half (n d : Z) : Prop :=
  exists k, 200 * n = (2 * k + 1) * d.

End Pct.

(** ** Rounding in double precision

    The notions in which the rounding functions of [SpecFloat] are
    followed: where a value lies between two neighbouring mantissas, and
    the value of a double counted in units of [2^-1074], the smallest
    positive double, so that every finite double is an integer. *)

Module Rounding.

(** The place of a value [N/D] between the integers [m] and [m + 1], as the
    rounding functions of [SpecFloat] record it. *)
Definition located (m : Z) (l : location) (N D : Z) : Prop :=
  match l with
  | loc_Exact => N = m * D
  | loc_Inexact c =>
      m * D < N < (m + 1) * D
      /\ match c with
         | Lt => 2 * N < (2 * m + 1) * D
         | Eq => 2 * N = (2 * m + 1) * D
         | Gt => (2 * m + 1) * D < 2 * N
         end
  end.

(** The unit in the last place at exponent [e], in units of [2^-1074]. *)
Definition ulp_at (e : Z) : Z := 2 ^ (e + 1074).

(** A finite double in units of [2^-1074], sign apart. *)
Definition scaled (x : spec_float) : Z :=
  match x with
  | S754_finite _ m e => Z.pos m * ulp_at e
  | _ => 0
  end.

End Rounding.

(** ** MetricsAccumulator *)

Module Accumulator.
Import Py.

(** The integer attributes of the instance. *)
Inductive counter_attr : Type :=
| ec2_cw_memory | ec2_cw_disk | ec2_cw_both
| ec2_ssm_connected | ec2_ssm_notconnected | ec2_ssm_notinstalled
| ec2_total | ec2_running | ec2_stopped
| ec2_patch_compliant | ec2_patch_noncompliant | ec2_patch_unknown
| rds_total | rds_available | rds_multiaz | rds_performance_insights
| s3_total | s3_with_lifecycle
| efs_total | fsx_total | backup_plans | backup_vaults | backup_recovery_points
| sg_total | sg_with_exposed_ports | vpc_total | subnet_total
| ebs_unattached | eip_unassociated | snapshots_orphaned.

(** The [defaultdict(int)] attributes. *)
Inductive tally_attr : Type :=
| resource_counts | account_counts | region_counts
| ec2_states | ec2_health | rds_engines.

#[global] Instance counter_attr_eq_dec : EqDecision counter_attr.
Proof. solve_decision. Defined.

#[global] Instance tally_attr_eq_dec : EqDecision tally_attr.
Proof. solve_decision. Defined.

(** One network-health bucket, the dictionary with keys total and healthy. *)
Record bucket : Type := { total : Z; healthy : Z }.

(** The attribute store of one instance. *)
Record accumulator : Type := {
  num : counter_attr -> Z;
  tallies : tally_attr -> list (value * Z);
  account_names : dict;
  regions_collected : list value;
  network_health : list (string * bucket);
  _seen_ebs : list (value * value * value)
}.

Definition set_num (a : counter_attr) (n : Z) (st : accumulator) : accumulator :=
  {| num := <[a := n]> (num st);
     tallies := tallies st;
     account_names := account_names st;
     regions_collected := regions_collected st;
     network_health := network_health st;
     _seen_ebs := _seen_ebs st |}.

Definition set_tally (t : tally_attr) (c : list (value * Z)) (st : accumulator)
  : accumulator :=
  {| num := num st;
     tallies := <[t := c]> (tallies st);
     account_names := account_names st;
     regions_collected := regions_collected st;
     network_health := network_health st;
     _seen_ebs := _seen_ebs st |}.

Definition set_account_names (d : dict) (st : accumulator) : accumulator :=
  {| num := num st;
     tallies := tallies st;
     account_names := d;
     regions_collected := regions_collected st;
     network_health := network_health st;
     _seen_ebs := _seen_ebs st |}.

Definition set_regions_collected (s : list value) (st : accumulator) : accumulator :=
  {| num := num st;
     tallies := tallies st;
     account_names := account_names st;
     regions_collected := s;
     network_health := network_health st;
     _seen_ebs := _seen_ebs st |}.

Definition set_network_health (h : list (string * bucket)) (st : accumulator)
  : accumulator :=
  {| num := num st;
     tallies := tallies st;
     account_names := account_names st;
     regions_collected := regions_collected st;
     network_health := h;
     _seen_ebs := _seen_ebs st |}.

Definition set_seen_ebs (s : list (value * value * value)) (st : accumulator)
  : accumulator :=
  {| num := num st;
     tallies := tallies st;
     account_names := account_names st;
     regions_collected := regions_collected st;
     network_health := network_health st;
     _seen_ebs := s |}.

(** Reset all counters for a new collection run. *)
Definition reset : accumulator :=
  {| num := fun _ => 0;
     tallies := fun _ => [];
     account_names := [];
     regions_collected := [];
     network_health :=
       [ ("directConnectConnections", {| total := 0; healthy := 0 |});
         ("directConnectVirtualInterfaces", {| total := 0; healthy := 0 |});
         ("vpnConnections", {| total := 0; healthy := 0 |});
         ("transitGateways", {| total := 0; healthy := 0 |}) ];
     _seen_ebs := [] |}.

(** *** Dictionaries *)

(** [d.get(k)] as an option, and with the defaults of [dict.get]. *)
Fixpoint dict_get (d : dict) (k : value) : option value :=
  match d with
  | [] => None
  | (k', v) :: d' => if key_eqb k' k then Some v else dict_get d' k
  end.

Definition get (d : dict) (k : string) : value :=
  default VNone (dict_get d (VStr k)).

Definition get_default (d : dict) (k : string) (dflt : value) : value :=
  default dflt (dict_get d (VStr k)).

(** [d[k] = v]: an equal key keeps its place and its first spelling. *)
Fixpoint dict_set (d : dict) (k v : value) : dict :=
  match d with
  | [] => [(k, v)]
  | (k', v') :: d' =>
      if key_eqb k' k then (k', v) :: d' else (k', v') :: dict_set d' k v
  end.

(** [c[k]] and [c[k] += 1] on a [defaultdict(int)]. *)
Fixpoint tally_get (c : list (value * Z)) (k : value) : Z :=
  match c with
  | [] => 0
  | (k', n) :: c' => if key_eqb k' k then n else tally_get c' k
  end.

Fixpoint tally_incr (c : list (value * Z)) (k : value) : list (value * Z) :=
  match c with
  | [] => [(k, 1)]
  | (k', n) :: c' =>
      if key_eqb k' k then (k', n + 1) :: c' else (k', n) :: tally_incr c' k
  end.

(** Membership in a set of hashable values, and [s.add(x)]. *)
Definition set_mem (s : list value) (x : value) : bool :=
  existsb (fun y => key_eqb y x) s.

Definition set_add (s : list value) (x : value) : list value :=
  if set_mem s x then s else s ++ [x].

Definition triple_eqb (a b : value * value * value) : bool :=
  let '(a1, a2, a3) := a in
  let '(b1, b2, b3) := b in
  key_eqb a1 b1 && key_eqb a2 b2 && key_eqb a3 b3.

Definition seen_mem (s : list (value * value * value)) (k : value * value * value)
  : bool :=
  existsb (fun y => triple_eqb y k) s.

(** *** The monad of methods: the store is mutated in place, so the store
    reached when an exception is raised is part of the outcome. *)

Definition M (A : Type) : Type := accumulator -> accumulator * result A.

Definition ret {A : Type} (a : A) : M A := fun st => (st, Ok a).

Definition raise {A : Type} (e : exn) : M A := fun st => (st, Raise e).

Definition bind {A B : Type} (m : M A) (k : A -> M B) : M B :=
  fun st =>
    match m st with
    | (st', Ok a) => k a st'
    | (st', Raise e) => (st', Raise e)
    end.

Definition lift {A : Type} (r : result A) : M A := fun st => (st, r).

Definition modify (f : accumulator -> accumulator) : M unit :=
  fun st => (f st, Ok tt).

Definition read {A : Type} (f : accumulator -> A) : M A :=
  fun st => (st, Ok (f st)).

Definition when (b : bool) (m : M unit) : M unit := if b then m else ret tt.

Notation "x <- m ;; k" := (bind m (fun x => k))
  (at level 100, m at next level, right associativity).
Notation "m ;; k" := (bind m (fun _ => k))
  (at level 100, right associativity).

(** [self.a += 1] *)
Definition bump (a : counter_attr) : M unit :=
  modify (fun st => set_num a (num st a + 1) st).

(** [self.t[k] += 1]; an unhashable key raises before anything is stored. *)
Definition tally (t : tally_attr) (k : value) : M unit :=
  if hashable k
  then modify (fun st => set_tally t (tally_incr (tallies st t) k) st)
  else raise TypeError.

(** [v.lower()] and [v.strip().lower()]: only strings have these methods. *)
Definition method_lower (v : value) : result string :=
  match v with
  | VStr s => Ok (lower s)
  | _ => Raise AttributeError
  end.

Definition method_strip_lower (v : value) : result string :=
  match v with
  | VStr s => Ok (lower (strip s))
  | _ => Raise AttributeError
  end.

(** *** Adders *)

(** Mark a region as collected. *)
Definition add_collected_region (region : value) : M unit :=
  if truthy region then
    if hashable region
    then modify (fun st => set_regions_collected (set_add (regions_collected st) region) st)
    else raise TypeError
  else ret tt.

(** Normalize a state/string value for comparisons. *)
Definition _normalize_state (v : value) : option string :=
  match v with
  | VNone => None
  | _ =>
      let normalized := lower (strip (py_str v)) in
      if String.eqb normalized "" then None else Some normalized
  end.

Definition state_is (st : option string) (s : string) : bool :=
  match st with
  | Some t => String.eqb t s
  | None => false
  end.

(** Increment counters for a given network health bucket. *)
Fixpoint bucket_incr (h : list (string * bucket)) (key : string) (is_healthy : bool)
  : list (string * bucket) :=
  let step (b : bucket) :=
    {| total := total b + 1;
       healthy := if is_healthy then healthy b + 1 else healthy b |} in
  match h with
  | [] => [(key, step {| total := 0; healthy := 0 |})]
  | (k, b) :: h' =>
      if String.eqb k key then (k, step b) :: h'
      else (k, b) :: bucket_incr h' key is_healthy
  end.

(** [self.network_health.get(key)], an absent bucket read as a new one. *)
Fixpoint bucket_get (h : list (string * bucket)) (key : string) : bucket :=
  match h with
  | [] => {| total := 0; healthy := 0 |}
  | (k, b) :: h' => if String.eqb k key then b else bucket_get h' key
  end.

Definition _increment_network_health (key : string) (is_healthy : bool) : M unit :=
  modify (fun st => set_network_health (bucket_incr (network_health st) key is_healthy) st).

(** The scan of [bgpPeers]: a peer that is not a dictionary is skipped; a
    peer with a status counts only when that status is up; a peer without
    one counts when its session state is available. *)
Fixpoint any_peer_up (peers : list value) : bool :=
  match peers with
  | [] => false
  | VDict peer :: rest =>
      match _normalize_state (get peer "bgpStatus") with
      | Some peer_status =>
          if String.eqb peer_status "up" then true else any_peer_up rest
      | None =>
          if state_is (_normalize_state (get peer "bgpPeerState")) "available"
          then true
          else any_peer_up rest
      end
  | _ :: rest => any_peer_up rest
  end.

(** The first non-empty normalized value among the listed fields. *)
Fixpoint first_state (item : dict) (keys : list string) : option string :=
  match keys with
  | [] => None
  | k :: keys' =>
      match _normalize_state (get item k) with
      | Some s => Some s
      | None => first_state item keys'
      end
  end.

(** Evaluate Direct Connect virtual interface health using BGP data. *)
Definition _is_direct_connect_virtual_interface_healthy (item : dict) : bool :=
  match item with
  | [] => false
  | _ =>
      match get item "bgpAllUp" with
      | VBool bgp_all_up => bgp_all_up
      | _ =>
          match get item "bgpAnyUp" with
          | VBool bgp_any_up => bgp_any_up
          | _ =>
              match first_state item ["bgpStatus"; "bgpStatusIpv4"; "bgpStatusIpv6"] with
              | Some status => String.eqb status "up"
              | None =>
                  match get item "bgpPeers" with
                  | VList peers => any_peer_up peers
                  | _ => false
                  end
              end
          end
      end
  end.

(** Aggregate network health metrics for supported resource types. *)
Definition _process_network_resource (resource_type : value) (item : dict) : M unit :=
  if str_is resource_type "DirectConnectConnection" then
    _increment_network_health "directConnectConnections"
      (state_is (_normalize_state (get item "connectionState")) "available")
  else if str_is resource_type "DirectConnectVirtualInterface" then
    _increment_network_health "directConnectVirtualInterfaces"
      (_is_direct_connect_virtual_interface_healthy item)
  else if str_is resource_type "VPNConnection" then
    _increment_network_health "vpnConnections"
      (state_is (_normalize_state (get item "state")) "available")
  else if str_is resource_type "TransitGateway" then
    _increment_network_health "transitGateways"
      (state_is (_normalize_state (get item "state")) "available")
  else ret tt.

(** *** Type-specific processors *)

Definition string_in (s : string) (l : list string) : bool :=
  existsb (String.eqb s) l.

(** Process EC2-specific metrics. *)
Definition _process_ec2_item (item : dict) : M unit :=
  bump ec2_total ;;
  state <- lift (method_lower (py_or (get item "instanceState") (VStr "unknown"))) ;;
  tally ec2_states (VStr state) ;;
  (if String.eqb state "running" then
     bump ec2_running ;;
     let has_memory := truthy (get_default item "cwAgentMemoryDetected" (VBool false)) in
     let has_disk := truthy (get_default item "cwAgentDiskDetected" (VBool false)) in
     when has_memory (bump ec2_cw_memory) ;;
     when has_disk (bump ec2_cw_disk) ;;
     when (has_memory && has_disk) (bump ec2_cw_both) ;;
     ssm_status <- lift (method_lower (py_or (get item "ssmStatus") (VStr ""))) ;;
     if string_in ssm_status ["connected"; "online"] then bump ec2_ssm_connected
     else if String.eqb ssm_status "notinstalled" || String.eqb ssm_status ""
     then bump ec2_ssm_notinstalled
     else bump ec2_ssm_notconnected
   else if String.eqb state "stopped" then bump ec2_stopped
   else ret tt) ;;
  tally ec2_health (get_default item "healthStatus" (VStr "Unknown")) ;;
  patch_status <-
    lift (method_strip_lower (py_or (get item "patchCompliance") (VStr "Unknown"))) ;;
  if String.eqb patch_status "compliant" then bump ec2_patch_compliant
  else if string_in patch_status ["noncompliant"; "non_compliant"]
  then bump ec2_patch_noncompliant
  else bump ec2_patch_unknown.

(** Process RDS-specific metrics. *)
Definition _process_rds_item (item : dict) : M unit :=
  bump rds_total ;;
  status <- lift (method_lower (py_or (get item "status") (VStr ""))) ;;
  when (String.eqb status "available") (bump rds_available) ;;
  tally rds_engines (get_default item "engine" (VStr "unknown")) ;;
  when (truthy (get item "multiAZ")) (bump rds_multiaz) ;;
  when (truthy (get item "performanceInsightsEnabled")) (bump rds_performance_insights).

(** Process S3-specific metrics. *)
Definition _process_s3_item (item : dict) : M unit :=
  bump s3_total ;;
  when (truthy (get item "hasLifecycleRules")) (bump s3_with_lifecycle).

(** Process Elastic IP metrics for unassociated IPs. *)
Definition _process_eip_item (item : dict) : M unit :=
  when (negb (truthy (get item "instanceId"))
        && negb (truthy (get item "networkInterfaceId")))
       (bump eip_unassociated).

(** Process Security Group metrics. *)
Definition _process_sg_item (item : dict) : M unit :=
  bump sg_total ;;
  when (truthy (get item "hasExposedIngressPorts")) (bump sg_with_exposed_ports).

(** Placeholder for snapshot heuristics (kept minimal). *)
Definition _process_snapshot_item (item : dict) : M unit := ret tt.

(** The dedup key of an EBS record. *)
Definition ebs_key (item : dict) : value * value * value :=
  let vid := py_or (py_or (get item "volumeId") (get item "id")) (VStr "unknown") in
  let acc := py_or (get item "accountId") (VStr "unknown") in
  let reg := py_or (get item "region") (VStr "unknown") in
  (acc, reg, vid).

Definition triple_hashable (k : value * value * value) : bool :=
  let '(a, b, c) := k in hashable a && hashable b && hashable c.

Section WithJson.

(** [json.loads] of the standard library; [None] when it raises. *)
Context (json_loads : string -> option value).

(** Normalize various shapes (None/str/json/list/dict) into a list or None. *)
Definition _as_list_or_none (v : value) : option (list value) :=
  match v with
  | VNone => None
  | VStr text =>
      let s := strip text in
      if string_in (lower s) [""; "none"; "null"; "[]"] then Some []
      else
        match json_loads s with
        | Some (VList parsed) => Some parsed
        | Some _ => Some []
        | None => None
        end
  | VList l => Some l
  | _ => Some [v]
  end.

(** Process EBS Volume metrics for unattached volumes. *)
Definition _process_ebs_item (item : dict) : M unit :=
  let key := ebs_key item in
  if negb (triple_hashable key) then raise TypeError
  else
    seen <- read (fun st => seen_mem (_seen_ebs st) key) ;;
    if (seen : bool) then ret tt
    else
      modify (fun st => set_seen_ebs (_seen_ebs st ++ [key]) st) ;;
      let state :=
        first_state item ["status"; "state"; "volumeStatus"; "volumeState"] in
      let attachments :=
        _as_list_or_none
          (py_or (py_or (get item "attachments") (get item "attachedInstances"))
                 (get item "attached_instances")) in
      if state_is state "available" then bump ebs_unattached
      else if state_is state "in-use" || state_is state "in_use" then ret tt
      else
        match state, attachments with
        | None, Some [] => bump ebs_unattached
        | _, _ => ret tt
        end.

Definition add_resource (item : dict) : M unit :=
  let resource_type := get item "resourceType" in
  if negb (truthy resource_type) then ret tt
  else
    tally resource_counts resource_type ;;
    let account_id := get item "accountId" in
    (if truthy account_id then
       tally account_counts account_id ;;
       let account_name := get item "accountName" in
       when (truthy account_name)
         (modify (fun st =>
            set_account_names (dict_set (account_names st) account_id account_name) st))
     else ret tt) ;;
    let region := get item "region" in
    when (truthy region && negb (str_is region "global")) (tally region_counts region) ;;
    _process_network_resource resource_type item ;;
    if str_is resource_type "EC2Instance" then _process_ec2_item item
    else if str_is resource_type "RDSInstance" then _process_rds_item item
    else if str_is resource_type "S3Bucket" then _process_s3_item item
    else if str_is resource_type "EBSVolume" then _process_ebs_item item
    else if str_is resource_type "ElasticIP" then _process_eip_item item
    else if str_is resource_type "SecurityGroup" then _process_sg_item item
    else if str_is resource_type "EBSSnapshot" || str_is resource_type "AMI"
    then _process_snapshot_item item
    else if str_is resource_type "VPC" then bump vpc_total
    else if str_is resource_type "Subnet" then bump subnet_total
    else if str_is resource_type "EFSFileSystem" then bump efs_total
    else if str_is resource_type "FSxFileSystem" then bump fsx_total
    else if str_is resource_type "BackupPlan" then bump backup_plans
    else if str_is resource_type "BackupVault" then bump backup_vaults
    else if str_is resource_type "BackupRecoveryPoint" then bump backup_recovery_points
    else ret tt.

(** The calls a client makes on one instance after [reset]; a call that
    raises leaves the store as it was when the exception left the method. *)
Inductive call : Type :=
| AddResource (item : dict)
| AddCollectedRegion (region : value).

Definition perform (c : call) (st : accumulator) : accumulator :=
  match c with
  | AddResource item => fst (add_resource item st)
  | AddCollectedRegion region => fst (add_collected_region region st)
  end.

Definition feed (calls : list call) (st : accumulator) : accumulator :=
  fold_left (fun st c => perform c st) calls st.

End WithJson.

(** *** Output *)

Definition tally_dict (c : list (value * Z)) : value :=
  VDict (map (fun '(k, n) => (k, VInt n)) c).

(** [sum(c.values())] *)
Definition tally_sum (c : list (value * Z)) : Z :=
  fold_right Z.add 0 (map snd c).

(** [sorted(c.items(), key=lambda x: x[1], reverse=True)]: the sort is
    stable, entries with equal counts keep their order. *)
Fixpoint insert_by_count (x : value * Z) (l : list (value * Z)) : list (value * Z) :=
  match l with
  | [] => [x]
  | y :: l' => if snd y <? snd x then x :: y :: l' else y :: insert_by_count x l'
  end.

Definition sorted_by_count (c : list (value * Z)) : list (value * Z) :=
  fold_left (fun acc x => insert_by_count x acc) c [].

Definition len {A : Type} (l : list A) : Z := Z.of_nat (length l).

(** Compose network health metrics with totals and percentages. *)
Definition _build_network_health_metrics (st : accumulator) : value :=
  VDict (map (fun '(key, b) =>
    (VStr key,
     VDict [ (VStr "total", VInt (total b));
             (VStr "healthy", VInt (healthy b));
             (VStr "unhealthy", VInt (Z.max (total b - healthy b) 0));
             (VStr "healthyPercentage", VInt (Pct._safe_pct (healthy b) (total b))) ]))
    (network_health st)).

(** Get accumulated metrics formatted for DynamoDB storage. *)
Definition get_metrics (st : accumulator) : dict :=
  let total_resources := tally_sum (tallies st resource_counts) in
  let account_dist :=
    map (fun '(account_id, count) =>
      VDict [ (VStr "accountId", account_id);
              (VStr "accountName",
               default account_id (dict_get (account_names st) account_id));
              (VStr "count", VInt count) ])
      (sorted_by_count (tallies st account_counts)) in
  let region_dist :=
    map (fun '(region, count) =>
      VDict [ (VStr "region", region); (VStr "count", VInt count) ])
      (sorted_by_count (tallies st region_counts)) in
  let global_metrics : dict :=
    [ (VStr "totalResources", VInt total_resources);
      (VStr "resourceCounts", tally_dict (tallies st resource_counts));
      (VStr "accountDistribution", VList account_dist);
      (VStr "regionDistribution", VList region_dist);
      (VStr "regionsCollected", VInt (len (regions_collected st)));
      (VStr "resourceRegionsFound", VInt (len (tallies st region_counts))) ] in
  let ec2_metrics :=
    if 0 <? num st ec2_total then
      VDict
        [ (VStr "total", VInt (num st ec2_total));
          (VStr "byState", tally_dict (tallies st ec2_states));
          (VStr "healthStatus", tally_dict (tallies st ec2_health));
          (VStr "cloudwatchAgent", VDict
            [ (VStr "memoryMonitoring", VInt (num st ec2_cw_memory));
              (VStr "diskMonitoring", VInt (num st ec2_cw_disk));
              (VStr "bothEnabled", VInt (num st ec2_cw_both));
              (VStr "noneEnabled",
               VInt (Z.max (num st ec2_running
                            - Z.max (num st ec2_cw_memory) (num st ec2_cw_disk)) 0));
              (VStr "percentageWithMemory",
               VInt (Pct._safe_pct (num st ec2_cw_memory) (num st ec2_running)));
              (VStr "percentageWithDisk",
               VInt (Pct._safe_pct (num st ec2_cw_disk) (num st ec2_running))) ]);
          (VStr "ssmAgent", VDict
            [ (VStr "connected", VInt (num st ec2_ssm_connected));
              (VStr "notConnected", VInt (num st ec2_ssm_notconnected));
              (VStr "notInstalled", VInt (num st ec2_ssm_notinstalled));
              (VStr "percentageConnected",
               VInt (Pct._safe_pct (num st ec2_ssm_connected) (num st ec2_running))) ]);
          (VStr "patchCompliance", VDict
            [ (VStr "compliant", VInt (num st ec2_patch_compliant));
              (VStr "nonCompliant", VInt (num st ec2_patch_noncompliant));
              (VStr "unknown", VInt (num st ec2_patch_unknown));
              (VStr "percentageCompliant",
               VInt (Pct._safe_pct (num st ec2_patch_compliant) (num st ec2_total))) ]) ]
    else VNone in
  let rds_metrics :=
    if 0 <? num st rds_total then
      VDict
        [ (VStr "total", VInt (num st rds_total));
          (VStr "available", VInt (num st rds_available));
          (VStr "engines", tally_dict (tallies st rds_engines));
          (VStr "multiAZ", VInt (num st rds_multiaz));
          (VStr "performanceInsights", VInt (num st rds_performance_insights));
          (VStr "percentageMultiAZ",
           VInt (Pct._safe_pct (num st rds_multiaz) (num st rds_total)));
          (VStr "percentageWithPerfInsights",
           VInt (Pct._safe_pct (num st rds_performance_insights) (num st rds_total))) ]
    else VNone in
  let storage_metrics :=
    VDict
      [ (VStr "s3Buckets", VInt (num st s3_total));
        (VStr "s3WithLifecycle", VInt (num st s3_with_lifecycle));
        (VStr "s3WithoutLifecycle",
         VInt (Z.max (num st s3_total - num st s3_with_lifecycle) 0));
        (VStr "ebsVolumes", VInt (tally_get (tallies st resource_counts) (VStr "EBSVolume")));
        (VStr "ebsSnapshots",
         VInt (tally_get (tallies st resource_counts) (VStr "EBSSnapshot")));
        (VStr "amiSnapshots", VInt (tally_get (tallies st resource_counts) (VStr "AMI")));
        (VStr "efsFileSystems", VInt (num st efs_total));
        (VStr "fsxFileSystems", VInt (num st fsx_total));
        (VStr "backupPlans", VInt (num st backup_plans));
        (VStr "backupVaults", VInt (num st backup_vaults));
        (VStr "backupRecoveryPoints", VInt (num st backup_recovery_points)) ] in
  let unattached_metrics :=
    VDict
      [ (VStr "unattachedEBSVolumes", VInt (num st ebs_unattached));
        (VStr "unassociatedElasticIPs", VInt (num st eip_unassociated)) ] in
  let security_metrics :=
    VDict
      [ (VStr "securityGroups", VInt (num st sg_total));
        (VStr "exposedSecurityGroups", VInt (num st sg_with_exposed_ports));
        (VStr "percentageExposed",
         VInt (Pct._safe_pct (num st sg_with_exposed_ports) (num st sg_total))) ] in
  let network_metrics := _build_network_health_metrics st in
  let global_metrics := dict_set global_metrics (VStr "networkHealth") network_metrics in
  [ (VStr "global", VDict global_metrics);
    (VStr "ec2", ec2_metrics);
    (VStr "rds", rds_metrics);
    (VStr "storage", storage_metrics);
    (VStr "unattached", unattached_metrics);
    (VStr "security", security_metrics);
    (VStr "network", network_metrics) ].

End Accumulator.

(** ** Flatten helper *)

Module Flatten.
Import Py.

Abbreviation flat := (gmap string value).

Definition underscore : ascii := "_"%char.

(** Convert arbitrary keys into Dynamo-friendly snake_case strings. *)
Definition _sanitize_flat_key (key : value) : string :=
  match key with
  | VNone => "unknown"
  | _ =>
      let text := py_str key in
      let sanitized :=
        map_string (fun ch => if isalnum ch || Ascii.eqb ch underscore then ch else underscore)
                   text in
      let sanitized := strip_with (Ascii.eqb underscore) sanitized in
      if String.eqb sanitized "" then "value" else sanitized
  end.

(** The f-string that extends a prefix, and the one that adds an index. *)
Definition extend (prefix sanitized_key : string) : string :=
  if String.eqb prefix "" then sanitized_key else prefix ++ "_" ++ sanitized_key.

Definition indexed (new_key : string) (i : nat) : string :=
  new_key ++ "_" ++ pretty i.

(** One turn of the loop of [flatten_metric] over [data.items()], for the
    entry [(k, v)] under [prefix].  A nested list is handled in the source
    by a call on the one-entry dictionary [{str(i): elem}] under [new_key],
    which is one more turn of this loop. *)
Fixpoint flatten_entry (target : flat) (prefix : string) (k v : value) {struct v} : flat :=
  let new_key := extend prefix (_sanitize_flat_key k) in
  match v with
  | VDict d =>
      (fix items (d : list (value * value)) (t : flat) : flat :=
         match d with
         | [] => t
         | (k', v') :: d' => items d' (flatten_entry t new_key k' v')
         end) d target
  | VList l =>
      (fix elems (l : list value) (i : nat) (t : flat) : flat :=
         match l with
         | [] => t
         | elem :: l' =>
             let indexed_key := indexed new_key i in
             elems l' (S i)
               match elem with
               | VDict d =>
                   (fix items (d : list (value * value)) (t : flat) : flat :=
                      match d with
                      | [] => t
                      | (k', v') :: d' => items d' (flatten_entry t indexed_key k' v')
                      end) d t
               | VList _ => flatten_entry t new_key (VStr (pretty i)) elem
               | _ => <[indexed_key := elem]> t
               end
         end) l 0%nat target
  | _ => <[new_key := v]> target
  end.

Definition flatten_items (target : flat) (d : dict) (prefix : string) : flat :=
  fold_left (fun t '(k, v) => flatten_entry t prefix k v) d target.

(** Flattens nested dictionaries/lists into target dict; [data or {}] must
    have the method [items]. *)
Definition flatten_metric (target : flat) (data : value) (prefix : string)
  : result flat :=
  if truthy data then
    match data with
    | VDict d => Ok (flatten_items target d prefix)
    | _ => Raise AttributeError
    end
  else Ok target.

End Flatten.

(** ** Persistence *)

Module Persistence.
Import Py Flatten.

#[global] Instance result_ret : MRet result := fun _ a => Ok a.

#[global] Instance result_bind : MBind result :=
  fun _ _ f r =>
    match r with
    | Ok a => f a
    | Raise e => Raise e
    end.

(** [v.get(...)] and [v.items()] need a dictionary. *)
Definition as_dict (v : value) : result dict :=
  match v with
  | VDict d => Ok d
  | _ => Raise AttributeError
  end.

(** *** [int(v)] *)

Definition is_digit (c : ascii) : bool := between 48 57 (code c).

Definition is_int_space (c : ascii) : bool :=
  let n := code c in
  between 9 13 n || (n =? 32)%N || (n =? 133)%N || (n =? 160)%N.

(** Decimal digits, single underscores allowed between two of them. *)
Fixpoint digits (s : string) (acc : Z) (after_digit : bool) : option Z :=
  match s with
  | EmptyString => if after_digit then Some acc else None
  | String c s' =>
      if is_digit c then digits s' (10 * acc + Z.of_N (code c) - 48) true
      else if Ascii.eqb c underscore && after_digit then digits s' acc false
      else None
  end.

Definition parse_int (s : string) : option Z :=
  match strip_with is_int_space s with
  | String "+" s' => digits s' 0 false
  | String "-" s' => Z.opp <$> digits s' 0 false
  | s' => digits s' 0 false
  end.

Definition py_int (v : value) : result Z :=
  match v with
  | VInt n => Ok n
  | VBool b => Ok (if b then 1 else 0)
  | VStr s =>
      match parse_int s with
      | Some n => Ok n
      | None => Raise ValueError
      end
  | _ => Raise TypeError
  end.

(** *** Assembling the two items *)

(** [item.update(other)] *)
Definition update (item other : flat) : flat := other ∪ item.

Section Assemble.

(** The clock of the call, as formatted by [strftime] and by the
    collaborator [format_aws_datetime]. *)
Context (date_str_iso date_str_br iso_timestamp : string).

(** [round(float(processing_duration), 3)], a float, is carried as given. *)
Context (processing_duration : value).

(** A section of [metrics] is flattened under its prefix when it is truthy. *)
Definition _include_section (metrics : dict) (dashboard_item : flat)
    (source_key prefix : string) : result flat :=
  let section_payload := Accumulator.get metrics source_key in
  if truthy section_payload then
    prefixed ← flatten_metric ∅ section_payload prefix;
    mret (update dashboard_item prefixed)
  else mret dashboard_item.

(** The per-bucket loop over [networkHealth]. *)
Definition network_fields (network_health : dict) (dashboard_item : flat) : flat :=
  fold_left
    (fun item '(bucket, values) =>
       match values with
       | VDict metrics_of_bucket =>
           fold_left
             (fun item '(metric_name, metric_value) =>
                let bucket_key := _sanitize_flat_key bucket in
                let metric_key := _sanitize_flat_key metric_name in
                <["networkHealth_" ++ bucket_key ++ "_" ++ metric_key := metric_value]> item)
             metrics_of_bucket item
       | _ => item
       end)
    network_health dashboard_item.

(** The current item. *)
Definition current_item (metrics : dict) : result flat :=
  let dashboard_item : flat :=
    <["processingDurationSeconds" := processing_duration]>
    (<["updatedAt" := VStr iso_timestamp]>
    (<["createdAt" := VStr iso_timestamp]>
    (<["isMetric" := VBool true]>
    (<["metricDateKey" := VStr date_str_br]>
    (<["metricDate" := VStr date_str_iso]>
    (<["region" := VStr "global"]>
    (<["accountName" := VStr "Metrics Dashboard"]>
    (<["accountId" := VStr "GLOBAL"]>
    (<["resourceType" := VStr "METRICS_DASHBOARD"]>
    (<["id" := VStr "METRIC_DASHBOARD_CURRENT"]> ∅)))))))))) in
  global_metrics ←
    as_dict (py_or (Accumulator.get_default metrics "global" (VDict [])) (VDict []));
  let dashboard_item :=
    update dashboard_item
      (<["regionDistribution" :=
           Accumulator.get_default global_metrics "regionDistribution" (VList [])]>
       (<["accountDistribution" :=
           Accumulator.get_default global_metrics "accountDistribution" (VList [])]> ∅)) in
  global_flat ←
    flatten_metric ∅
      (VDict
         [ (VStr "totalResources",
            Accumulator.get_default global_metrics "totalResources" (VInt 0));
           (VStr "resourceCounts",
            Accumulator.get_default global_metrics "resourceCounts" (VDict []));
           (VStr "regionsCollected",
            Accumulator.get_default global_metrics "regionsCollected" (VInt 0));
           (VStr "resourceRegionsFound",
            Accumulator.get_default global_metrics "resourceRegionsFound" (VInt 0));
           (VStr "networkHealth",
            Accumulator.get_default global_metrics "networkHealth" (VDict [])) ])
      "";
  let dashboard_item := update dashboard_item global_flat in
  let ec2_section := Accumulator.get metrics "ec2" in
  dashboard_item ←
    (if truthy ec2_section then
       ec2 ← as_dict ec2_section;
       let dashboard_item :=
         <["ec2_byState" := Accumulator.get_default ec2 "byState" (VDict [])]>
           dashboard_item in
       let dashboard_item :=
         <["ec2_healthStatus" := Accumulator.get_default ec2 "healthStatus" (VDict [])]>
           dashboard_item in
       patch ←
         as_dict (py_or (Accumulator.get_default ec2 "patchCompliance" (VDict []))
                        (VDict []));
       compliant ← py_int (Accumulator.get_default patch "compliant" (VInt 0));
       let dashboard_item := <["ec2_ssm_compliant" := VInt compliant]> dashboard_item in
       non_compliant ← py_int (Accumulator.get_default patch "nonCompliant" (VInt 0));
       let dashboard_item :=
         <["ec2_ssm_not_compliant" := VInt non_compliant]> dashboard_item in
       unknown ← py_int (Accumulator.get_default patch "unknown" (VInt 0));
       mret (<["ec2_ssm_unknown" := VInt unknown]> dashboard_item)
     else mret dashboard_item);
  dashboard_item ← _include_section metrics dashboard_item "ec2" "ec2";
  let rds_section := Accumulator.get metrics "rds" in
  dashboard_item ←
    (if truthy rds_section then
       rds ← as_dict rds_section;
       mret (<["rds_engines" := Accumulator.get_default rds "engines" (VDict [])]>
               dashboard_item)
     else mret dashboard_item);
  dashboard_item ← _include_section metrics dashboard_item "rds" "rds";
  dashboard_item ← _include_section metrics dashboard_item "storage" "storage";
  dashboard_item ← _include_section metrics dashboard_item "unattached" "unattached";
  dashboard_item ← _include_section metrics dashboard_item "security" "security";
  network_health ←
    as_dict (py_or (Accumulator.get_default global_metrics "networkHealth" (VDict []))
                   (VDict []));
  mret (network_fields network_health dashboard_item).

(** The archived item: a copy with the date in its id. *)
Definition archived_item (dashboard_item : flat) : flat :=
  <["isArchive" := VBool true]>
  (<["isLatest" := VBool false]>
  (<["id" := VStr ("METRICS_DASHBOARD_" ++ date_str_br)]> dashboard_item)).

(** *** Saving both *)

(** The collaborator [batch_write_to_dynamodb]: it acts on the tables it is
    given, in a world of its own, and returns a count or raises an
    [Exception], which is what the loop catches. *)
Context {table world : Type}.
Context (batch_write_to_dynamodb :
           world -> list table -> list flat -> world * result Z).

(** What the logger receives for one table. *)
Inductive log_record : Type :=
| LogSaved (n_items : Z) (t : table)
| LogError (t : table).

Record saved : Type := {
  total_saved : Z;
  logged : list log_record;
  world_after : world
}.

Fixpoint save_loop (metrics_tables : list table) (items_to_save : list flat)
    (acc : saved) : saved :=
  match metrics_tables with
  | [] => acc
  | t :: rest =>
      match batch_write_to_dynamodb (world_after acc) [t] items_to_save with
      | (w, Ok count) =>
          save_loop rest items_to_save
            {| total_saved := count;
               logged := logged acc ++ [LogSaved (Accumulator.len items_to_save) t];
               world_after := w |}
      | (w, Raise _) =>
          save_loop rest items_to_save
            {| total_saved := total_saved acc;
               logged := logged acc ++ [LogError t];
               world_after := w |}
      end
  end.

Definition save_metrics_to_dynamodb (w : world) (metrics_tables : list table)
    (metrics : dict) : result saved :=
  dashboard_item ← current_item metrics;
  let dated_item := archived_item dashboard_item in
  let items_to_save := [dashboard_item; dated_item] in
  mret (save_loop metrics_tables items_to_save
          {| total_saved := 0; logged := []; world_after := w |}).

End Assemble.

End Persistence.

(** ** Reasoning about methods *)

Module Reasoning.
Import Py Accumulator.

(** [m] relates every store to the store it leaves, return or raise. *)
Definition preserves {A : Type} (R : relation accumulator) (m : M A) : Prop :=
  forall st, R st (fst (m st)).

(** [m] returns, and relates the stores. *)
Definition runs {A : Type} (R : relation accumulator) (m : M A) : Prop :=
  forall st, exists st' a, m st = (st', Ok a) /\ R st st'.

(** A reading of the store is kept. *)
Definition keeps {X : Type} (f : accumulator -> X) : relation accumulator :=
  fun s s' => f s' = f s.

(** A key that was seen stays seen. *)
Definition seen_grows : relation accumulator :=
  fun s s' =>
    forall k, seen_mem (_seen_ebs s) k = true -> seen_mem (_seen_ebs s') k = true.

(** A counter does not decrease. *)
Definition counter_grows (a : counter_attr) : relation accumulator :=
  fun s s' => num s a <= num s' a.

(** The running bucket of the state histogram, the connected counter of
    the SSM agent and the compliant counter of patch compliance. *)
Definition ec2_three_counters (st : accumulator) : Z * Z * Z :=
  (tally_get (tallies st ec2_states) (VStr "running"),
   num st ec2_ssm_connected, num st ec2_patch_compliant).

(** The state of an EC2 record as [_process_ec2_item] reads it. *)
Definition is_running (item : dict) : bool :=
  match method_lower (py_or (get item "instanceState") (VStr "unknown")) with
  | Ok state => String.eqb state "running"
  | Raise _ => false
  end.

(** The change of a counter between two stores. *)
Definition delta (st st' : accumulator) (a : counter_attr) : Z :=
  num st' a - num st a.

(** Of three counters, one went up by one and the others stayed. *)
Definition one_of_three (x y z : Z) : Prop :=
  (x = 1 /\ y = 0 /\ z = 0) \/ (x = 0 /\ y = 1 /\ z = 0) \/ (x = 0 /\ y = 0 /\ z = 1).

(** The counters that [_process_ec2_item] partitions. *)
Definition ec2_bucket_attr (a : counter_attr) : bool :=
  match a with
  | ec2_ssm_connected | ec2_ssm_notconnected | ec2_ssm_notinstalled
  | ec2_total | ec2_running
  | ec2_patch_compliant | ec2_patch_noncompliant | ec2_patch_unknown => true
  | _ => false
  end.

(** SSM buckets against running instances, patch buckets against all. *)
Definition ssm_partition (st : accumulator) : Prop :=
  num st ec2_ssm_connected + num st ec2_ssm_notconnected + num st ec2_ssm_notinstalled
  = num st ec2_running.

Definition patch_partition (st : accumulator) : Prop :=
  num st ec2_patch_compliant + num st ec2_patch_noncompliant + num st ec2_patch_unknown
  = num st ec2_total.

(** A section of the snapshot that is there: a dictionary, not None. *)
Definition is_section (v : value) : bool :=
  match v with
  | VDict _ => true
  | _ => false
  end.

Section Split.

Context (json_loads : string -> option value).

(** The counting of dimensions and of network health that [add_resource]
    does before it dispatches on the resource type. *)
Definition prelude (item : dict) : M unit :=
  let resource_type := get item "resourceType" in
  tally resource_counts resource_type ;;
  let account_id := get item "accountId" in
  (if truthy account_id then
     tally account_counts account_id ;;
     let account_name := get item "accountName" in
     when (truthy account_name)
       (modify (fun st =>
          set_account_names (dict_set (account_names st) account_id account_name) st))
   else ret tt) ;;
  let region := get item "region" in
  when (truthy region && negb (str_is region "global")) (tally region_counts region) ;;
  _process_network_resource resource_type item.

(** The dispatch that ends [add_resource]. *)
Definition dispatch (item : dict) : M unit :=
  let resource_type := get item "resourceType" in
  if str_is resource_type "EC2Instance" then _process_ec2_item item
  else if str_is resource_type "RDSInstance" then _process_rds_item item
  else if str_is resource_type "S3Bucket" then _process_s3_item item
  else if str_is resource_type "EBSVolume" then _process_ebs_item json_loads item
  else if str_is resource_type "ElasticIP" then _process_eip_item item
  else if str_is resource_type "SecurityGroup" then _process_sg_item item
  else if str_is resource_type "EBSSnapshot" || str_is resource_type "AMI"
  then _process_snapshot_item item
  else if str_is resource_type "VPC" then bump vpc_total
  else if str_is resource_type "Subnet" then bump subnet_total
  else if str_is resource_type "EFSFileSystem" then bump efs_total
  else if str_is resource_type "FSxFileSystem" then bump fsx_total
  else if str_is resource_type "BackupPlan" then bump backup_plans
  else if str_is resource_type "BackupVault" then bump backup_vaults
  else if str_is resource_type "BackupRecoveryPoint" then bump backup_recovery_points
  else ret tt.

End Split.

(** Whether a call returns, and whether every call of a run does. *)
Definition returns {A : Type} (r : result A) : bool :=
  match r with
  | Ok _ => true
  | Raise _ => false
  end.

Definition call_returns (json_loads : string -> option value) (c : call)
    (st : accumulator) : bool :=
  match c with
  | AddResource item => returns (snd (add_resource json_loads item st))
  | AddCollectedRegion region => returns (snd (add_collected_region region st))
  end.

Fixpoint all_return (json_loads : string -> option value) (calls : list call)
    (st : accumulator) : bool :=
  match calls with
  | [] => true
  | c :: rest =>
      call_returns json_loads c st && all_return json_loads rest (perform json_loads c st)
  end.

End Reasoning.

(** ** The keys the flattening writes *)

Module Keys.
Import Py Flatten.

(** The loop of [flatten_metric] over the elements of a list, from index [i]. *)
Fixpoint flatten_elems (target : flat) (l : list value) (i : nat) (new_key : string)
  : flat :=
  match l with
  | [] => target
  | elem :: l' =>
      flatten_elems
        match elem with
        | VDict d => flatten_items target d (indexed new_key i)
        | VList _ => flatten_entry target new_key (VStr (pretty i)) elem
        | _ => <[indexed new_key i := elem]> target
        end
        l' (S i) new_key
  end.

(** The sanitized key in the specification's words: every character that
    is neither alphanumeric nor an underscore replaced by an underscore,
    leading and trailing underscores trimmed. *)
Definition replace_and_trim (s : string) : string :=
  strip_with (Ascii.eqb underscore)
    (map_string (fun ch => if isalnum ch || Ascii.eqb ch underscore then ch else underscore) s).

Fixpoint string_forall (p : ascii -> bool) (s : string) : bool :=
  match s with
  | EmptyString => true
  | String c s' => p c && string_forall p s'
  end.

Definition head_char (s : string) : option ascii :=
  match s with
  | EmptyString => None
  | String c _ => Some c
  end.

Fixpoint last_char (s : string) : option ascii :=
  match s with
  | EmptyString => None
  | String c EmptyString => Some c
  | String _ s' => last_char s'
  end.

(** A key made of alphanumeric characters and underscores, not empty, with
    no underscore at either end. *)
Definition clean_key (s : string) : Prop :=
  s <> ""
  /\ string_forall (fun ch => isalnum ch || Ascii.eqb ch underscore) s = true
  /\ head_char s <> Some underscore
  /\ last_char s <> Some underscore.

(** The names under which the assembler stores what it takes from the
    metrics: section prefixes and fields of the global section. *)
Definition metric_names : list string :=
  [ "ec2"; "rds"; "storage"; "unattached"; "security"; "networkHealth";
    "totalResources"; "resourceCounts"; "regionsCollected"; "resourceRegionsFound";
    "accountDistribution"; "regionDistribution" ].

(** A key that starts with none of them. *)
Definition outside_metrics (key : string) : bool :=
  forallb (fun name => negb (String.prefix name key)) metric_names.

(** An entry writes only keys that start with its own new key. *)
Definition entry_frame (v : value) : Prop :=
  forall (t : flat) (p : string) (k : value) (key : string),
    String.prefix (extend p (_sanitize_flat_key k)) key = false ->
    flatten_entry t p k v !! key = t !! key.

(** The fields the assembler sets before it merges any metric. *)
Definition base_item (date_str_iso date_str_br iso_timestamp : string)
    (processing_duration : value) : flat :=
  <["processingDurationSeconds" := processing_duration]>
  (<["updatedAt" := VStr iso_timestamp]>
  (<["createdAt" := VStr iso_timestamp]>
  (<["isMetric" := VBool true]>
  (<["metricDateKey" := VStr date_str_br]>
  (<["metricDate" := VStr date_str_iso]>
  (<["region" := VStr "global"]>
  (<["accountName" := VStr "Metrics Dashboard"]>
  (<["accountId" := VStr "GLOBAL"]>
  (<["resourceType" := VStr "METRICS_DASHBOARD"]>
  (<["id" := VStr "METRIC_DASHBOARD_CURRENT"]> ∅)))))))))).

End Keys.

(** ** The writes of a run, told apart from the loop that makes them *)

Module Writes.
Import Py Flatten Persistence.

Section Outcomes.

Context {table world : Type}.
Context (batch_write_to_dynamodb :
           world -> list table -> list flat -> world * result Z).

(** What each table's write gave, in the order of the tables, the
    collaborator's world passing from one call to the next. *)
Fixpoint write_outcomes (w : world) (metrics_tables : list table)
    (items : list flat) : list (result Z) :=
  match metrics_tables with
  | [] => []
  | t :: rest =>
      let '(w', r) := batch_write_to_dynamodb w [t] items in
      r :: write_outcomes w' rest items
  end.

(** The world after every table has been written to, failed writes included. *)
Definition world_after_writes (w : world) (metrics_tables : list table)
    (items : list flat) : world :=
  fold_left (fun w t => fst (batch_write_to_dynamodb w [t] items)) metrics_tables w.

(** The count of the last write that succeeded, if one did. *)
Fixpoint last_success (outcomes : list (result Z)) : option Z :=
  match outcomes with
  | [] => None
  | r :: rest =>
      match last_success rest with
      | Some count => Some count
      | None =>
          match r with
          | Ok count => Some count
          | Raise _ => None
          end
      end
  end.

Definition raised (r : result Z) : Prop :=
  match r with
  | Ok _ => False
  | Raise _ => True
  end.

(** The log record of one table, given what its write gave. *)
Definition log_of (n_items : Z) (t : table) (r : result Z) : log_record :=
  match r with
  | Ok _ => LogSaved n_items t
  | Raise _ => LogError t
  end.

End Outcomes.

(** A collaborator for examples: the world is the list of the tables
    written to so far; a table named by an odd number fails, an even one
    reports as many items as it was given. *)
Definition sample_writer (w : list nat) (tables : list nat) (items : list flat)
  : list nat * result Z :=
  ((w ++ tables)%list,
   if forallb Nat.even tables then Ok (Accumulator.len items) else Raise ValueError).

End Writes.

(** ** Sample records *)

Module Samples.
Import Py Accumulator.

(** A parser that rejects every text. *)
Definition no_json (s : string) : option value := None.

Definition ebs_available : dict :=
  [ (VStr "resourceType", VStr "EBSVolume"); (VStr "accountId", VStr "111122223333");
    (VStr "region", VStr "us-east-1"); (VStr "volumeId", VStr "vol-1");
    (VStr "state", VStr "available") ].

Definition ebs_empty_attachments : dict :=
  [ (VStr "resourceType", VStr "EBSVolume"); (VStr "volumeId", VStr "vol-1");
    (VStr "attachments", VList []) ].

Definition ebs_empty_attached_instances : dict :=
  [ (VStr "resourceType", VStr "EBSVolume"); (VStr "volumeId", VStr "vol-1");
    (VStr "attached_instances", VList []) ].

Definition ebs_one_attachment : dict :=
  [ (VStr "resourceType", VStr "EBSVolume"); (VStr "volumeId", VStr "vol-1");
    (VStr "attachments", VList [VDict [(VStr "instanceId", VStr "i-1")]]) ].

Definition vif_flag_down_peer_up : dict :=
  [ (VStr "resourceType", VStr "DirectConnectVirtualInterface");
    (VStr "bgpAllUp", VBool false);
    (VStr "bgpPeers", VList [VDict [(VStr "bgpStatus", VStr "up")]]) ].

Definition vif_flag_up_peer_down : dict :=
  [ (VStr "resourceType", VStr "DirectConnectVirtualInterface");
    (VStr "bgpAllUp", VBool true);
    (VStr "bgpPeers", VList [VDict [(VStr "bgpStatus", VStr "down")]]) ].

Definition ec2_running : dict :=
  [ (VStr "resourceType", VStr "EC2Instance"); (VStr "accountId", VStr "111122223333");
    (VStr "accountName", VStr "prod"); (VStr "region", VStr "us-east-1");
    (VStr "instanceState", VStr "running"); (VStr "ssmStatus", VStr "Online");
    (VStr "patchCompliance", VStr "Compliant"); (VStr "cwAgentMemoryDetected", VBool true) ].

Definition ec2_stopped : dict :=
  [ (VStr "resourceType", VStr "EC2Instance"); (VStr "region", VStr "eu-west-1");
    (VStr "instanceState", VStr "stopped"); (VStr "patchCompliance", VStr "NON_COMPLIANT") ].

Definition rds_available : dict :=
  [ (VStr "resourceType", VStr "RDSInstance"); (VStr "status", VStr "available");
    (VStr "engine", VStr "postgres"); (VStr "multiAZ", VBool true) ].

(** The snapshot of a short run, and the current item assembled from it. *)
Definition snapshot : dict :=
  get_metrics
    (feed no_json
       [ AddResource ec2_running; AddCollectedRegion (VStr "us-east-1");
         AddResource ec2_stopped; AddResource rds_available;
         AddResource ebs_available ]
       reset).

Definition current : Flatten.flat :=
  match
    Persistence.current_item "2025-09-24" "24_09_2025" "2025-09-24T12:00:00+00:00"
      (VInt 2) snapshot
  with
  | Ok item => item
  | Raise _ => ∅
  end.

End Samples.

(** ** The other helpers of the class *)

Module Helpers.
Import Py Accumulator.

(** The properties other modules read: [self.resource_counts.get(name, 0)]. *)
Definition s3_buckets (st : accumulator) : Z :=
  tally_get (tallies st resource_counts) (VStr "S3Bucket").

Definition ebs_volumes (st : accumulator) : Z :=
  tally_get (tallies st resource_counts) (VStr "EBSVolume").

Definition efs_filesystems (st : accumulator) : Z :=
  tally_get (tallies st resource_counts) (VStr "EFSFileSystem").

Definition fsx_filesystems (st : accumulator) : Z :=
  tally_get (tallies st resource_counts) (VStr "FSxFileSystem").

(** The API names of the volume types. *)
Definition volume_api_names : list string :=
  ["gp3"; "gp2"; "io1"; "io2"; "st1"; "sc1"; "standard"].

Definition _normalize_volume_api_name (vtype : value) : result string :=
  match method_lower (py_or vtype (VStr "")) with
  | Raise e => Raise e
  | Ok v =>
      Ok (if string_in v volume_api_names then v
          else if string_in v ["gp-3"; "general_purpose_gp3"; "general-purpose-gp3"]
          then "gp3"
          else if string_in v ["gp-2"; "general_purpose"; "general-purpose"] then "gp2"
          else if string_in v ["throughput-optimized-hdd"; "throughput_optimized_hdd"]
          then "st1"
          else if string_in v ["cold-hdd"; "cold_hdd"] then "sc1"
          else if string_in v ["magnetic"] then "standard"
          else "gp3")
  end.

(** [v.startswith(prefix)]: only strings have the method. *)
Definition method_startswith (v : value) (prefix : string) : result bool :=
  match v with
  | VStr s => Ok (String.prefix prefix s)
  | _ => Raise AttributeError
  end.

(** Get a human-readable identifier for a resource. *)
Definition _get_resource_identifier (item : dict) : result value :=
  let resource_type := get_default item "resourceType" (VStr "") in
  if str_is resource_type "EC2Instance" then
    Ok (py_or (get item "instanceName") (get_default item "instanceId" (VStr "Unknown")))
  else if str_is resource_type "S3Bucket" then
    Ok (get_default item "bucketName" (VStr "Unknown"))
  else if str_is resource_type "RDSInstance" then
    Ok (get_default item "dbInstanceId" (VStr "Unknown"))
  else if str_is resource_type "EBSVolume" then
    Ok (py_or (get item "volumeName") (get_default item "volumeId" (VStr "Unknown")))
  else if str_is resource_type "VPC" then
    Ok (py_or (get item "vpcName") (get_default item "vpcId" (VStr "Unknown")))
  else if str_is resource_type "SecurityGroup" then
    Ok (get_default item "groupName" (get_default item "groupId" (VStr "Unknown")))
  else if str_is resource_type "EFSFileSystem" then
    Ok (get_default item "fileSystemId" (VStr "Unknown"))
  else if str_is resource_type "FSxFileSystem" then
    Ok (get_default item "fileSystemId" (VStr "Unknown"))
  else
    match method_startswith resource_type "Backup" with
    | Raise e => Raise e
    | Ok true => Ok (get_default item "id" (VStr "Unknown"))
    | Ok false => Ok (get_default item "id" (VStr "Unknown"))
    end.

(** The fields [_get_resource_identifier] looks at. *)
Definition identifier_fields : list string :=
  [ "instanceName"; "instanceId"; "bucketName"; "dbInstanceId"; "volumeName";
    "volumeId"; "vpcName"; "vpcId"; "groupName"; "groupId"; "fileSystemId"; "id" ].

End Helpers.

(** ** Counting the calls of a run *)

Module Census.
Import Py Accumulator.

(** How many calls of a run satisfy [p]. *)
Fixpoint count (p : call -> bool) (calls : list call) : Z :=
  match calls with
  | [] => 0
  | c :: rest => (if p c then 1 else 0) + count p rest
  end.

(** An [add_resource] of a record whose type can be a dictionary key. *)
Definition counted (c : call) : bool :=
  match c with
  | AddResource item =>
      truthy (get item "resourceType") && hashable (get item "resourceType")
  | AddCollectedRegion _ => false
  end.

(** An [add_resource] of a record whose type equals [k]. *)
Definition of_type (k : value) (c : call) : bool :=
  match c with
  | AddResource item =>
      truthy (get item "resourceType") && key_eqb (get item "resourceType") k
  | AddCollectedRegion _ => false
  end.

(** An [add_collected_region] of a region equal to [x]. *)
Definition collects (x : value) (c : call) : bool :=
  match c with
  | AddCollectedRegion region => truthy region && key_eqb region x
  | AddResource _ => false
  end.

(** An entry comes before another when its count is not smaller. *)
Definition count_ge (x y : value * Z) : Prop := snd y <= snd x.

(** No entry comes before one with a larger count. *)
Fixpoint descending (c : list (value * Z)) : Prop :=
  match c with
  | [] => True
  | x :: rest => Forall (count_ge x) rest /\ descending rest
  end.

(** The entries that have a given count, in their order. *)
Definition with_count (n : Z) (c : list (value * Z)) : list (value * Z) :=
  List.filter (fun x => snd x =? n) c.

(** A section of a snapshot, read as a dictionary. *)
Definition section_of (metrics : dict) (name : string) : dict :=
  match get metrics name with
  | VDict d => d
  | _ => []
  end.

(** The entries of a distribution of the snapshot read back: of each
    dictionary of the list the field [id_field] and the integer under
    [count]. *)
Definition count_of (entry : dict) : Z :=
  match get entry "count" with
  | VInt count => count
  | _ => 0
  end.

Definition fields_of (entry : value) : dict :=
  match entry with
  | VDict d => d
  | _ => []
  end.

Definition distribution_entries (id_field : string) (distribution : value)
    : list (value * Z) :=
  match distribution with
  | VList entries =>
      map (fun entry => (get (fields_of entry) id_field, count_of (fields_of entry)))
          entries
  | _ => []
  end.

(** The field [name] of every entry of a distribution. *)
Definition distribution_field (name : string) (distribution : value) : list value :=
  match distribution with
  | VList entries => map (fun entry => get (fields_of entry) name) entries
  | _ => []
  end.

End Census.

(** ** What holds of the store after every call *)

Module Invariants.
Import Py Accumulator.

(** No record is counted under the region global, and neither the
    accounts nor the regions count more records than the types do. *)
Definition dimensions_bounded (st : accumulator) : Prop :=
  tally_get (tallies st region_counts) (VStr "global") = 0
  /\ tally_sum (tallies st account_counts) <= tally_sum (tallies st resource_counts)
  /\ tally_sum (tallies st region_counts) <= tally_sum (tallies st resource_counts).

(** The account fields of a record that [add_resource] gets to store. *)
Definition names_account (item : dict) : bool :=
  truthy (get item "resourceType") && hashable (get item "resourceType")
  && truthy (get item "accountId") && hashable (get item "accountId")
  && truthy (get item "accountName").

(** The network buckets are the four of [reset], each with at most as
    many healthy resources as resources. *)
Definition network_keys : list string :=
  [ "directConnectConnections"; "directConnectVirtualInterfaces";
    "vpnConnections"; "transitGateways" ].

Definition bucket_ok (b : bucket) : Prop := 0 <= healthy b <= total b.

Definition network_ok (st : accumulator) : Prop :=
  map fst (network_health st) = network_keys
  /\ Forall (fun kb => bucket_ok (snd kb)) (network_health st).

(** Whether one entry of [bgpPeers] makes the interface healthy. *)
Definition peer_up (peer : value) : bool :=
  match peer with
  | VDict p =>
      match _normalize_state (get p "bgpStatus") with
      | Some peer_status => String.eqb peer_status "up"
      | None => state_is (_normalize_state (get p "bgpPeerState")) "available"
      end
  | _ => false
  end.

(** The resource types that [_process_network_resource] handles. *)
Definition network_type (resource_type : value) : bool :=
  str_is resource_type "DirectConnectConnection"
  || str_is resource_type "DirectConnectVirtualInterface"
  || str_is resource_type "VPNConnection"
  || str_is resource_type "TransitGateway".

(** Every counter of a part is at most the counter of its whole.  Inside
    [_process_ec2_item] the total has been raised before its parts are:
    [room] is what the state counters and [due] what the patch counters
    still have to take up. *)
Definition parts_between (room due : Z) (st : accumulator) : Prop :=
  num st s3_with_lifecycle <= num st s3_total
  /\ num st rds_available <= num st rds_total
  /\ num st rds_multiaz <= num st rds_total
  /\ num st rds_performance_insights <= num st rds_total
  /\ num st sg_with_exposed_ports <= num st sg_total
  /\ num st ec2_running + num st ec2_stopped + room <= num st ec2_total
  /\ num st ec2_cw_both <= num st ec2_cw_memory
  /\ num st ec2_cw_both <= num st ec2_cw_disk
  /\ num st ec2_cw_memory + num st ec2_cw_disk - num st ec2_cw_both <= num st ec2_running
  /\ num st ec2_ssm_connected + num st ec2_ssm_notconnected + num st ec2_ssm_notinstalled
     <= num st ec2_running
  /\ num st ec2_patch_compliant + num st ec2_patch_noncompliant + num st ec2_patch_unknown
     + due <= num st ec2_total.

Definition parts_within : accumulator -> Prop := parts_between 0 0.

(** No two members of a set are equal. *)
Fixpoint set_distinct (s : list value) : bool :=
  match s with
  | [] => true
  | x :: rest => negb (existsb (key_eqb x) rest) && set_distinct rest
  end.

(** No two of the keys seen are equal. *)
Fixpoint seen_distinct (s : list (value * value * value)) : bool :=
  match s with
  | [] => true
  | k :: rest => negb (existsb (triple_eqb k) rest) && seen_distinct rest
  end.

(** The unattached volumes are among the volumes seen, and these among the
    EBS records counted; [room] is one between the counting of a record and
    its processing. *)
Definition ebs_between (room : Z) (st : accumulator) : Prop :=
  num st ebs_unattached <= len (_seen_ebs st)
  /\ len (_seen_ebs st) + room <= tally_get (tallies st resource_counts) (VStr "EBSVolume")
  /\ seen_distinct (_seen_ebs st) = true.

(** The counter that goes up with each record of a resource type. *)
Definition type_totals : list (string * counter_attr) :=
  [ ("EC2Instance", ec2_total); ("RDSInstance", rds_total); ("S3Bucket", s3_total);
    ("SecurityGroup", sg_total); ("VPC", vpc_total); ("Subnet", subnet_total);
    ("EFSFileSystem", efs_total); ("FSxFileSystem", fsx_total);
    ("BackupPlan", backup_plans); ("BackupVault", backup_vaults);
    ("BackupRecoveryPoint", backup_recovery_points) ].

(** Equal, or at most. *)
Definition agree (strict : bool) (x y : Z) : Prop :=
  if strict then x = y else x <= y.

(** Each of these counters against the count of its type; a record of
    type [pending] has been counted and not yet processed. *)
Definition totals_between (strict : bool) (pending : value) (st : accumulator) : Prop :=
  forall name a, In (name, a) type_totals ->
    agree strict (num st a + (if str_is pending name then 1 else 0))
      (tally_get (tallies st resource_counts) (VStr name)).

(** The histograms of states, of health and of engines against the
    instances they sort; inside a processor the total has been raised
    before the histogram is, and [room] is what the histogram still has to
    take up. *)
Definition histograms_between (strict : bool) (room_states room_health room_engines : Z)
    (st : accumulator) : Prop :=
  agree strict (tally_sum (tallies st ec2_states) + room_states) (num st ec2_total)
  /\ agree strict (tally_sum (tallies st ec2_health) + room_health) (num st ec2_total)
  /\ agree strict (tally_sum (tallies st rds_engines) + room_engines) (num st rds_total).

(** The unassociated addresses are among the Elastic IP records counted,
    and no snapshot is ever found orphaned. *)
Definition addresses_between (room : Z) (st : accumulator) : Prop :=
  num st eip_unassociated + room
  <= tally_get (tallies st resource_counts) (VStr "ElasticIP")
  /\ num st snapshots_orphaned = 0.

(** *** The records [add_resource] accepts *)

Definition is_str (v : value) : bool :=
  match v with
  | VStr _ => true
  | _ => false
  end.

(** What [_process_ec2_item] needs of a record: the fields it lowers are
    strings when they are true (the SSM status is read for a running
    instance only), the health status can be a key. *)
Definition ec2_accepted (item : dict) : bool :=
  is_str (py_or (get item "instanceState") (VStr "unknown"))
  && ((negb (Reasoning.is_running item) || is_str (py_or (get item "ssmStatus") (VStr "")))
      && (hashable (get_default item "healthStatus" (VStr "Unknown"))
          && is_str (py_or (get item "patchCompliance") (VStr "Unknown")))).

Definition rds_accepted (item : dict) : bool :=
  is_str (py_or (get item "status") (VStr ""))
  && hashable (get_default item "engine" (VStr "unknown")).

(** What the processor of the record's type needs. *)
Definition processor_accepts (item : dict) : bool :=
  let resource_type := get item "resourceType" in
  if str_is resource_type "EC2Instance" then ec2_accepted item
  else if str_is resource_type "RDSInstance" then rds_accepted item
  else if str_is resource_type "S3Bucket" then true
  else if str_is resource_type "EBSVolume" then triple_hashable (ebs_key item)
  else true.

(** What the counting of the dimensions needs: the type, the account and
    the region, where they are counted, can be keys. *)
Definition accepted (item : dict) : bool :=
  negb (truthy (get item "resourceType"))
  || (hashable (get item "resourceType")
      && ((negb (truthy (get item "accountId")) || hashable (get item "accountId"))
          && ((negb (truthy (get item "region")
                     && negb (str_is (get item "region") "global"))
               || hashable (get item "region"))
              && processor_accepts item))).

(** As [triple], with a postcondition that reads the value returned. *)
Definition triple_val {A : Type} (P : accumulator -> Prop) (m : M A)
    (Q : A -> accumulator -> Prop) (E : accumulator -> Prop) : Prop :=
  forall st, P st ->
    match m st with
    | (st', Ok a) => Q a st'
    | (st', Raise _) => E st'
    end.

(** A relation that an invariant gives. *)
Definition carries (I : accumulator -> Prop) : relation accumulator :=
  fun s s' => I s -> I s'.

(** From a store in [P], the method ends in [Q] when it returns and in [E]
    when it raises. *)
Definition triple {A : Type} (P : accumulator -> Prop) (m : M A)
    (Q E : accumulator -> Prop) : Prop :=
  forall st, P st ->
    match m st with
    | (st', Ok _) => Q st'
    | (st', Raise _) => E st'
    end.

End Invariants.

(** ** What the flattening leaves *)

Module Flatness.
Import Py Flatten.

(** A value with nothing nested in it. *)
Definition scalar (v : value) : bool :=
  match v with
  | VList _ | VDict _ => false
  | _ => true
  end.

(** A target whose values are all scalars. *)
Definition all_scalar (t : flat) : Prop := map_Forall (fun _ v => scalar v = true) t.

(** An entry keeps a target flat. *)
Definition entry_flat (v : value) : Prop :=
  forall (t : flat) (p : string) (k : value),
    all_scalar t -> all_scalar (flatten_entry t p k v).

End Flatness.

(** * Properties *)

(** ** The builtins on sample inputs *)

Section Builtins.
Import Py Accumulator Persistence.

Example str_of_nested :
  py_str (VList [VInt 1; VStr "a"; VNone; VBool true; VDict [(VStr "k", VList [])]])
  = "[1, 'a', None, True, {'k': []}]".
Proof. reflexivity. Qed.

Example normalize_trims_and_lowers :
  _normalize_state (VStr "  In-Use ") = Some "in-use"
  /\ _normalize_state (VStr "   ") = None
  /\ _normalize_state (VBool true) = Some "true"
  /\ _normalize_state VNone = None.
Proof. repeat split. Qed.

Example or_chain_of_falsy_values :
  py_or (py_or (VList []) VNone) VNone = VNone
  /\ py_or (py_or VNone VNone) (VList []) = VList [].
Proof. split; reflexivity. Qed.

Example true_and_one_are_one_key :
  tally_incr (tally_incr [] (VBool true)) (VInt 1) = [(VBool true, 2)].
Proof. reflexivity. Qed.

Example sorted_by_count_is_stable :
  sorted_by_count [(VStr "a", 1); (VStr "b", 2); (VStr "c", 1); (VStr "d", 2)]
  = [(VStr "b", 2); (VStr "d", 2); (VStr "a", 1); (VStr "c", 1)].
Proof. reflexivity. Qed.

Example int_of_text :
  py_int (VStr " +1_000 ") = Ok 1000
  /\ py_int (VStr "-12") = Ok (-12)
  /\ py_int (VStr "1__0") = Raise ValueError
  /\ py_int (VStr "1_") = Raise ValueError
  /\ py_int VNone = Raise TypeError.
Proof. repeat split. Qed.

Example percentages :
  Pct._safe_pct 1 3 = 33 /\ Pct._safe_pct 1 8 = 12 /\ Pct._safe_pct 3 8 = 38
  /\ Pct._safe_pct 97 104 = 93 /\ Pct._safe_pct (-7) 200 = -4
  /\ Pct._safe_pct (10 ^ 400) 1 = 0.
Proof. vm_compute. repeat split. Qed.

End Builtins.


(** ** Percentages

    [_safe_pct] rounds three times: the quotient to a double, its product
    with 100 to a double, and that to an integer.  The first two are
    followed through [SFdiv] and [SFmul] in units of [2^-1074]; each ends
    within half a unit in the last place of the exact value. *)

Section Digits.

Lemma digits2_pos_bounds (p : positive) :
  2 ^ (Z.pos (digits2_pos p) - 1) <= Z.pos p < 2 ^ Z.pos (digits2_pos p).
Proof.
  induction p as [p IH|p IH|]; simpl digits2_pos.
  - rewrite Pos2Z.inj_succ. change (Z.pos p~1) with (2 * Z.pos p + 1).
    replace (Z.succ (Z.pos (digits2_pos p)) - 1) with (Z.succ (Z.pos (digits2_pos p) - 1)) by lia.
    rewrite !Z.pow_succ_r by lia. lia.
  - rewrite Pos2Z.inj_succ. change (Z.pos p~0) with (2 * Z.pos p).
    replace (Z.succ (Z.pos (digits2_pos p)) - 1) with (Z.succ (Z.pos (digits2_pos p) - 1)) by lia.
    rewrite !Z.pow_succ_r by lia. lia.
  - change (1 <= 1 < 2). lia.
Qed.

Lemma Zdigits2_nonneg (m : Z) : 0 <= Zdigits2 m.
Proof. destruct m; simpl; lia. Qed.

Lemma Zdigits2_bounds (m : Z) :
  0 < m -> 2 ^ (Zdigits2 m - 1) <= m < 2 ^ Zdigits2 m.
Proof. destruct m as [|p|p]; try lia. intros _. apply digits2_pos_bounds. Qed.

Lemma Zdigits2_positive (m : Z) : 0 < m -> 1 <= Zdigits2 m.
Proof. destruct m as [|p|p]; simpl; lia. Qed.

Lemma pow2_positive (e : Z) : 0 <= e -> 0 < 2 ^ e.
Proof. intros He. apply Z.pow_pos_nonneg; lia. Qed.

Lemma pow2_lt_inv (a b : Z) : 2 ^ a < 2 ^ b -> a < b.
Proof.
  intros H. destruct (Z_lt_le_dec a b) as [|Hle]; [assumption|].
  destruct (Z_lt_le_dec b 0) as [Hb|Hb].
  - rewrite (Z.pow_neg_r 2 b) in H by lia.
    destruct (Z_lt_le_dec a 0) as [Ha|Ha].
    + rewrite (Z.pow_neg_r 2 a) in H by lia. lia.
    + pose proof (pow2_positive a Ha). lia.
  - pose proof (Z.pow_le_mono_r 2 b a ltac:(lia) Hle). lia.
Qed.

(** A number below [2^k] has at most [k] digits; one from [2^k] on has more. *)
Lemma Zdigits2_le (m k : Z) : 0 <= m < 2 ^ k -> 0 <= k -> Zdigits2 m <= k.
Proof.
  intros [Hm Hlt] Hk. destruct (Z.eq_dec m 0) as [->|]; [simpl; lia|].
  pose proof (Zdigits2_bounds m ltac:(lia)) as [Hlow _].
  assert (2 ^ (Zdigits2 m - 1) < 2 ^ k) by lia.
  apply pow2_lt_inv in H. lia.
Qed.

Lemma Zdigits2_gt (m k : Z) : 2 ^ k <= m -> 0 <= k -> k < Zdigits2 m.
Proof.
  intros Hle Hk. pose proof (pow2_positive k Hk).
  pose proof (Zdigits2_bounds m ltac:(lia)) as [_ Hup].
  apply pow2_lt_inv. lia.
Qed.

End Digits.

Section Shifts.
Import Rounding.

Lemma shr_record_of_loc_m (m : Z) (l : location) :
  shr_m (shr_record_of_loc m l) = m.
Proof. by destruct l as [|[]]. Qed.

Lemma loc_of_shr_record_of_loc (m : Z) (l : location) :
  loc_of_shr_record (shr_record_of_loc m l) = l.
Proof. by destruct l as [|[]]. Qed.

(** One shift to the right halves the mantissa and keeps the place of the
    value, now measured in units twice as large. *)
Lemma shr_1_located (mrs : shr_record) (N D : Z) :
  0 <= shr_m mrs -> 0 < D ->
  located (shr_m mrs) (loc_of_shr_record mrs) N D ->
  located (shr_m (shr_1 mrs)) (loc_of_shr_record (shr_1 mrs)) N (2 * D)
  /\ shr_m (shr_1 mrs) = shr_m mrs / 2.
Proof.
  destruct mrs as [m r s]. cbn [shr_m]. intros Hm HD.
  destruct m as [|[p|p|]|p]; try lia;
    destruct r, s; cbn [shr_1 loc_of_shr_record shr_m orb located];
    intros H;
    (split; [|first [ apply Z.div_unique_pos with (r := 0); lia
                    | apply Z.div_unique_pos with (r := 1); lia ]]);
    lia.
Qed.

Lemma iter_shr_1_located (p : positive) :
  forall (mrs : shr_record) (N D : Z),
    0 <= shr_m mrs -> 0 < D ->
    located (shr_m mrs) (loc_of_shr_record mrs) N D ->
    located (shr_m (SpecFloat.iter_pos shr_1 p mrs)) (loc_of_shr_record (SpecFloat.iter_pos shr_1 p mrs))
      N (2 ^ Z.pos p * D)
    /\ shr_m (SpecFloat.iter_pos shr_1 p mrs) = shr_m mrs / 2 ^ Z.pos p.
Proof.
  assert (Hdiv : forall m a b, 0 < a -> 0 < b -> m / a / b = m / (a * b)).
  { intros m a b Ha Hb. apply Z.div_div; lia. }
  assert (Hnonneg : forall m a, 0 <= m -> 0 < a -> 0 <= m / a).
  { intros m a Hm Ha. apply Z.div_pos; lia. }
  induction p as [p IH|p IH|]; intros mrs N D Hm HD Hloc; cbn [SpecFloat.iter_pos].
  - destruct (shr_1_located mrs N D Hm HD Hloc) as [H1 E1].
    pose proof (pow2_positive (Z.pos p) ltac:(lia)) as Hp.
    destruct (IH (shr_1 mrs) N (2 * D)) as [H2 E2];
      [rewrite E1; apply Hnonneg; lia | lia | exact H1 |].
    destruct (IH (SpecFloat.iter_pos shr_1 p (shr_1 mrs)) N (2 ^ Z.pos p * (2 * D))) as [H3 E3];
      [rewrite E2, E1; apply Hnonneg; [apply Hnonneg|]; lia | lia | exact H2 |].
    replace (2 ^ Z.pos p~1) with (2 ^ Z.pos p * (2 ^ Z.pos p * 2)).
    2:{ change (Z.pos p~1) with (2 * Z.pos p + 1).
        rewrite Z.pow_add_r, Z.pow_1_r by lia.
        replace (2 * Z.pos p) with (Z.pos p + Z.pos p) by lia.
        rewrite Z.pow_add_r by lia. ring. }
    split.
    + replace (2 ^ Z.pos p * (2 ^ Z.pos p * 2) * D)
        with (2 ^ Z.pos p * (2 ^ Z.pos p * (2 * D))) by ring.
      exact H3.
    + rewrite E3, E2, E1, !Hdiv by lia. f_equal. ring.
  - pose proof (pow2_positive (Z.pos p) ltac:(lia)) as Hp.
    destruct (IH mrs N D Hm HD Hloc) as [H2 E2].
    destruct (IH (SpecFloat.iter_pos shr_1 p mrs) N (2 ^ Z.pos p * D)) as [H3 E3];
      [rewrite E2; apply Hnonneg; lia | lia | exact H2 |].
    replace (2 ^ Z.pos p~0) with (2 ^ Z.pos p * 2 ^ Z.pos p).
    2:{ change (Z.pos p~0) with (2 * Z.pos p).
        replace (2 * Z.pos p) with (Z.pos p + Z.pos p) by lia.
        rewrite Z.pow_add_r by lia. ring. }
    split.
    + replace (2 ^ Z.pos p * 2 ^ Z.pos p * D)
        with (2 ^ Z.pos p * (2 ^ Z.pos p * D)) by ring.
      exact H3.
    + rewrite E3, E2, !Hdiv by lia. f_equal.
  - change (2 ^ 1) with 2. apply shr_1_located; assumption.
Qed.

End Shifts.

Section RoundToNearest.
Import Rounding Pct.

Lemma fexp_binary64 (e : Z) : fexp prec emax e = Z.max (e - 53) (-1074).
Proof. reflexivity. Qed.

Lemma ulp_at_positive (e : Z) : -1074 <= e -> 0 < ulp_at e.
Proof. intros He. apply pow2_positive. lia. Qed.

Lemma ulp_at_add (e k : Z) : -1074 <= e -> 0 <= k -> ulp_at (e + k) = 2 ^ k * ulp_at e.
Proof.
  intros He Hk. unfold ulp_at.
  replace (e + k + 1074) with (k + (e + 1074)) by lia.
  apply Z.pow_add_r; lia.
Qed.

Lemma shr_located (mrs : shr_record) (e n N D : Z) :
  0 <= shr_m mrs -> 0 < D ->
  located (shr_m mrs) (loc_of_shr_record mrs) N D ->
  snd (shr mrs e n) = e + Z.max n 0
  /\ shr_m (fst (shr mrs e n)) = shr_m mrs / 2 ^ Z.max n 0
  /\ located (shr_m (fst (shr mrs e n))) (loc_of_shr_record (fst (shr mrs e n)))
       N (2 ^ Z.max n 0 * D).
Proof.
  intros Hm HD Hloc. destruct n as [|p|p]; cbn [shr fst snd].
  - change (Z.max 0 0) with 0. change (2 ^ 0) with 1.
    rewrite Z.div_1_r, Z.mul_1_l. repeat split; [lia | exact Hloc].
  - replace (Z.max (Z.pos p) 0) with (Z.pos p) by lia.
    destruct (iter_shr_1_located p mrs N D Hm HD Hloc) as [H E].
    repeat split; assumption.
  - replace (Z.max (Z.neg p) 0) with 0 by lia. change (2 ^ 0) with 1.
    rewrite Z.div_1_r, Z.mul_1_l. repeat split; [lia | exact Hloc].
Qed.

Lemma shr_fexp_located (mx ex : Z) (lx : location) (N D : Z) :
  0 <= mx -> 0 < D -> located mx lx N D ->
  let e1 := Z.max ex (fexp prec emax (Zdigits2 mx + ex)) in
  let sh := shr_fexp prec emax mx ex lx in
  snd sh = e1
  /\ shr_m (fst sh) = mx / 2 ^ (e1 - ex)
  /\ located (shr_m (fst sh)) (loc_of_shr_record (fst sh)) N (2 ^ (e1 - ex) * D).
Proof.
  intros Hm HD Hloc e1 sh. subst sh. unfold shr_fexp.
  set (n := fexp prec emax (Zdigits2 mx + ex) - ex).
  assert (Hk : Z.max n 0 = e1 - ex) by (subst n e1; lia).
  destruct (shr_located (shr_record_of_loc mx lx) ex n N D) as (He & Em & Hl).
  - rewrite shr_record_of_loc_m. exact Hm.
  - exact HD.
  - rewrite shr_record_of_loc_m, loc_of_shr_record_of_loc. exact Hloc.
  - rewrite Hk, shr_record_of_loc_m in *. repeat split; [lia | exact Em | exact Hl].
Qed.

(** Rounding to nearest, halves to even, moves to one of the two
    neighbours and ends within half a unit of the value. *)
Lemma round_nearest_even_near (m : Z) (l : location) (N D : Z) :
  0 < D -> located m l N D ->
  let r := round_nearest_even m l in
  m <= r <= m + 1 /\ 2 * Z.abs (r * D - N) <= D /\ (N = m * D -> r = m).
Proof.
  intros HD Hloc r. subst r.
  destruct l as [|[]]; cbn [round_nearest_even located] in *;
    try destruct (Z.even m); lia.
Qed.

End RoundToNearest.

Section RoundAux.
Import Rounding Pct.

(** [binary_round_aux] on a located value: with no overflow the result is
    a zero or a finite double of the given sign, within half a unit in the
    last place of the value, and exact when no digit has to go. *)
Lemma binary_round_aux_near (s : bool) (mx ex : Z) (lx : location) (N D : Z) :
  0 <= mx -> 0 < D -> -1074 <= ex ->
  located mx lx N D ->
  lx = loc_Exact \/ ex <= fexp prec emax (Zdigits2 mx + ex) ->
  Z.max ex (fexp prec emax (Zdigits2 mx + ex)) < 971 ->
  let e1 := Z.max ex (fexp prec emax (Zdigits2 mx + ex)) in
  let x := binary_round_aux prec emax s mx ex lx in
  (x = S754_zero s
   \/ exists m e, x = S754_finite s m e /\ e1 <= e <= e1 + 1
                  /\ (ex <= fexp prec emax (Zdigits2 mx + ex) -> Z.pos m < 2 ^ 53))
  /\ 2 * Z.abs (scaled x * D - N * ulp_at ex) <= D * ulp_at e1
  /\ (fexp prec emax (Zdigits2 mx + ex) < ex -> scaled x * D = N * ulp_at ex).
Proof.
  intros Hm HD Hex Hloc Hshape Hfit. rewrite !fexp_binary64 in Hshape, Hfit |- *.
  intros e1 x. subst x. unfold binary_round_aux.
  pose proof (shr_fexp_located mx ex lx N D Hm HD Hloc) as (He1 & Em1 & Hloc1).
  rewrite fexp_binary64 in He1, Em1, Hloc1. fold e1 in He1, Em1, Hloc1.
  destruct (shr_fexp prec emax mx ex lx) as [mrs1 e1']. cbn [fst snd] in *. subst e1'.
  set (m1 := shr_m mrs1) in *. set (l1 := loc_of_shr_record mrs1) in *.
  assert (Hk : 0 <= e1 - ex) by (subst e1; lia).
  pose proof (pow2_positive (e1 - ex) Hk) as Hpow.
  set (D1 := 2 ^ (e1 - ex) * D) in *.
  assert (HD1 : 0 < D1) by (subst D1; nia).
  assert (Hm1 : 0 <= m1) by (rewrite Em1; apply Z.div_pos; lia).
  pose proof (round_nearest_even_near m1 l1 N D1 HD1 Hloc1) as (Hr & Hnear & Hkeep).
  set (r := round_nearest_even m1 l1) in *.
  assert (Hr0 : 0 <= r) by lia.
  pose proof (shr_fexp_located r e1 loc_Exact r 1 Hr0 ltac:(lia) ltac:(cbn; lia))
    as (He2 & Em2 & _).
  destruct (shr_fexp prec emax r e1 loc_Exact) as [mrs2 e2]. cbn [fst snd] in *.
  set (m2 := shr_m mrs2) in *. rewrite <- He2 in Em2. rewrite fexp_binary64 in He2.
  set (g := Zdigits2 mx + ex) in *.
  pose proof (Zdigits2_nonneg mx) as Hdx. pose proof (Zdigits2_nonneg r) as Hdr.
  assert (He1min : -1074 <= e1) by (subst e1; lia).
  (* the second shift loses nothing *)
  assert (Hsecond : (e2 = e1 /\ m2 = r /\ (ex <= Z.max (g - 53) (-1074) -> r < 2 ^ 53))
                    \/ (e2 = e1 + 1 /\ r = 2 * m2 /\ m2 = 2 ^ 52)).
  { destruct (Z_le_gt_dec ex (Z.max (g - 53) (-1074))) as [Hshift|Hnone].
    - (* digits went, or none had to *)
      assert (He1eq : e1 = Z.max (g - 53) (-1074)) by (subst e1; lia).
      set (h := Z.max (g - e1) 0).
      assert (Hh : 0 <= h <= 53) by (subst h; lia).
      assert (Hm1h : m1 < 2 ^ h).
      { pose proof (pow2_positive h ltac:(lia)).
        destruct (Z.eq_dec mx 0) as [->|Hmx].
        { rewrite Em1, Z.div_0_l by lia. lia. }
        pose proof (Zdigits2_bounds mx ltac:(lia)) as [_ Hup].
        destruct (Z_le_gt_dec (e1 - ex) (Zdigits2 mx)) as [Hfew|Hmany].
        - rewrite Em1. apply Z.div_lt_upper_bound; [lia|].
          rewrite <- Z.pow_add_r by lia.
          replace (e1 - ex + h) with (Zdigits2 mx) by (subst h g; lia). exact Hup.
        - rewrite Em1, Z.div_small; [lia|]. split; [lia|].
          eapply Z.lt_le_trans; [exact Hup|]. apply Z.pow_le_mono_r; lia. }
      assert (Hrh : r <= 2 ^ h) by lia.
      assert (H53 : 2 ^ h <= 2 ^ 53) by (apply Z.pow_le_mono_r; lia).
      assert (Hdr54 : Zdigits2 r <= 54).
      { apply Zdigits2_le; [|lia]. split; [lia|].
        change (2 ^ 54) with (2 * 2 ^ 53). lia. }
      destruct (Z_lt_le_dec r (2 ^ 53)) as [Hlt|Hge].
      + left. assert (Zdigits2 r <= 53) by (apply Zdigits2_le; lia).
        assert (Ee : e2 = e1) by lia. rewrite Ee in Em2 |- *.
        rewrite Z.sub_diag, Z.div_1_r in Em2. repeat split; [exact Em2 | intros _; exact Hlt].
      + right. assert (Hr53 : r = 2 ^ 53) by lia.
        assert (53 < Zdigits2 r) by (apply Zdigits2_gt; lia).
        assert (h = 53).
        { destruct (Z.eq_dec h 53); [assumption|].
          assert (2 ^ h <= 2 ^ 52) by (apply Z.pow_le_mono_r; lia).
          change (2 ^ 53) with (2 * 2 ^ 52) in Hr53.
          pose proof (pow2_positive 52 ltac:(lia)). lia. }
        assert (Ee : e2 = e1 + 1) by (subst h; lia). rewrite Ee in Em2 |- *.
        replace (e1 + 1 - e1) with 1 in Em2 by lia.
        rewrite Hr53 in Em2 |- *. change (2 ^ 53) with (2 ^ 52 * 2 ^ 1) in Em2 |- *.
        rewrite Z.div_mul in Em2 by (change (2 ^ 1) with 2; lia).
        change (2 ^ 1) with 2. repeat split; [rewrite Em2; ring | exact Em2].
    - (* an exact value that fits as it is *)
      left. destruct Hshape as [->|]; [|lia]. cbn [located] in Hloc.
      assert (e1 = ex) by (subst e1; lia).
      assert (m1 = mx).
      { rewrite Em1. replace (e1 - ex) with 0 by lia. apply Z.div_1_r. }
      assert (Hrm : r = mx).
      { replace mx with m1 by assumption. apply Hkeep. subst D1.
        replace (e1 - ex) with 0 by lia. change (2 ^ 0) with 1. lia. }
      assert (Ee : e2 = e1) by (rewrite Hrm in He2; fold g in He2; lia).
      rewrite Ee in Em2 |- *.
      rewrite Z.sub_diag, Z.div_1_r in Em2. repeat split; [exact Em2 | lia]. }
  (* the value of the result, in units of 2^-1074 *)
  assert (Hulp : ulp_at e1 = 2 ^ (e1 - ex) * ulp_at ex).
  { replace e1 with (ex + (e1 - ex)) at 1 by lia. apply ulp_at_add; lia. }
  pose proof (ulp_at_positive ex Hex) as Hu.
  assert (Hm2 : 0 <= m2) by (destruct Hsecond as [(_ & -> & _)|(_ & _ & ->)]; lia).
  assert (Hvalue : forall m, m2 = Z.pos m ->
            scaled (S754_finite s m e2) = r * ulp_at e1).
  { intros m Em. cbn [scaled]. rewrite <- Em.
    destruct Hsecond as [(-> & -> & _)|(-> & -> & _)]; [reflexivity|].
    rewrite ulp_at_add by lia. change (2 ^ 1) with 2. ring. }
  assert (Hnear' : 2 * Z.abs (r * ulp_at e1 * D - N * ulp_at ex) <= D * ulp_at e1).
  { rewrite Hulp.
    replace (r * (2 ^ (e1 - ex) * ulp_at ex) * D - N * ulp_at ex)
      with ((r * D1 - N) * ulp_at ex) by (subst D1; ring).
    replace (D * (2 ^ (e1 - ex) * ulp_at ex)) with (D1 * ulp_at ex) by (subst D1; ring).
    rewrite Z.abs_mul, (Z.abs_eq (ulp_at ex)) by lia. nia. }
  assert (Hexact' : Z.max (g - 53) (-1074) < ex -> r * ulp_at e1 * D = N * ulp_at ex).
  { intros Hnone. destruct Hshape as [->|]; [|lia]. cbn [located] in Hloc.
    assert (Ee : e1 = ex) by (subst e1; lia).
    assert (Er : r = mx).
    { assert (m1 = mx).
      { rewrite Em1. replace (e1 - ex) with 0 by lia. apply Z.div_1_r. }
      replace mx with m1 by assumption. apply Hkeep. subst D1.
      replace (e1 - ex) with 0 by lia. change (2 ^ 0) with 1. lia. }
    rewrite Ee, Er, Hloc. ring. }
  destruct m2 as [|m|m] eqn:Em; [| |lia].
  - assert (Er : r = 0) by (destruct Hsecond as [(_ & <- & _)|(_ & -> & _)]; lia).
    cbn [scaled]. replace (0 * D) with (r * ulp_at e1 * D) by (rewrite Er; ring).
    split; [left; reflexivity|]. split; [exact Hnear'|exact Hexact'].
  - assert (Hfit2 : e2 <= e1 + 1) by (destruct Hsecond as [(Ee & _)|(Ee & _)]; lia).
    replace (e2 <=? emax - prec) with true
      by (symmetry; apply Z.leb_le; unfold emax, prec; lia).
    rewrite (Hvalue m eq_refl).
    split; [right; exists m, e2|split; [exact Hnear'|exact Hexact']].
    split; [reflexivity|]. split.
    + destruct Hsecond as [(Ee & _)|(Ee & _)]; lia.
    + intros Hshift. destruct Hsecond as [(_ & Hr' & Hlt)|(_ & _ & H52)].
      * rewrite <- Hr' in Hlt. apply Hlt. exact Hshift.
      * rewrite H52. change (2 ^ 53) with (2 * 2 ^ 52).
        pose proof (pow2_positive 52 ltac:(lia)). lia.
Qed.

End RoundAux.

Section Quotient.
Import Rounding Pct.

(** The quotient digit string [SFdiv_core_binary] hands to the rounding:
    the integer quotient of the numerator, shifted left by [-e] places, with
    the place of the exact quotient beside it. *)
Lemma div_core_located (a b : positive) :
  let c := SFdiv_core_binary prec emax (Z.pos a) 0 (Z.pos b) 0 in
  let e := snd (fst c) in
  e = Z.min (fexp prec emax (Zdigits2 (Z.pos a) - Zdigits2 (Z.pos b))) 0
  /\ fst (fst c) = Z.pos a * 2 ^ (- e) / Z.pos b
  /\ located (fst (fst c)) (snd c) (Z.pos a * 2 ^ (- e)) (Z.pos b).
Proof.
  unfold SFdiv_core_binary.
  rewrite !Z.add_0_r, !Z.sub_0_r.
  set (e := Z.min (fexp prec emax (Zdigits2 (Z.pos a) - Zdigits2 (Z.pos b))) 0).
  replace (0 - e) with (- e) by lia.
  set (m' := match - e with
             | 0 => Z.pos a
             | Z.pos _ => Z.shiftl (Z.pos a) (- e)
             | Z.neg _ => 0
             end).
  assert (Em : m' = Z.pos a * 2 ^ (- e)).
  { subst m'. assert (He : 0 <= - e) by (subst e; lia).
    destruct (- e) as [|p|p] eqn:E; [change (2 ^ 0) with 1; lia | | lia].
    apply Z.shiftl_mul_pow2. lia. }
  pose proof (Z_div_mod m' (Z.pos b) ltac:(lia)) as Hdiv.
  assert (Eq : m' / Z.pos b = fst (Z.div_eucl m' (Z.pos b))).
  { unfold Z.div. by destruct (Z.div_eucl m' (Z.pos b)). }
  destruct (Z.div_eucl m' (Z.pos b)) as [q r]. cbn [fst snd] in *.
  destruct Hdiv as [Hqr Hr]. rewrite <- Em.
  split; [reflexivity|]. split; [symmetry; exact Eq|].
  unfold new_location, new_location_even, new_location_odd.
  destruct (Z.even (Z.pos b)) eqn:Hparity.
  - destruct (Z.eqb_spec r 0) as [Hr0|Hr0]; cbn [located]; [lia|].
    split; [lia|]. destruct (Z.compare_spec (2 * r) (Z.pos b)); lia.
  - assert (Hodd : Z.odd (Z.pos b) = true) by (rewrite <- Z.negb_even, Hparity; reflexivity).
    apply Z.odd_spec in Hodd. destruct Hodd as [k Hk].
    destruct (Z.eqb_spec r 0) as [Hr0|Hr0]; cbn [located]; [lia|].
    split; [lia|]. destruct (Z.compare_spec (2 * r + 1) (Z.pos b)); lia.
Qed.

End Quotient.

Section QuotientRounded.
Import Rounding Pct.

(** The quotient of two positive integers as [SFdiv] rounds it: within
    half a unit in the last place of the exact quotient, where the unit is
    [2^-52] of the quotient at most, or [2^-1074] for a quotient too small
    for full precision. *)
Lemma div_near (sa sb : bool) (a b : positive) :
  Z.pos a < 2 ^ 45 ->
  let x := SFdiv prec emax (S754_finite sa a 0) (S754_finite sb b 0) in
  (x = S754_zero (xorb sa sb)
   \/ exists m e, x = S754_finite (xorb sa sb) m e
                  /\ -1074 <= e <= -7 /\ Z.pos m < 2 ^ 53)
  /\ exists U, 0 < U
       /\ 2 * Z.abs (scaled x * Z.pos b - Z.pos a * ulp_at 0) <= Z.pos b * U
       /\ ((U = 1 /\ Z.pos a * ulp_at 0 < 2 ^ 53 * Z.pos b)
           \/ Z.pos b * U * 2 ^ 52 <= Z.pos a * ulp_at 0).
Proof.
  intros Ha x. subst x. unfold SFdiv.
  pose proof (div_core_located a b) as (He & Eq & Hloc).
  destruct (SFdiv_core_binary prec emax (Z.pos a) 0 (Z.pos b) 0) as [[q e] l].
  cbn [fst snd] in *. rewrite fexp_binary64 in He.
  set (da := Zdigits2 (Z.pos a)) in *. set (db := Zdigits2 (Z.pos b)) in *.
  pose proof (Zdigits2_bounds (Z.pos a) ltac:(lia)) as [Halow Haup].
  pose proof (Zdigits2_bounds (Z.pos b) ltac:(lia)) as [Hblow Hbup].
  pose proof (Zdigits2_positive (Z.pos a) ltac:(lia)) as Hda.
  pose proof (Zdigits2_positive (Z.pos b) ltac:(lia)) as Hdb.
  fold da in Halow, Haup, Hda. fold db in Hblow, Hbup, Hdb.
  assert (Hebounds : -1074 <= e <= 0) by lia.
  set (s := - e) in *. assert (Hs : 0 <= s) by (subst s; lia).
  pose proof (pow2_positive s Hs) as Hpows.
  set (A := Z.pos a * 2 ^ s) in *.
  assert (Hq : q * Z.pos b <= A < (q + 1) * Z.pos b).
  { rewrite Eq. split.
    - rewrite Z.mul_comm. apply Z.mul_div_le. lia.
    - rewrite Z.mul_comm. apply (Z.mul_succ_div_gt A (Z.pos b)). lia. }
  assert (Hq0 : 0 <= q) by (rewrite Eq; apply Z.div_pos; subst A; nia).
  pose proof (Zdigits2_nonneg q) as Hdq.
  set (g := Zdigits2 q + e).
  (* the quotient has the digits the operands promise *)
  assert (Hg : da - db <= g).
  { destruct (Z_le_gt_dec (da - db + s) 0) as [|Hk]; [subst g s; lia|].
    assert (Hlow : 2 ^ (da - db + s - 1) <= q).
    { destruct (Z_le_gt_dec (2 ^ (da - db + s - 1)) q) as [|Hsmall]; [assumption|].
      exfalso.
      assert (Hsplit : 2 ^ (da - db + s - 1) * 2 ^ db = 2 ^ (da - 1) * 2 ^ s).
      { rewrite <- !Z.pow_add_r by lia. f_equal. lia. }
      pose proof (pow2_positive (da - db + s - 1) ltac:(lia)) as Hpos.
      assert ((q + 1) * Z.pos b <= 2 ^ (da - db + s - 1) * Z.pos b)
        by (apply Z.mul_le_mono_nonneg_r; lia).
      assert (2 ^ (da - db + s - 1) * Z.pos b < 2 ^ (da - db + s - 1) * 2 ^ db)
        by (apply Z.mul_lt_mono_pos_l; lia).
      assert (2 ^ (da - 1) * 2 ^ s <= A)
        by (subst A; apply Z.mul_le_mono_nonneg_r; lia).
      lia. }
    apply Zdigits2_gt in Hlow; [subst g s; lia | lia]. }
  (* and not more than the numerator allows *)
  assert (Hgmax : g <= 45).
  { destruct (Z.eq_dec q 0) as [->|Hpos]; [subst g; simpl; lia|].
    pose proof (Zdigits2_bounds q ltac:(lia)) as [Hqlow _].
    assert (q <= A) by nia.
    assert (A < 2 ^ (45 + s)).
    { rewrite Z.pow_add_r by lia. subst A. apply Z.mul_lt_mono_pos_r; lia. }
    assert (Hlt : 2 ^ (Zdigits2 q - 1) < 2 ^ (45 + s)) by lia.
    apply pow2_lt_inv in Hlt. subst g s. lia. }
  pose proof (binary_round_aux_near (xorb sa sb) q e l A (Z.pos b) Hq0 ltac:(lia)
                ltac:(lia) Hloc) as Hround.
  rewrite fexp_binary64 in Hround. fold g in Hround.
  assert (He1 : Z.max e (Z.max (g - 53) (-1074)) = Z.max (g - 53) (-1074)) by lia.
  rewrite He1 in Hround.
  destruct (Hround ltac:(right; lia) ltac:(lia)) as (Hshape & Hnear & _).
  clear Hround.
  set (x := binary_round_aux prec emax (xorb sa sb) q e l) in *.
  assert (Hunits : A * ulp_at e = Z.pos a * ulp_at 0).
  { subst A. unfold ulp_at. rewrite <- Z.mul_assoc, <- Z.pow_add_r by lia.
    do 2 f_equal. subst s. lia. }
  rewrite Hunits in Hnear.
  split.
  - destruct Hshape as [Hzero|(m & e' & Hx & He' & Hm)]; [left; exact Hzero|].
    right. exists m, e'. split; [exact Hx|]. split; [lia|]. apply Hm. lia.
  - exists (ulp_at (Z.max (g - 53) (-1074))).
    split; [apply ulp_at_positive; lia|]. split; [exact Hnear|].
    destruct (Z_le_gt_dec (-1074) (g - 53)) as [Hnormal|Htiny].
    + right. replace (Z.max (g - 53) (-1074)) with (g - 53) by lia.
      assert (Hpos : q <> 0).
      { intros ->. subst g. simpl in *. lia. }
      pose proof (Zdigits2_bounds q ltac:(lia)) as [Hqlow _].
      pose proof (Zdigits2_positive q ltac:(lia)) as Hdq1.
      pose proof (ulp_at_positive e ltac:(lia)) as Hue.
      assert (Hexp : ulp_at (g - 53) * 2 ^ 52 = 2 ^ (Zdigits2 q - 1) * ulp_at e).
      { unfold ulp_at. rewrite <- !Z.pow_add_r by (subst g; lia).
        f_equal. subst g. lia. }
      rewrite <- Z.mul_assoc, Hexp, <- Hunits.
      transitivity (Z.pos b * (q * ulp_at e)).
      * apply Z.mul_le_mono_nonneg_l; [lia|].
        apply Z.mul_le_mono_nonneg_r; lia.
      * replace (Z.pos b * (q * ulp_at e)) with (q * Z.pos b * ulp_at e) by ring.
        apply Z.mul_le_mono_nonneg_r; lia.
    + left. replace (Z.max (g - 53) (-1074)) with (-1074) by lia.
      split; [reflexivity|].
      pose proof (ulp_at_positive e ltac:(lia)) as Hue.
      rewrite <- Hunits.
      assert (Hq1 : q + 1 <= 2 ^ Zdigits2 q).
      { destruct (Z.eq_dec q 0) as [->|Hpos]; [simpl; lia|].
        pose proof (Zdigits2_bounds q ltac:(lia)). lia. }
      assert (Hexp : 2 ^ Zdigits2 q * ulp_at e <= 2 ^ 53).
      { unfold ulp_at. rewrite <- Z.pow_add_r by lia.
        apply Z.pow_le_mono_r; [lia|]. subst g. lia. }
      apply Z.lt_le_trans with ((q + 1) * Z.pos b * ulp_at e).
      * apply Z.mul_lt_mono_pos_r; lia.
      * replace ((q + 1) * Z.pos b * ulp_at e)
          with ((q + 1) * ulp_at e * Z.pos b) by ring.
        apply Z.mul_le_mono_nonneg_r; [lia|].
        transitivity (2 ^ Zdigits2 q * ulp_at e); [|exact Hexp].
        apply Z.mul_le_mono_nonneg_r; lia.
Qed.

End QuotientRounded.

Section ProductRounded.
Import Rounding Pct.

(** The product with 100 as [SFmul] rounds it: exact, or within half a
    unit in the last place, a unit that is [2^-52] of the product at most. *)
Lemma mul_hundred_near (s : bool) (m : positive) (e : Z) :
  -1074 <= e <= -7 -> Z.pos m < 2 ^ 53 ->
  let q := S754_finite s m e in
  let p := SFmul prec emax q (of_int 100) in
  (p = S754_zero s \/ exists m' e', p = S754_finite s m' e' /\ -1074 <= e')
  /\ (scaled p = 100 * scaled q
      \/ exists U, 2 * Z.abs (scaled p - 100 * scaled q) <= U
                   /\ U * 2 ^ 52 <= 100 * scaled q).
Proof.
  intros He Hm q p. subst p q. cbn [of_int SFmul]. rewrite xorb_false_r, Z.add_0_r.
  set (mx := Z.pos (m * 100)).
  assert (Emx : mx = 100 * Z.pos m) by (subst mx; lia).
  assert (Hdigits : Zdigits2 mx <= 60).
  { apply Zdigits2_le; [|lia]. change (2 ^ 60) with (128 * 2 ^ 53). lia. }
  pose proof (Zdigits2_positive mx ltac:(lia)) as Hd1.
  pose proof (Zdigits2_bounds mx ltac:(lia)) as [Hlow _].
  pose proof (binary_round_aux_near s mx e loc_Exact mx 1 ltac:(lia) ltac:(lia)
                ltac:(lia) ltac:(cbn; lia) ltac:(left; reflexivity)) as Hround.
  rewrite fexp_binary64 in Hround. set (g := Zdigits2 mx + e) in *.
  destruct (Hround ltac:(lia)) as (Hshape & Hnear & Hexact). clear Hround.
  set (p := binary_round_aux prec emax s mx e loc_Exact) in *.
  pose proof (ulp_at_positive e ltac:(lia)) as Hue.
  assert (Hvalue : mx * ulp_at e = 100 * scaled (S754_finite s m e)).
  { cbn [scaled]. rewrite Emx. ring. }
  rewrite Z.mul_1_r, Z.mul_1_l, Hvalue in Hnear.
  rewrite Z.mul_1_r, Hvalue in Hexact.
  split.
  - destruct Hshape as [Hzero|(m' & e' & Hp & He' & _)]; [left; exact Hzero|].
    right. exists m', e'. split; [exact Hp | lia].
  - destruct (Z_lt_le_dec (Z.max (g - 53) (-1074)) e) as [Hnone|Hshift].
    { left. apply Hexact. exact Hnone. }
    replace (Z.max e (Z.max (g - 53) (-1074))) with (Z.max (g - 53) (-1074)) in Hnear
      by lia.
    destruct (Z_le_gt_dec (-1074) (g - 53)) as [Hnormal|Htiny].
    + right. exists (ulp_at (Z.max (g - 53) (-1074))). split; [exact Hnear|].
      replace (Z.max (g - 53) (-1074)) with (g - 53) by lia.
      rewrite <- Hvalue.
      assert (Hexp : ulp_at (g - 53) * 2 ^ 52 = 2 ^ (Zdigits2 mx - 1) * ulp_at e).
      { unfold ulp_at. rewrite <- !Z.pow_add_r by (subst g; lia).
        f_equal. subst g. lia. }
      rewrite Hexp. apply Z.mul_le_mono_nonneg_r; lia.
    + left. replace (Z.max (g - 53) (-1074)) with (-1074) in Hnear by lia.
      change (ulp_at (-1074)) with 1 in Hnear. lia.
Qed.

(** [round] of a double that is a multiple of [2^-1074]: an integer within
    a half of it, with its sign. *)
Lemma py_round_near (s : bool) (p : spec_float) :
  p = S754_zero s \/ (exists m e, p = S754_finite s m e /\ -1074 <= e) ->
  exists r, py_round p = Some (if s then - r else r) /\ 0 <= r
            /\ 2 * Z.abs (r * ulp_at 0 - scaled p) <= ulp_at 0.
Proof.
  pose proof (ulp_at_positive 0 ltac:(lia)) as HT.
  intros [->|(m & e & -> & He)].
  - exists 0. cbn [py_round scaled]. split; [by destruct s|]. lia.
  - cbn [py_round scaled].
    pose proof (ulp_at_positive e He) as Hue.
    destruct (Z.leb_spec 0 e) as [Hpos|Hneg].
    + exists (Z.pos m * 2 ^ e). split; [reflexivity|].
      pose proof (pow2_positive e Hpos).
      split; [nia|].
      replace (Z.pos m * 2 ^ e * ulp_at 0) with (Z.pos m * ulp_at e).
      * rewrite Z.sub_diag. simpl. lia.
      * replace e with (0 + e) at 1 by lia. rewrite ulp_at_add by lia. ring.
    + set (unit := 2 ^ (- e)).
      pose proof (pow2_positive (- e) ltac:(lia)) as Hunit. fold unit in Hunit.
      pose proof (Z.div_mod (Z.pos m) unit ltac:(lia)) as Hdiv.
      pose proof (Z.mod_pos_bound (Z.pos m) unit Hunit) as Hrem.
      assert (Hquot : 0 <= Z.pos m / unit) by (apply Z.div_pos; lia).
      assert (HT' : ulp_at 0 = unit * ulp_at e).
      { replace 0 with (e + - e) at 1 by lia. apply ulp_at_add; lia. }
      set (quot := Z.pos m / unit) in *. set (rem := Z.pos m mod unit) in *.
      assert (Hscale : forall r, 2 * Z.abs (r * unit - Z.pos m) <= unit ->
                2 * Z.abs (r * ulp_at 0 - Z.pos m * ulp_at e) <= ulp_at 0).
      { intros r Hr. rewrite HT'.
        replace (r * (unit * ulp_at e) - Z.pos m * ulp_at e)
          with ((r * unit - Z.pos m) * ulp_at e) by ring.
        rewrite Z.abs_mul, (Z.abs_eq (ulp_at e)) by lia. nia. }
      destruct (Z.compare_spec (2 * rem) unit) as [Hhalf|Hbelow|Habove].
      * destruct (Z.even quot).
        -- exists quot. split; [reflexivity|]. split; [lia|]. apply Hscale. lia.
        -- exists (quot + 1). split; [reflexivity|]. split; [lia|]. apply Hscale. lia.
      * exists quot. split; [reflexivity|]. split; [lia|]. apply Hscale. lia.
      * exists (quot + 1). split; [reflexivity|]. split; [lia|]. apply Hscale. lia.
Qed.

End ProductRounded.

Section Nearest.
Import Rounding Pct.

(** From the three rounding errors to the nearest integer: the quotient
    [100*a/b] is either an exact half or at least [1/(2b)] away from one,
    and the errors of division and product together stay below that. *)
Lemma nearest_from_errors (a b Q P r U : Z) :
  0 < a -> 200 * a < 2 ^ 52 -> 0 < b -> 0 <= Q -> 0 <= r -> 0 < U ->
  2 * Z.abs (Q * b - a * ulp_at 0) <= b * U ->
  (U = 1 /\ a * ulp_at 0 < 2 ^ 53 * b) \/ b * U * 2 ^ 52 <= a * ulp_at 0 ->
  P = 100 * Q
  \/ (exists U', 2 * Z.abs (P - 100 * Q) <= U' /\ U' * 2 ^ 52 <= 100 * Q) ->
  2 * Z.abs (r * ulp_at 0 - P) <= ulp_at 0 ->
  2 * Z.abs (r * b - 100 * a) <= b.
Proof.
  change (ulp_at 0) with (2 ^ 1074).
  intros Ha Hfit Hb HQ Hr HU Hdiv Hregime Hmul Hround.
  destruct Hregime as [[-> Htiny]|Hnormal].
  - (* a quotient below 2^-1021: everything rounds to zero *)
    assert (HQsmall : Q <= 2 ^ 53) by nia.
    assert (HP : P <= 150 * 2 ^ 53).
    { destruct Hmul as [->|(U' & Herr & Hulp)]; lia. }
    assert (r = 0) by lia. subst r. lia.
  - (* full precision *)
    set (W := Q * b) in *. set (X := b * U) in *.
    assert (Hprod : exists Y, 2 * Z.abs (b * P - 100 * W) <= Y
                              /\ Y * 2 ^ 52 <= 100 * W).
    { destruct Hmul as [->|(U' & Herr & Hulp)].
      - exists 0. subst W. split; [|lia].
        replace (b * (100 * Q) - 100 * (Q * b)) with 0 by ring. simpl. lia.
      - exists (b * U'). subst W. split.
        + replace (b * P - 100 * (Q * b)) with (b * (P - 100 * Q)) by ring.
          rewrite Z.abs_mul, (Z.abs_eq b) by lia. nia.
        + nia. }
    destruct Hprod as (Y & HY & HYulp).
    assert (Hint : 2 * Z.abs (r * b * 2 ^ 1074 - b * P) <= b * 2 ^ 1074).
    { replace (r * b * 2 ^ 1074 - b * P) with (b * (r * 2 ^ 1074 - P)) by ring.
      rewrite Z.abs_mul, (Z.abs_eq b) by lia. nia. }
    set (R := r * b) in *. set (BP := b * P) in *.
    clearbody W X R BP. lia.
Qed.

End Nearest.

Section SafePct.
Import Rounding Pct.

Lemma safe_pct_zero_denominator (n : Z) : _safe_pct n 0 = 0.
Proof. reflexivity. Qed.

Lemma safe_pct_signed (sa sb : bool) (a b : positive) :
  200 * Z.pos a < 2 ^ 52 ->
  exists r,
    _safe_pct (if sa then Z.neg a else Z.pos a) (if sb then Z.neg b else Z.pos b)
    = (if xorb sa sb then - r else r)
    /\ 0 <= r
    /\ 2 * Z.abs (r * Z.pos b - 100 * Z.pos a) <= Z.pos b.
Proof.
  intros Ha.
  assert (Hform :
            _safe_pct (if sa then Z.neg a else Z.pos a) (if sb then Z.neg b else Z.pos b)
            = match SFdiv prec emax (S754_finite sa a 0) (S754_finite sb b 0) with
              | S754_infinity _ | S754_nan => 0
              | q => match py_round (SFmul prec emax q (of_int 100)) with
                     | Some r => r
                     | None => 0
                     end
              end).
  { unfold _safe_pct, truediv.
    destruct sa, sb; cbn [Z.eqb of_int];
      match goal with
      | |- context [SFdiv ?p ?e ?x ?y] => destruct (SFdiv p e x y)
      end; reflexivity. }
  destruct (div_near sa sb a b ltac:(lia)) as (Hshape & U & HU & Hdiv & Hregime).
  rewrite Hform. clear Hform.
  destruct Hshape as [Hx|(m & e & Hx & He & Hm)]; rewrite Hx in *.
  - exists 0. cbn [SFmul of_int py_round scaled] in *.
    split; [by destruct (xorb sa sb)|]. split; [lia|].
    pose proof (ulp_at_positive 0 ltac:(lia)) as HT.
    apply (nearest_from_errors (Z.pos a) (Z.pos b) 0 0 0 U);
      first [lia | assumption | left; reflexivity].
  - destruct (mul_hundred_near (xorb sa sb) m e He Hm) as (Hpshape & Hmul).
    destruct (py_round_near (xorb sa sb) _ Hpshape) as (r & Hr & Hr0 & Hround).
    rewrite Hr. exists r. split; [reflexivity|]. split; [exact Hr0|].
    apply (nearest_from_errors (Z.pos a) (Z.pos b)
             (scaled (S754_finite (xorb sa sb) m e))
             (scaled (SFmul prec emax (S754_finite (xorb sa sb) m e) (of_int 100)))
             r U);
      try lia; try assumption.
    cbn [scaled]. pose proof (ulp_at_positive e ltac:(lia)). nia.
Qed.

(** For a nonzero denominator and a numerator [n] with [200*|n| < 2^52]
    the helper returns an integer nearest to [100*n/d]. *)
Lemma safe_pct_nearest (n d : Z) :
  d <> 0 -> 200 * Z.abs n < 2 ^ 52 -> nearest_percent (_safe_pct n d) n d.
Proof.
  intros Hd Hn. unfold nearest_percent.
  destruct n as [|a|a].
  - assert (Hzero : _safe_pct 0 d = 0) by (destruct d; [lia|reflexivity|reflexivity]).
    rewrite Hzero. lia.
  - destruct d as [|b|b]; [lia| |].
    + destruct (safe_pct_signed false false a b ltac:(lia)) as (r & -> & Hr & Hnear).
      cbn [xorb]. lia.
    + destruct (safe_pct_signed false true a b ltac:(lia)) as (r & -> & Hr & Hnear).
      cbn [xorb]. lia.
  - destruct d as [|b|b]; [lia| |].
    + destruct (safe_pct_signed true false a b ltac:(lia)) as (r & -> & Hr & Hnear).
      cbn [xorb]. lia.
    + destruct (safe_pct_signed true true a b ltac:(lia)) as (r & -> & Hr & Hnear).
      cbn [xorb]. lia.
Qed.

End SafePct.

(** C4 (counterexample).  For 23 parts of 40 the helper returns 57, while
    [round(100*23/40)] is 58: the double nearest to 23/40 lies below 0.575
    and its product with 100 lies below 57.5. *)
Lemma safe_pct_not_round_of_quotient :
  Pct._safe_pct 23 40 = 57 /\ Pct.spec_percentage 23 40 = 58
  /\ Pct._safe_pct 23 40 <> Pct.spec_percentage 23 40.
Proof. vm_compute. repeat split; congruence. Qed.

(** The bound on the numerator is one of double precision: a little
    past it the two roundings can carry the product across a half that the
    exact quotient stays clear of.  Here [100*n/d] is 1101647153234.5002...,
    nearest to 1101647153235, and the product comes out as the double
    1101647153234.5, which [round] takes to the even integer below. *)
Example safe_pct_past_double_precision :
  Pct._safe_pct 26120054003190 2371 = 1101647153234
  /\ ~ Pct.nearest_percent (Pct._safe_pct 26120054003190 2371) 26120054003190 2371.
Proof.
  split; [vm_compute; reflexivity|].
  unfold Pct.nearest_percent. vm_compute. intros H. apply H. reflexivity.
Qed.

(** C4 (amended).  With a zero denominator the helper returns 0, whatever
    the numerator, and it is a total function: no input makes it raise.
    With a nonzero denominator [d] of any size and sign, and a numerator
    [n] with [200*|n| < 2^52], that is [|n|] up to 22517998136852, the
    result is an integer nearest to [100*n/d]; it is the only such
    integer, hence [round(100*n/d)], whenever that quotient is not an exact
    half, and on an exact half either neighbour may come out. *)
Theorem safe_pct_zero_or_nearest (n d : Z) :
  Pct._safe_pct n 0 = 0
  /\ (d <> 0 -> 200 * Z.abs n < 2 ^ 52 ->
      Pct.nearest_percent (Pct._safe_pct n d) n d
      /\ (forall r, Pct.nearest_percent r n d -> ~ Pct.exact_half n d ->
                    r = Pct._safe_pct n d)).
Proof.
  split; [apply safe_pct_zero_denominator|].
  intros Hd Hn. pose proof (safe_pct_nearest n d Hd Hn) as Hnear.
  split; [exact Hnear|].
  intros r Hr Hhalf. unfold Pct.nearest_percent in *.
  set (p := Pct._safe_pct n d) in *. clearbody p.
  destruct (Z.eq_dec r p) as [|Hne]; [assumption|]. exfalso. apply Hhalf.
  assert (Hstep : r = p + 1 \/ r = p - 1) by nia.
  destruct Hstep as [->| ->]; [exists p | exists (p - 1)]; nia.
Qed.

Lemma safe_pct_zero_or_nearest_witness :
  Pct._safe_pct 7 0 = 0
  /\ Pct.nearest_percent (Pct._safe_pct 7 (-3)) 7 (-3)
  /\ -233 = Pct._safe_pct 7 (-3).
Proof.
  destruct (safe_pct_zero_or_nearest 7 (-3)) as [H0 H].
  destruct (H ltac:(lia) ltac:(lia)) as [Hnear Honly].
  split; [exact H0|]. split; [exact Hnear|].
  apply Honly.
  - unfold Pct.nearest_percent. lia.
  - intros [k Hk]. lia.
Defined.

(** ** Keys *)

Section KeyFacts.
Import Py Accumulator.

Lemma key_eqb_refl (v : value) : hashable v = true -> key_eqb v v = true.
Proof.
  destruct v as [|b|n|s|l|d]; simpl; try discriminate; intros _.
  - reflexivity.
  - by destruct b.
  - apply Z.eqb_refl.
  - apply String.eqb_refl.
Qed.

Lemma key_eqb_trans (a b c : value) :
  key_eqb a b = true -> key_eqb b c = true -> key_eqb a c = true.
Proof.
  destruct a as [|x|n|s|l|d], b as [|y|m|t|l'|d'], c as [|z|k|u|l''|d''];
    simpl; try discriminate; try reflexivity;
    rewrite ?Z.eqb_eq, ?String.eqb_eq;
    repeat match goal with b : bool |- _ => destruct b end;
    simpl; intros; try congruence; try lia.
Qed.

Lemma triple_eqb_refl (k : value * value * value) :
  triple_hashable k = true -> triple_eqb k k = true.
Proof.
  destruct k as [[a b] c]; simpl.
  rewrite !andb_true_iff. intros [[Ha Hb] Hc].
  by rewrite !key_eqb_refl.
Qed.

Lemma triple_eqb_trans (a b c : value * value * value) :
  triple_eqb a b = true -> triple_eqb b c = true -> triple_eqb a c = true.
Proof.
  destruct a as [[a1 a2] a3], b as [[b1 b2] b3], c as [[c1 c2] c3]; simpl.
  rewrite !andb_true_iff. intros [[H1 H2] H3] [[H4 H5] H6].
  repeat split; eapply key_eqb_trans; eassumption.
Qed.

Lemma seen_mem_app (s t : list (value * value * value)) k :
  seen_mem (s ++ t) k = seen_mem s k || seen_mem t k.
Proof. unfold seen_mem. apply existsb_app. Qed.

Lemma seen_mem_equal (s : list (value * value * value)) k k' :
  seen_mem s k = true -> triple_eqb k k' = true -> seen_mem s k' = true.
Proof.
  unfold seen_mem. rewrite !existsb_exists. intros (y & Hy & Hyk) Hkk'.
  exists y. eauto using triple_eqb_trans.
Qed.

Lemma tally_get_incr (c : list (value * Z)) (k : value) :
  hashable k = true -> tally_get (tally_incr c k) k = tally_get c k + 1.
Proof.
  intros Hk. induction c as [|[k' n] c IH]; simpl.
  - by rewrite key_eqb_refl.
  - destruct (key_eqb k' k) eqn:E; simpl; rewrite E; [reflexivity | exact IH].
Qed.

End KeyFacts.

(** ** The monad of methods *)

Section MonadFacts.
Import Py Accumulator Reasoning.

Context {A B : Type}.
Implicit Types (m : M A) (k : A -> M B) (st : accumulator).

Lemma bind_ok m k st st1 a :
  m st = (st1, Ok a) -> bind m k st = k a st1.
Proof. unfold bind. by intros ->. Qed.

Lemma bind_ok_inv m k st st' b :
  bind m k st = (st', Ok b) ->
  exists st1 a, m st = (st1, Ok a) /\ k a st1 = (st', Ok b).
Proof.
  unfold bind. destruct (m st) as [st1 [a|e]]; [eauto | discriminate].
Qed.

End MonadFacts.

Section Frames.
Import Py Accumulator Reasoning.

Context (R : relation accumulator) `{!PreOrder R}.

Lemma preserves_ret {A} (a : A) : preserves R (ret a).
Proof. intros st. reflexivity. Qed.

Lemma preserves_raise {A} e : preserves R (@raise A e).
Proof. intros st. reflexivity. Qed.

Lemma preserves_lift {A} (r : result A) : preserves R (lift r).
Proof. intros st. reflexivity. Qed.

Lemma preserves_read {A} (f : accumulator -> A) : preserves R (read f).
Proof. intros st. reflexivity. Qed.

Lemma preserves_modify f : (forall st, R st (f st)) -> preserves R (modify f).
Proof. intros H st. apply H. Qed.

Lemma preserves_bind {A B} (m : M A) (k : A -> M B) :
  preserves R m -> (forall a, preserves R (k a)) -> preserves R (bind m k).
Proof.
  intros Hm Hk st. unfold bind. specialize (Hm st).
  destruct (m st) as [st1 [a|e]]; simpl in *; [|exact Hm].
  etransitivity; [exact Hm | apply Hk].
Qed.

Lemma preserves_when b m : preserves R m -> preserves R (when b m).
Proof. destruct b; [done | intros _; apply preserves_ret]. Qed.

Lemma runs_ret {A} (a : A) : runs R (ret a).
Proof. intros st. exists st, a. split; reflexivity. Qed.

Lemma runs_modify f : (forall st, R st (f st)) -> runs R (modify f).
Proof. intros H st. exists (f st), tt. split; [reflexivity | apply H]. Qed.

Lemma runs_bind {A B} (m : M A) (k : A -> M B) :
  runs R m -> (forall a, runs R (k a)) -> runs R (bind m k).
Proof.
  intros Hm Hk st. destruct (Hm st) as (st1 & a & E & H1).
  destruct (Hk a st1) as (st2 & b & E2 & H2).
  exists st2, b. split; [by rewrite (bind_ok _ _ _ _ _ E) | by etransitivity].
Qed.

Lemma runs_when b m : runs R m -> runs R (when b m).
Proof. destruct b; [done | intros _; apply runs_ret]. Qed.

Lemma runs_preserves {A} (m : M A) st st' a :
  preserves R m -> m st = (st', Ok a) -> R st st'.
Proof. intros H E. specialize (H st). by rewrite E in H. Qed.

End Frames.

Section FrameInstances.
Import Py Accumulator Reasoning.

#[global] Instance keeps_preorder {X} (f : accumulator -> X) : PreOrder (keeps f).
Proof.
  split; [intros s; reflexivity | intros s1 s2 s3 H1 H2].
  unfold keeps in *. congruence.
Qed.

#[global] Instance seen_grows_preorder : PreOrder seen_grows.
Proof. split; [intros s k; auto | intros s1 s2 s3 H1 H2 k Hk; auto]. Qed.

#[global] Instance counter_grows_preorder a : PreOrder (counter_grows a).
Proof.
  split; [intros s; unfold counter_grows; lia | intros s1 s2 s3 H1 H2].
  unfold counter_grows in *. lia.
Qed.

End FrameInstances.

(** The methods are built from a few primitives; a frame property is proved
    by walking through the method down to its stores. *)
Ltac unfold_methods :=
  unfold Reasoning.prelude, Reasoning.dispatch,
    Accumulator._process_network_resource, Accumulator._increment_network_health,
    Accumulator._process_ec2_item, Accumulator._process_rds_item,
    Accumulator._process_s3_item, Accumulator._process_eip_item,
    Accumulator._process_sg_item, Accumulator._process_snapshot_item,
    Accumulator._process_ebs_item,
    Accumulator.add_collected_region, Accumulator.bump, Accumulator.tally.

Ltac frame_walk leaf :=
  repeat
    lazymatch goal with
    | |- PreOrder _ => typeclasses eauto
    | |- forall _, _ => intros ?
    | |- Reasoning.preserves _ (Accumulator.bind _ _) => apply preserves_bind
    | |- Reasoning.preserves _ (Accumulator.ret _) => apply preserves_ret
    | |- Reasoning.preserves _ (Accumulator.raise _) => apply preserves_raise
    | |- Reasoning.preserves _ (Accumulator.lift _) => apply preserves_lift
    | |- Reasoning.preserves _ (Accumulator.read _) => apply preserves_read
    | |- Reasoning.preserves _ (Accumulator.when _ _) => apply preserves_when
    | |- Reasoning.preserves _ (Accumulator.modify _) =>
        apply preserves_modify; intros ?; leaf
    | |- Reasoning.preserves _ (if ?b then _ else _) => destruct b
    | |- Reasoning.preserves _ (match ?x with _ => _ end) => destruct x
    end.

Ltac keeps_leaf :=
  unfold Reasoning.keeps; simpl;
  rewrite ?fn_lookup_insert_ne by discriminate; try reflexivity.

Ltac grows_leaf :=
  unfold Reasoning.counter_grows; simpl;
  match goal with
  | |- context [ <[?a := _]> _ ?b ] =>
      destruct (decide (a = b)) as [->|];
      [rewrite fn_lookup_insert | rewrite fn_lookup_insert_ne by done]
  | _ => idtac
  end; lia.

Section Prelude.
Import Py Accumulator Reasoning.

Context (json_loads : string -> option value).

Lemma bind_nest (m1 m2 m3 m4 d : M unit) (st : accumulator) :
  (m1 ;; m2 ;; m3 ;; m4 ;; d) st = ((m1 ;; m2 ;; m3 ;; m4) ;; d) st.
Proof.
  unfold bind.
  destruct (m1 st) as [s1 [[]|e]]; [|reflexivity].
  destruct (m2 s1) as [s2 [[]|e]]; [|reflexivity].
  destruct (m3 s2) as [s3 [[]|e]]; [|reflexivity].
  destruct (m4 s3) as [s4 [[]|e]]; reflexivity.
Qed.

Lemma add_resource_split (item : dict) (st : accumulator) :
  add_resource json_loads item st =
  (if negb (truthy (get item "resourceType")) then ret tt
   else bind (prelude item) (fun _ => dispatch json_loads item)) st.
Proof.
  unfold add_resource, prelude, dispatch.
  destruct (negb (truthy (get item "resourceType"))); [reflexivity|].
  apply bind_nest.
Qed.

Lemma prelude_keeps_num (a : counter_attr) (item : dict) :
  preserves (keeps (fun s => num s a)) (prelude item).
Proof. unfold_methods. frame_walk keeps_leaf. Qed.

End Prelude.

Ltac seen_leaf :=
  let H := fresh "H" in
  unfold Reasoning.seen_grows; simpl; intros ? H;
  rewrite ?seen_mem_app, ?H; reflexivity.

Section Dedup.
Import Py Accumulator Reasoning.

Context (json_loads : string -> option value).

Lemma dispatch_seen_grows (item : dict) : preserves seen_grows (dispatch json_loads item).
Proof. unfold_methods. frame_walk seen_leaf. Qed.

Lemma prelude_seen_grows (item : dict) : preserves seen_grows (prelude item).
Proof. unfold_methods. frame_walk seen_leaf. Qed.

Lemma add_resource_preserves (R : relation accumulator) `{!PreOrder R} (item : dict) :
  preserves R (prelude item) -> preserves R (dispatch json_loads item) ->
  preserves R (add_resource json_loads item).
Proof.
  intros Hp Hd st. rewrite add_resource_split.
  destruct (negb _); [reflexivity|].
  by apply preserves_bind.
Qed.

Lemma perform_seen_grows (c : call) (st : accumulator) :
  seen_grows st (perform json_loads c st).
Proof.
  destruct c as [item|region]; simpl.
  - apply (add_resource_preserves seen_grows item
             (prelude_seen_grows item) (dispatch_seen_grows item)).
  - revert st. change (preserves seen_grows (add_collected_region region)).
    unfold_methods. frame_walk seen_leaf.
Qed.

Lemma feed_seen_grows (calls : list call) (st : accumulator) :
  seen_grows st (feed json_loads calls st).
Proof.
  revert st. induction calls as [|c calls IH]; intros st; simpl.
  - reflexivity.
  - etransitivity; [apply perform_seen_grows | apply IH].
Qed.

(** A record whose key was seen leaves [_process_ebs_item] at once. *)
Lemma process_ebs_seen (item : dict) (st : accumulator) :
  seen_mem (_seen_ebs st) (ebs_key item) = true ->
  fst (_process_ebs_item json_loads item st) = st.
Proof.
  intros Hseen. unfold _process_ebs_item.
  destruct (negb _); [reflexivity|].
  unfold bind, read. by rewrite Hseen.
Qed.

(** A record that went through [_process_ebs_item] has its key seen. *)
Lemma process_ebs_marks (item : dict) (st st' : accumulator) :
  _process_ebs_item json_loads item st = (st', Ok tt) ->
  seen_mem (_seen_ebs st') (ebs_key item) = true.
Proof.
  unfold _process_ebs_item.
  destruct (triple_hashable (ebs_key item)) eqn:Hh; simpl; [|discriminate].
  unfold bind at 1. unfold read at 1.
  destruct (seen_mem (_seen_ebs st) (ebs_key item)) eqn:Hseen.
  - intros [= <-]. exact Hseen.
  - intros E. apply bind_ok_inv in E as (st1 & [] & E1 & E2).
    injection E1 as <-.
    assert (Hgrow : seen_grows (set_seen_ebs (_seen_ebs st ++ [ebs_key item]) st) st').
    { refine (runs_preserves seen_grows _ _ _ _ _ E2).
      unfold_methods. frame_walk seen_leaf. }
    apply Hgrow. cbn [_seen_ebs set_seen_ebs]. rewrite seen_mem_app.
    apply orb_true_iff; right. unfold seen_mem; cbn [existsb].
    by rewrite triple_eqb_refl.
Qed.

(** [_process_ebs_item] adds nothing or one to the unattached counter. *)
Lemma process_ebs_step (item : dict) (st : accumulator) :
  num st ebs_unattached
  <= num (fst (_process_ebs_item json_loads item st)) ebs_unattached
  <= num st ebs_unattached + 1.
Proof.
  unfold _process_ebs_item, bind, read, modify, bump, ret, raise.
  repeat (case_match; simpl); rewrite ?fn_lookup_insert; lia.
Qed.

(** A call that raises in [_process_ebs_item] has counted nothing. *)

Lemma is_ebs_type (item : dict) :
  str_is (get item "resourceType") "EBSVolume" = true ->
  get item "resourceType" = VStr "EBSVolume".
Proof.
  destruct (get item "resourceType"); simpl; try discriminate.
  by intros ->%String.eqb_eq.
Qed.

Lemma ebs_dispatch (item : dict) :
  get item "resourceType" = VStr "EBSVolume" ->
  negb (truthy (get item "resourceType")) = false
  /\ dispatch json_loads item = _process_ebs_item json_loads item.
Proof. intros E. unfold dispatch. rewrite E. split; reflexivity. Qed.

Lemma add_resource_seen_unchanged (item : dict) (st : accumulator) :
  str_is (get item "resourceType") "EBSVolume" = true ->
  seen_mem (_seen_ebs st) (ebs_key item) = true ->
  num (fst (add_resource json_loads item st)) ebs_unattached = num st ebs_unattached.
Proof.
  intros Ht%is_ebs_type Hseen. apply ebs_dispatch in Ht as [Ht Hd].
  rewrite add_resource_split, Ht, Hd. unfold bind.
  pose proof (prelude_keeps_num ebs_unattached item st) as Hk.
  pose proof (prelude_seen_grows item st _ Hseen) as Hs.
  destruct (prelude item st) as [st1 [[]|e]]; simpl in *; [|exact Hk].
  rewrite process_ebs_seen by exact Hs. exact Hk.
Qed.

Lemma add_resource_marks_seen (item : dict) (st st' : accumulator) :
  str_is (get item "resourceType") "EBSVolume" = true ->
  add_resource json_loads item st = (st', Ok tt) ->
  seen_mem (_seen_ebs st') (ebs_key item) = true.
Proof.
  intros Ht%is_ebs_type. apply ebs_dispatch in Ht as [Ht Hd].
  rewrite add_resource_split, Ht, Hd.
  intros (st1 & [] & _ & E)%bind_ok_inv. eauto using process_ebs_marks.
Qed.

Lemma add_resource_ebs_step (item : dict) (st : accumulator) :
  str_is (get item "resourceType") "EBSVolume" = true ->
  num st ebs_unattached
  <= num (fst (add_resource json_loads item st)) ebs_unattached
  <= num st ebs_unattached + 1.
Proof.
  intros Ht%is_ebs_type. apply ebs_dispatch in Ht as [Ht Hd].
  rewrite add_resource_split, Ht, Hd. unfold bind.
  pose proof (prelude_keeps_num ebs_unattached item st) as Hk.
  destruct (prelude item st) as [st1 [[]|e]]; simpl in *.
  - pose proof (process_ebs_step item st1). unfold keeps in Hk. lia.
  - unfold keeps in Hk. lia.
Qed.

End Dedup.

(** C1.  Once [add_resource] has processed an EBS volume record, a later
    [add_resource] call on a record with the same dedup key leaves the
    unattached counter as it is, whatever calls came in between (also calls
    that raised); and feeding one EBS record twice in a row raises the
    counter by one at most. *)
Theorem ebs_counted_once (json_loads : string -> option Py.value)
    (first again : Py.dict) (between : list Accumulator.call)
    (st st1 : Accumulator.accumulator) :
  Py.str_is (Accumulator.get first "resourceType") "EBSVolume" = true ->
  Py.str_is (Accumulator.get again "resourceType") "EBSVolume" = true ->
  Accumulator.triple_eqb (Accumulator.ebs_key first) (Accumulator.ebs_key again) = true ->
  Accumulator.add_resource json_loads first st = (st1, Py.Ok tt) ->
  let st2 := Accumulator.feed json_loads between st1 in
  Accumulator.num (fst (Accumulator.add_resource json_loads again st2))
                  Accumulator.ebs_unattached
  = Accumulator.num st2 Accumulator.ebs_unattached
  /\ Accumulator.num
       (Accumulator.feed json_loads
          [Accumulator.AddResource first; Accumulator.AddResource first] st)
       Accumulator.ebs_unattached
     <= Accumulator.num st Accumulator.ebs_unattached + 1.
Proof.
  intros Hfirst Hagain Hkey Hrun st2. split.
  - apply add_resource_seen_unchanged; [exact Hagain|].
    eapply seen_mem_equal; [|exact Hkey].
    apply feed_seen_grows. eapply add_resource_marks_seen; eauto.
  - simpl. rewrite Hrun. simpl.
    pose proof (add_resource_ebs_step json_loads first st Hfirst) as Hstep.
    rewrite Hrun in Hstep. simpl in Hstep.
    rewrite add_resource_seen_unchanged; [lia | exact Hfirst |].
    eapply add_resource_marks_seen; eauto.
Qed.

Lemma ebs_counted_once_witness :
  let st1 := fst (Accumulator.add_resource Samples.no_json Samples.ebs_available
                    Accumulator.reset) in
  let st2 :=
    Accumulator.feed Samples.no_json [Accumulator.AddResource Samples.ec2_running] st1 in
  Accumulator.num st1 Accumulator.ebs_unattached = 1
  /\ Accumulator.num (fst (Accumulator.add_resource Samples.no_json Samples.ebs_available st2))
       Accumulator.ebs_unattached
     = Accumulator.num st2 Accumulator.ebs_unattached.
Proof.
  intros st1 st2. split; [reflexivity|].
  apply (ebs_counted_once Samples.no_json Samples.ebs_available Samples.ebs_available
           [Accumulator.AddResource Samples.ec2_running] Accumulator.reset st1);
    reflexivity.
Defined.

(** C2 (the code at the failing input).  From a fresh accumulator, an EBS
    record with no state field and [attachments] the empty list is not
    counted: the empty list is falsy, so the chain of [or] over the three
    attachment fields ends at the absent [attached_instances], which is
    None, and [_as_list_or_none] answers None.  The same empty list under
    [attached_instances], the last field of the chain, is counted, and a
    list of one attachment is not. *)
Theorem ebs_empty_attachments_not_counted (json_loads : string -> option Py.value) :
  let after item := Accumulator.add_resource json_loads item Accumulator.reset in
  snd (after Samples.ebs_empty_attachments) = Py.Ok tt
  /\ Accumulator.num (fst (after Samples.ebs_empty_attachments))
       Accumulator.ebs_unattached = 0
  /\ Accumulator.num (fst (after Samples.ebs_empty_attached_instances))
       Accumulator.ebs_unattached = 1
  /\ Accumulator.num (fst (after Samples.ebs_one_attachment))
       Accumulator.ebs_unattached = 0.
Proof. repeat split; reflexivity. Qed.

Section VirtualInterface.
Import Py Accumulator.

Lemma bucket_get_incr (h : list (string * bucket)) (key : string) (is_healthy : bool) :
  let b := bucket_get h key in
  bucket_get (bucket_incr h key is_healthy) key
  = {| total := total b + 1;
       healthy := if is_healthy then healthy b + 1 else healthy b |}.
Proof.
  induction h as [|[k b] h IH]; simpl.
  - by rewrite String.eqb_refl.
  - destruct (String.eqb k key) eqn:E; simpl; rewrite E; [reflexivity | exact IH].
Qed.

End VirtualInterface.

(** C3 (counterexample).  With [bgpAllUp] false and one peer whose status is
    up, the virtual interface is classified unhealthy: the bucket gets one
    more total and no more healthy. *)
Lemma vif_flag_down_is_unhealthy :
  Accumulator._is_direct_connect_virtual_interface_healthy Samples.vif_flag_down_peer_up
  = false
  /\ Accumulator.bucket_get
       (Accumulator.network_health
          (fst (Accumulator.add_resource Samples.no_json Samples.vif_flag_down_peer_up
                  Accumulator.reset)))
       "directConnectVirtualInterfaces"
     = {| Accumulator.total := 1; Accumulator.healthy := 0 |}.
Proof. split; reflexivity. Qed.

(** C3 (amended).  When [bgpAllUp] is a boolean the verdict is that boolean,
    whatever the record holds besides: false gives unhealthy even with a
    peer that is up, true gives healthy whatever the peers are; and the
    network classification adds one to the total of the bucket of virtual
    interfaces and one to its healthy count exactly when the flag is true. *)
Theorem vif_all_up_flag_decides (item : Py.dict) (flag : bool)
    (st : Accumulator.accumulator) :
  Accumulator.get item "bgpAllUp" = Py.VBool flag ->
  Accumulator._is_direct_connect_virtual_interface_healthy item = flag
  /\ let st' :=
       fst (Accumulator._process_network_resource
              (Py.VStr "DirectConnectVirtualInterface") item st) in
     let vifs s :=
       Accumulator.bucket_get (Accumulator.network_health s)
         "directConnectVirtualInterfaces" in
     Accumulator.total (vifs st') = Accumulator.total (vifs st) + 1
     /\ Accumulator.healthy (vifs st')
        = Accumulator.healthy (vifs st) + (if flag then 1 else 0).
Proof.
  intros Hflag.
  assert (Hverdict :
    Accumulator._is_direct_connect_virtual_interface_healthy item = flag).
  { unfold Accumulator._is_direct_connect_virtual_interface_healthy.
    destruct item as [|entry item]; [discriminate|]. by rewrite Hflag. }
  split; [exact Hverdict|].
  cbn -[Accumulator._is_direct_connect_virtual_interface_healthy
        Accumulator.bucket_get Accumulator.bucket_incr].
  rewrite bucket_get_incr, Hverdict. cbn. destruct flag; split; lia.
Qed.

Lemma vif_all_up_flag_decides_witness :
  Accumulator._is_direct_connect_virtual_interface_healthy Samples.vif_flag_up_peer_down
  = true.
Proof.
  apply (vif_all_up_flag_decides Samples.vif_flag_up_peer_down true Accumulator.reset).
  reflexivity.
Defined.

Ltac runs_walk leaf :=
  repeat
    lazymatch goal with
    | |- PreOrder _ => typeclasses eauto
    | |- forall _, _ => intros ?
    | |- Reasoning.runs _ (Accumulator.bind _ _) => apply runs_bind
    | |- Reasoning.runs _ (Accumulator.ret _) => apply runs_ret
    | |- Reasoning.runs _ (Accumulator.when _ _) => apply runs_when
    | |- Reasoning.runs _ (Accumulator.modify _) => apply runs_modify; intros ?; leaf
    | |- Reasoning.runs _ (if ?b then _ else _) => destruct b
    end.

Section Ec2Record.
Import Py Accumulator Reasoning.

Context (json_loads : string -> option value).

Lemma get_default_hashable (item : dict) (k s : string) :
  hashable (get item k) = true -> hashable (get_default item k (VStr s)) = true.
Proof. unfold get, get_default. by destruct (dict_get item (VStr k)). Qed.

Lemma prelude_runs_ec2 (item : dict) :
  get item "resourceType" = VStr "EC2Instance" ->
  hashable (get item "accountId") = true ->
  hashable (get item "region") = true ->
  runs (keeps ec2_three_counters) (prelude item).
Proof.
  intros Hrt Hacc Hreg. unfold_methods. rewrite Hrt, Hacc, Hreg. cbn [hashable str_is].
  cbn. runs_walk ltac:(unfold keeps, ec2_three_counters; reflexivity).
Qed.

End Ec2Record.

Ltac store_simpl :=
  repeat first
    [ rewrite fn_lookup_insert
    | rewrite fn_lookup_insert_ne by discriminate ].

Section Ec2Processor.
Import Py Accumulator Reasoning.

Lemma process_ec2_running_online_compliant (item : dict) (st : accumulator) :
  get item "instanceState" = VStr "running" ->
  get item "ssmStatus" = VStr "Online" ->
  get item "patchCompliance" = VStr "Compliant" ->
  hashable (get item "healthStatus") = true ->
  exists st',
    _process_ec2_item item st = (st', Ok tt)
    /\ ec2_three_counters st'
       = (tally_get (tallies st ec2_states) (VStr "running") + 1,
          num st ec2_ssm_connected + 1, num st ec2_patch_compliant + 1).
Proof.
  intros Hstate Hssm Hpatch Hhealth.
  apply (get_default_hashable item "healthStatus" "Unknown") in Hhealth.
  unfold _process_ec2_item, tally. rewrite Hstate, Hssm, Hpatch, Hhealth.
  change (method_lower (py_or (VStr "running") (VStr "unknown"))) with (Ok "running").
  change (method_lower (py_or (VStr "Online") (VStr ""))) with (Ok "online").
  change (method_strip_lower (py_or (VStr "Compliant") (VStr "Unknown")))
    with (Ok "compliant").
  destruct (truthy (get_default item "cwAgentMemoryDetected" (VBool false))),
           (truthy (get_default item "cwAgentDiskDetected" (VBool false)));
    cbn -[get_default tally_incr tally_get];
    (eexists; split; [reflexivity|]);
    unfold ec2_three_counters; cbn -[get_default tally_incr tally_get];
    store_simpl; by rewrite tally_get_incr.
Qed.

End Ec2Processor.

(** C5.  For an EC2 instance record with [instanceState] running,
    [ssmStatus] Online and [patchCompliance] Compliant (its [accountId],
    [region] and [healthStatus], which serve as dictionary keys, being
    scalars when present), one [add_resource] call returns and adds one to
    the running bucket of the state histogram, one to the connected counter
    of the SSM agent and one to the compliant counter of patch compliance. *)
Theorem ec2_running_online_compliant_counted (json_loads : string -> option Py.value)
    (item : Py.dict) (st : Accumulator.accumulator) :
  Accumulator.get item "resourceType" = Py.VStr "EC2Instance" ->
  Accumulator.get item "instanceState" = Py.VStr "running" ->
  Accumulator.get item "ssmStatus" = Py.VStr "Online" ->
  Accumulator.get item "patchCompliance" = Py.VStr "Compliant" ->
  Py.hashable (Accumulator.get item "accountId") = true ->
  Py.hashable (Accumulator.get item "region") = true ->
  Py.hashable (Accumulator.get item "healthStatus") = true ->
  exists st',
    Accumulator.add_resource json_loads item st = (st', Py.Ok tt)
    /\ Accumulator.tally_get (Accumulator.tallies st' Accumulator.ec2_states)
         (Py.VStr "running")
       = Accumulator.tally_get (Accumulator.tallies st Accumulator.ec2_states)
           (Py.VStr "running") + 1
    /\ Accumulator.num st' Accumulator.ec2_ssm_connected
       = Accumulator.num st Accumulator.ec2_ssm_connected + 1
    /\ Accumulator.num st' Accumulator.ec2_patch_compliant
       = Accumulator.num st Accumulator.ec2_patch_compliant + 1.
Proof.
  intros Hrt Hstate Hssm Hpatch Hacc Hreg Hhealth.
  destruct (prelude_runs_ec2 item Hrt Hacc Hreg st) as (st1 & [] & Hpre & Hkeep).
  destruct (process_ec2_running_online_compliant item st1 Hstate Hssm Hpatch Hhealth)
    as (st' & Hrun & Hview).
  exists st'. split.
  - rewrite add_resource_split, Hrt. cbn [Py.truthy negb String.eqb Ascii.eqb Bool.eqb].
    rewrite (bind_ok _ _ _ _ _ Hpre). unfold Reasoning.dispatch. rewrite Hrt. exact Hrun.
  - unfold Reasoning.keeps, Reasoning.ec2_three_counters in *.
    injection Hview as H1 H2 H3. injection Hkeep as K1 K2 K3.
    rewrite H1, H2, H3, K1, K2, K3. auto.
Qed.

Lemma ec2_running_online_compliant_counted_witness :
  exists st',
    Accumulator.add_resource Samples.no_json Samples.ec2_running Accumulator.reset
    = (st', Py.Ok tt)
    /\ Accumulator.tally_get (Accumulator.tallies st' Accumulator.ec2_states)
         (Py.VStr "running") = 0 + 1
    /\ Accumulator.num st' Accumulator.ec2_ssm_connected = 0 + 1
    /\ Accumulator.num st' Accumulator.ec2_patch_compliant = 0 + 1.
Proof.
  apply (ec2_running_online_compliant_counted Samples.no_json Samples.ec2_running
           Accumulator.reset); reflexivity.
Defined.

(** A run that returned is taken apart into its steps; the stores in
    between stay named, each with the equation of the step that made it. *)
Ltac same_store H :=
  match type of H with
  | ?x = ?y => first [subst y | subst x]
  end.

Ltac run_inv H :=
  lazymatch type of H with
  | Accumulator.bind _ _ _ = (_, Py.Ok _) =>
      let s := fresh "s" in
      let a := fresh "a" in
      let H1 := fresh "Hrun" in
      apply bind_ok_inv in H as (s & a & H1 & H); run_inv H1; run_inv H
  | Accumulator.ret _ _ = _ =>
      unfold Accumulator.ret in H; injection H as H; same_store H
  | Accumulator.raise _ _ = _ => discriminate H
  | Accumulator.lift _ _ = _ =>
      let E := fresh "Hlift" in
      unfold Accumulator.lift in H; injection H as H E; same_store H
  | Accumulator.modify _ _ = _ =>
      unfold Accumulator.modify in H; injection H as H
  | Accumulator.bump _ _ = _ => unfold Accumulator.bump in H; run_inv H
  | Accumulator.tally _ _ _ = _ => unfold Accumulator.tally in H; run_inv H
  | Accumulator.when _ (Accumulator.bump _) _ = _ => idtac
  | Accumulator.when _ _ _ = _ => unfold Accumulator.when in H; run_inv H
  | (if ?b then _ else _) _ = _ =>
      let E := fresh "Hif" in destruct b eqn:E; run_inv H
  | _ => idtac
  end.

Section Ec2Buckets.
Import Py Accumulator Reasoning.

Lemma num_set_num (a b : counter_attr) (v : Z) (st st' : accumulator) :
  set_num a v st = st' -> num st' b = <[a := v]> (num st) b.
Proof. by intros <-. Qed.

Lemma num_set_tally (t : tally_attr) c (b : counter_attr) (st st' : accumulator) :
  set_tally t c st = st' -> num st' b = num st b.
Proof. by intros <-. Qed.

Lemma num_when_bump (c : bool) (a b : counter_attr) (u : unit) (st st' : accumulator) :
  when c (bump a) st = (st', Ok u) -> a <> b -> num st' b = num st b.
Proof.
  destruct c; simpl; intros [= <-] Hab; [|reflexivity].
  simpl. by rewrite fn_lookup_insert_ne.
Qed.

End Ec2Buckets.

Ltac num_chase :=
  repeat
    match goal with
    | H : Accumulator.set_num _ _ ?s = ?s' |- context [Accumulator.num ?s' ?b] =>
        rewrite (num_set_num _ b _ _ _ H)
    | H : Accumulator.set_tally _ _ ?s = ?s' |- context [Accumulator.num ?s' ?b] =>
        rewrite (num_set_tally _ _ b _ _ H)
    | H : Accumulator.when _ (Accumulator.bump _) ?s = (?s', _)
      |- context [Accumulator.num ?s' ?b] =>
        rewrite (num_when_bump _ _ b _ _ _ H) by discriminate
    | |- _ => rewrite fn_lookup_insert
    | |- _ => rewrite fn_lookup_insert_ne by discriminate
    end.

Section Ec2Effect.
Import Py Accumulator Reasoning.

Context (json_loads : string -> option value).

(** What one EC2 record does to the buckets when [_process_ec2_item] returns. *)
Lemma process_ec2_effect (item : dict) (st st' : accumulator) :
  _process_ec2_item item st = (st', Ok tt) ->
  delta st st' ec2_total = 1
  /\ delta st st' ec2_running = (if is_running item then 1 else 0)
  /\ one_of_three (delta st st' ec2_patch_compliant)
       (delta st st' ec2_patch_noncompliant) (delta st st' ec2_patch_unknown)
  /\ (if is_running item
      then one_of_three (delta st st' ec2_ssm_connected)
             (delta st st' ec2_ssm_notconnected) (delta st st' ec2_ssm_notinstalled)
      else delta st st' ec2_ssm_connected = 0
           /\ delta st st' ec2_ssm_notconnected = 0
           /\ delta st st' ec2_ssm_notinstalled = 0).
Proof.
  unfold _process_ec2_item, is_running, delta, one_of_three. intros Hrun.
  run_inv Hrun;
    match goal with H : method_lower (py_or (get item "instanceState") _) = _ |- _ =>
      rewrite H end;
    match goal with H : String.eqb _ "running" = _ |- _ => rewrite H end;
    num_chase; lia.
Qed.

End Ec2Effect.

Section Partition.
Import Py Accumulator Reasoning.

Context (json_loads : string -> option value).

Lemma dispatch_keeps_ec2_buckets (a : counter_attr) (item : dict) :
  ec2_bucket_attr a = true ->
  str_is (get item "resourceType") "EC2Instance" = false ->
  preserves (keeps (fun s => num s a)) (dispatch json_loads item).
Proof.
  intros Ha Hrt. unfold dispatch. rewrite Hrt.
  destruct a; try discriminate Ha; unfold_methods; frame_walk keeps_leaf.
Qed.

Lemma region_keeps_num (a : counter_attr) (region : value) :
  preserves (keeps (fun s => num s a)) (add_collected_region region).
Proof. unfold_methods. frame_walk keeps_leaf. Qed.

(** A call that returns moves the buckets of the two partitions together. *)
Lemma add_resource_partitions (item : dict) (st st' : accumulator) :
  add_resource json_loads item st = (st', Ok tt) ->
  ssm_partition st -> patch_partition st ->
  ssm_partition st' /\ patch_partition st'.
Proof.
  rewrite add_resource_split. unfold ssm_partition, patch_partition.
  destruct (negb _); [by intros [= <-]|].
  intros (s1 & [] & Hpre & Hdis)%bind_ok_inv Hssm Hpatch.
  assert (Hkeep : forall a, num s1 a = num st a).
  { intros a. exact (runs_preserves _ _ _ _ _ (prelude_keeps_num a item) Hpre). }
  destruct (str_is (get item "resourceType") "EC2Instance") eqn:Hrt.
  - unfold dispatch in Hdis. rewrite Hrt in Hdis.
    apply process_ec2_effect in Hdis as (Ht & Hr & Hp & Hs).
    unfold delta, one_of_three in *. rewrite !Hkeep in *.
    destruct (is_running item); lia.
  - assert (Hd : forall a, ec2_bucket_attr a = true -> num st' a = num st a).
    { intros a Ha. rewrite <- Hkeep.
      exact (runs_preserves _ _ _ _ _
               (dispatch_keeps_ec2_buckets a item Ha Hrt) Hdis). }
    rewrite !Hd by reflexivity. auto.
Qed.

Lemma feed_partitions (calls : list call) (st : accumulator) :
  all_return json_loads calls st = true ->
  ssm_partition st -> patch_partition st ->
  ssm_partition (feed json_loads calls st) /\ patch_partition (feed json_loads calls st).
Proof.
  revert st. induction calls as [|c calls IH]; intros st; simpl; [auto|].
  intros [Hc Hrest]%andb_true_iff Hssm Hpatch.
  apply IH; [exact Hrest | |]; destruct c as [item|region]; simpl in *.
  - destruct (add_resource json_loads item st) as [st' [[]|e]] eqn:E; [|discriminate].
    by eapply add_resource_partitions.
  - unfold ssm_partition in *.
    by rewrite !(region_keeps_num _ region st).
  - destruct (add_resource json_loads item st) as [st' [[]|e]] eqn:E; [|discriminate].
    by eapply add_resource_partitions.
  - unfold patch_partition in *.
    by rewrite !(region_keeps_num _ region st).
Qed.

Lemma add_resource_ec2_effect (item : dict) (st st' : accumulator) :
  get item "resourceType" = VStr "EC2Instance" ->
  add_resource json_loads item st = (st', Ok tt) ->
  one_of_three (delta st st' ec2_patch_compliant)
    (delta st st' ec2_patch_noncompliant) (delta st st' ec2_patch_unknown)
  /\ (if is_running item
      then one_of_three (delta st st' ec2_ssm_connected)
             (delta st st' ec2_ssm_notconnected) (delta st st' ec2_ssm_notinstalled)
      else delta st st' ec2_ssm_connected = 0
           /\ delta st st' ec2_ssm_notconnected = 0
           /\ delta st st' ec2_ssm_notinstalled = 0).
Proof.
  intros Hrt. rewrite add_resource_split, Hrt.
  cbn [truthy negb String.eqb Ascii.eqb Bool.eqb].
  intros (s1 & [] & Hpre & Hdis)%bind_ok_inv.
  assert (Hkeep : forall a, num s1 a = num st a).
  { intros a. exact (runs_preserves _ _ _ _ _ (prelude_keeps_num a item) Hpre). }
  unfold dispatch in Hdis. rewrite Hrt in Hdis.
  apply process_ec2_effect in Hdis as (_ & _ & Hp & Hs).
  unfold delta in *. rewrite !Hkeep in *. auto.
Qed.

End Partition.

(** C10.  After any sequence of calls on a reset accumulator, each of which
    returned, the three SSM buckets add up to the running instances and the
    three patch buckets to all EC2 instances; and an [add_resource] call
    that returns on an EC2 record adds one to exactly one patch bucket, and
    to exactly one SSM bucket when the state of the record is running and
    to none otherwise. *)
Theorem ec2_buckets_partition (json_loads : string -> option Py.value) :
  (forall calls : list Accumulator.call,
     Reasoning.all_return json_loads calls Accumulator.reset = true ->
     Reasoning.ssm_partition (Accumulator.feed json_loads calls Accumulator.reset)
     /\ Reasoning.patch_partition (Accumulator.feed json_loads calls Accumulator.reset))
  /\ (forall (item : Py.dict) (st st' : Accumulator.accumulator),
        Accumulator.get item "resourceType" = Py.VStr "EC2Instance" ->
        Accumulator.add_resource json_loads item st = (st', Py.Ok tt) ->
        let d := Reasoning.delta st st' in
        Reasoning.one_of_three (d Accumulator.ec2_patch_compliant)
          (d Accumulator.ec2_patch_noncompliant) (d Accumulator.ec2_patch_unknown)
        /\ (if Reasoning.is_running item
            then Reasoning.one_of_three (d Accumulator.ec2_ssm_connected)
                   (d Accumulator.ec2_ssm_notconnected)
                   (d Accumulator.ec2_ssm_notinstalled)
            else d Accumulator.ec2_ssm_connected = 0
                 /\ d Accumulator.ec2_ssm_notconnected = 0
                 /\ d Accumulator.ec2_ssm_notinstalled = 0)).
Proof.
  split.
  - intros calls Hret. by apply feed_partitions.
  - intros item st st' Hrt Hrun.
    exact (add_resource_ec2_effect json_loads item st st' Hrt Hrun).
Qed.

Lemma ec2_buckets_partition_witness :
  let calls :=
    [ Accumulator.AddResource Samples.ec2_running;
      Accumulator.AddCollectedRegion (Py.VStr "us-east-1");
      Accumulator.AddResource Samples.ec2_stopped;
      Accumulator.AddResource Samples.rds_available ] in
  Reasoning.ssm_partition (Accumulator.feed Samples.no_json calls Accumulator.reset)
  /\ Reasoning.patch_partition (Accumulator.feed Samples.no_json calls Accumulator.reset).
Proof.
  intros calls.
  apply (proj1 (ec2_buckets_partition Samples.no_json) calls). reflexivity.
Defined.

Section Snapshot.
Import Py Accumulator Reasoning.

Context (json_loads : string -> option value).

Lemma perform_counter_grows (a : counter_attr) (c : call) (st : accumulator) :
  counter_grows a st (perform json_loads c st).
Proof.
  destruct c as [item|region]; simpl.
  - apply (add_resource_preserves json_loads (counter_grows a) item);
      unfold_methods; frame_walk grows_leaf.
  - revert st. change (preserves (counter_grows a) (add_collected_region region)).
    unfold_methods. frame_walk grows_leaf.
Qed.

Lemma feed_counter_grows (a : counter_attr) (calls : list call) (st : accumulator) :
  counter_grows a st (feed json_loads calls st).
Proof.
  revert st. induction calls as [|c calls IH]; intros st; simpl.
  - reflexivity.
  - etransitivity; [apply perform_counter_grows | apply IH].
Qed.

Lemma fed_counter_nonneg (a : counter_attr) (calls : list call) :
  0 <= num (feed json_loads calls reset) a.
Proof. exact (feed_counter_grows a calls reset). Qed.

Lemma optional_section (n : Z) (section : value) :
  0 <= n -> is_section section = true ->
  let v := if 0 <? n then section else VNone in
  (is_section v = true <-> n <> 0) /\ (v = VNone <-> n = 0).
Proof.
  intros Hn Hs. simpl. destruct (0 <? n) eqn:E.
  - apply Z.ltb_lt in E. rewrite Hs. destruct section; try discriminate.
    repeat split; intros; try lia; try discriminate; auto.
  - apply Z.ltb_ge in E. simpl. repeat split; intros; try lia; try discriminate; auto.
Qed.

Lemma get_metrics_optional (st : accumulator) :
  (exists section, is_section section = true
     /\ get (get_metrics st) "ec2" = if 0 <? num st ec2_total then section else VNone)
  /\ (exists section, is_section section = true
     /\ get (get_metrics st) "rds" = if 0 <? num st rds_total then section else VNone).
Proof.
  split; eexists; (split; [|unfold get_metrics; cbn; reflexivity]); reflexivity.
Qed.

Lemma get_metrics_always (st : accumulator) :
  Forall (fun k => is_section (get (get_metrics st) k) = true)
    ["global"; "storage"; "unattached"; "security"; "network"].
Proof. repeat constructor. Qed.

End Snapshot.

(** C6.  After any sequence of calls on a reset accumulator, the snapshot
    holds the EC2 section exactly when the EC2 total is not zero and the RDS
    section exactly when the RDS total is not zero; with a zero total the
    entry of the service is None, no section at all; the global, storage,
    unattached, security and network sections are there in every case. *)
Theorem snapshot_sections (json_loads : string -> option Py.value)
    (calls : list Accumulator.call) :
  let st := Accumulator.feed json_loads calls Accumulator.reset in
  let section k := Accumulator.get (Accumulator.get_metrics st) k in
  (Reasoning.is_section (section "ec2") = true
   <-> Accumulator.num st Accumulator.ec2_total <> 0)
  /\ (section "ec2" = Py.VNone <-> Accumulator.num st Accumulator.ec2_total = 0)
  /\ (Reasoning.is_section (section "rds") = true
      <-> Accumulator.num st Accumulator.rds_total <> 0)
  /\ (section "rds" = Py.VNone <-> Accumulator.num st Accumulator.rds_total = 0)
  /\ Forall (fun k => Reasoning.is_section (section k) = true)
       ["global"; "storage"; "unattached"; "security"; "network"].
Proof.
  intros st section.
  pose proof (fed_counter_nonneg json_loads Accumulator.ec2_total calls) as Hec2.
  pose proof (fed_counter_nonneg json_loads Accumulator.rds_total calls) as Hrds.
  fold st in Hec2, Hrds.
  destruct (get_metrics_optional st) as [(ec2 & Hs2 & E2) (rds & Hsr & Er)].
  destruct (optional_section _ ec2 Hec2 Hs2) as [? ?].
  destruct (optional_section _ rds Hrds Hsr) as [? ?].
  subst section. cbv beta. rewrite E2, Er.
  repeat (split; [assumption|]). apply get_metrics_always.
Qed.

(** ** Sanitized keys *)

Section Sanitize.
Import Py Flatten Keys.

Lemma lstrip_forall p q s : string_forall q s = true -> string_forall q (lstrip p s) = true.
Proof.
  induction s as [|c s IH]; simpl; [done|].
  intros [Hc Hs]%andb_true_iff. destruct (p c); [auto | simpl; by rewrite Hc, Hs].
Qed.

Lemma rstrip_forall p q s : string_forall q s = true -> string_forall q (rstrip p s) = true.
Proof.
  induction s as [|c s IH]; simpl; [done|].
  intros [Hc Hs]%andb_true_iff. specialize (IH Hs).
  destruct (rstrip p s); [destruct (p c); simpl; by rewrite ?Hc | simpl in *; by rewrite Hc, IH].
Qed.

Lemma lstrip_head p s : forall c, head_char (lstrip p s) = Some c -> p c = false.
Proof.
  induction s as [|c' s IH]; simpl; [discriminate|].
  intros c. destruct (p c') eqn:E; [apply IH | simpl; by intros [= <-]].
Qed.

Lemma rstrip_head p s : rstrip p s <> "" -> head_char (rstrip p s) = head_char s.
Proof.
  destruct s as [|c s]; simpl; [done|].
  destruct (rstrip p s); [by destruct (p c) | done].
Qed.

Lemma rstrip_last p s : forall c, last_char (rstrip p s) = Some c -> p c = false.
Proof.
  induction s as [|c' s IH]; simpl; [discriminate|].
  intros c. destruct (rstrip p s) as [|c'' r] eqn:E.
  - destruct (p c') eqn:Ep; simpl; [discriminate | by intros [= <-]].
  - simpl. apply IH.
Qed.

Lemma map_string_forall f q s :
  (forall c, q (f c) = true) -> string_forall q (map_string f s) = true.
Proof. intros H. induction s as [|c s IH]; simpl; [done | by rewrite H, IH]. Qed.

Lemma replace_and_trim_clean (s : string) :
  replace_and_trim s <> "" -> clean_key (replace_and_trim s).
Proof.
  intros Hne. unfold clean_key, replace_and_trim, strip_with in *.
  repeat split.
  - exact Hne.
  - apply rstrip_forall, lstrip_forall, map_string_forall.
    intros c. destruct (isalnum c || Ascii.eqb c underscore) eqn:E; [exact E|].
    reflexivity.
  - rewrite rstrip_head by exact Hne. intros H.
    apply lstrip_head in H. by rewrite Ascii.eqb_refl in H.
  - intros H. apply rstrip_last in H. by rewrite Ascii.eqb_refl in H.
Qed.

Lemma sanitize_string (s : string) :
  _sanitize_flat_key (VStr s)
  = if String.eqb (replace_and_trim s) "" then "value" else replace_and_trim s.
Proof. reflexivity. Qed.

Lemma sanitize_nonempty (k : value) : _sanitize_flat_key k <> "".
Proof.
  unfold _sanitize_flat_key.
  destruct k; try discriminate;
    match goal with |- context [String.eqb ?x ""] =>
      destruct (String.eqb_spec x "") end; try discriminate; assumption.
Qed.

Lemma sanitize_clean (s : string) : clean_key (_sanitize_flat_key (VStr s)).
Proof.
  rewrite sanitize_string.
  destruct (String.eqb_spec (replace_and_trim s) "") as [_|Hne].
  - repeat split; discriminate.
  - by apply replace_and_trim_clean.
Qed.

End Sanitize.

(** C7 (counterexample).  The key made of one exclamation mark is replaced
    by an underscore and trimmed to nothing, and the sanitized key is then
    the word value, not what replacing and trimming leave. *)
Lemma sanitize_all_punctuation :
  Keys.replace_and_trim "!" = ""
  /\ Flatten._sanitize_flat_key (Py.VStr "!") = "value"
  /\ Flatten._sanitize_flat_key (Py.VStr "!") <> Keys.replace_and_trim "!".
Proof. repeat split. discriminate. Qed.

(** C7 (amended).  Flattening the mapping of [ssmAgent] to its connected
    and notConnected counts into an empty target gives exactly the two
    prefixed entries; and the sanitized form of a string key is the key with
    every character that is neither alphanumeric nor an underscore replaced
    by an underscore and the underscores at both ends trimmed, as with
    [My Key!], except that a key of which nothing is left becomes the word
    value; in every case the result is a clean key. *)
Theorem flatten_and_sanitize :
  Flatten.flatten_metric ∅
    (Py.VDict
       [ (Py.VStr "ssmAgent",
          Py.VDict [ (Py.VStr "connected", Py.VInt 97);
                     (Py.VStr "notConnected", Py.VInt 7) ]) ])
    ""
  = Py.Ok {[ "ssmAgent_connected" := Py.VInt 97; "ssmAgent_notConnected" := Py.VInt 7 ]}
  /\ Flatten._sanitize_flat_key (Py.VStr "My Key!") = "My_Key"
  /\ forall key : string,
       Flatten._sanitize_flat_key (Py.VStr key)
       = (if String.eqb (Keys.replace_and_trim key) "" then "value"
          else Keys.replace_and_trim key)
       /\ Keys.clean_key (Flatten._sanitize_flat_key (Py.VStr key)).
Proof.
  split; [vm_compute; reflexivity|].
  split; [reflexivity|].
  intros key. split; [apply sanitize_string | apply sanitize_clean].
Qed.

(** ** The keys written by the flattening *)

Section FlattenFrame.
Import Py Flatten Keys.

Lemma value_nested_ind (P : value -> Prop) :
  P VNone -> (forall b, P (VBool b)) -> (forall n, P (VInt n)) -> (forall s, P (VStr s)) ->
  (forall l, Forall P l -> P (VList l)) ->
  (forall d, Forall (fun kv => P kv.2) d -> P (VDict d)) ->
  forall v, P v.
Proof.
  intros HNone HBool HInt HStr HList HDict.
  fix IH 1. intros [|b|n|s|l|d].
  - exact HNone.
  - apply HBool.
  - apply HInt.
  - apply HStr.
  - apply HList. induction l as [|x l IHl]; constructor; [apply IH | exact IHl].
  - apply HDict. induction d as [|[k x] d IHd]; constructor; [apply IH | exact IHd].
Qed.

Lemma flatten_entry_dict (t : flat) (p : string) (k : value) (d : dict) :
  flatten_entry t p k (VDict d) = flatten_items t d (extend p (_sanitize_flat_key k)).
Proof.
  unfold flatten_items. simpl. revert t.
  induction d as [|[k' v'] d IH]; intros t; simpl; [reflexivity | apply IH].
Qed.

Lemma flatten_entry_list (t : flat) (p : string) (k : value) (l : list value) :
  flatten_entry t p k (VList l) = flatten_elems t l 0 (extend p (_sanitize_flat_key k)).
Proof.
  simpl. generalize 0%nat. revert t.
  induction l as [|elem l IH]; intros t i; simpl; [reflexivity|].
  rewrite IH. f_equal. destruct elem as [| | | | |d]; try reflexivity.
  unfold flatten_items. revert t.
  induction d as [|[k' v'] d IHd]; intros t; simpl; [reflexivity | apply IHd].
Qed.

Lemma prefix_app_l (a b s : string) :
  String.prefix (a ++ b) s = true -> String.prefix a s = true.
Proof.
  revert s. induction a as [|c a IH]; intros [|c' s]; simpl; try done.
  destruct (Ascii.ascii_dec c c'); [apply IH | done].
Qed.

Lemma prefix_app_self (a b : string) : String.prefix a (a ++ b) = true.
Proof.
  induction a as [|c a IH]; simpl; [by destruct b|].
  by destruct (Ascii.ascii_dec c c).
Qed.

Lemma extend_nonempty (p s : string) : s <> "" -> extend p s <> "".
Proof.
  unfold extend. destruct (String.eqb_spec p "") as [->|Hp]; [done|].
  intros _. by destruct p.
Qed.

Lemma prefix_extend (p s key : string) :
  p <> "" -> String.prefix p key = false -> String.prefix (extend p s) key = false.
Proof.
  intros Hp Hkey. unfold extend. destruct (String.eqb_spec p ""); [done|].
  destruct (String.prefix (p ++ "_" ++ s) key) eqn:E; [|reflexivity].
  apply prefix_app_l in E. congruence.
Qed.

Lemma indexed_differs (new_key key : string) (i : nat) :
  String.prefix new_key key = false -> indexed new_key i <> key.
Proof.
  intros Hkey <-. unfold indexed in Hkey. by rewrite prefix_app_self in Hkey.
Qed.

Lemma prefix_indexed (new_key key : string) (i : nat) :
  String.prefix new_key key = false -> String.prefix (indexed new_key i) key = false.
Proof.
  intros Hkey. unfold indexed.
  destruct (String.prefix (new_key ++ "_" ++ pretty i) key) eqn:E; [|reflexivity].
  apply prefix_app_l in E. congruence.
Qed.

Lemma indexed_nonempty (new_key : string) (i : nat) : indexed new_key i <> "".
Proof. unfold indexed. by destruct new_key. Qed.

Lemma flatten_items_frame (d : dict) (t : flat) (p key : string) :
  Forall (fun kv => entry_frame kv.2) d ->
  Forall (fun kv => String.prefix (extend p (_sanitize_flat_key kv.1)) key = false) d ->
  flatten_items t d p !! key = t !! key.
Proof.
  unfold flatten_items. intros Hd. revert t.
  induction Hd as [|[k v] d Hv Hd IH]; intros t Hkeys; simpl; [reflexivity|].
  inversion Hkeys as [|? ? Hk Hrest]; subst.
  rewrite IH by exact Hrest. by apply Hv.
Qed.

Lemma items_under_prefix (d : dict) (p key : string) :
  p <> "" -> String.prefix p key = false ->
  Forall (fun kv => String.prefix (extend p (_sanitize_flat_key kv.1)) key = false) d.
Proof. intros Hp Hkey. apply Forall_forall. intros kv _. by apply prefix_extend. Qed.

Lemma flatten_elems_frame (l : list value) (t : flat) (i : nat) (p key : string) :
  Forall (fun v => entry_frame v
                   /\ match v with
                      | VDict d => Forall (fun kv => entry_frame kv.2) d
                      | _ => True
                      end) l ->
  p <> "" -> String.prefix p key = false ->
  flatten_elems t l i p !! key = t !! key.
Proof.
  intros Hl Hp Hkey. revert t i.
  induction Hl as [|elem l [Helem Hsub] Hl IH]; intros t i; simpl; [reflexivity|].
  rewrite IH.
  destruct elem as [|b|n|s|l'|d];
    try (apply lookup_insert_ne; by apply indexed_differs).
  - apply Helem. by apply prefix_extend.
  - apply flatten_items_frame; [exact Hsub|].
    apply items_under_prefix; [apply indexed_nonempty | by apply prefix_indexed].
Qed.

Lemma prefix_refl (s : string) : String.prefix s s = true.
Proof. induction s as [|c s IH]; simpl; [done | by destruct (Ascii.ascii_dec c c)]. Qed.

Lemma entry_frame_all (v : value) :
  entry_frame v
  /\ match v with
     | VDict d => Forall (fun kv => entry_frame kv.2) d
     | _ => True
     end.
Proof.
  induction v as [|b|n|s|l Hl|d Hd] using value_nested_ind;
    try (split; [|exact I]; intros t p k key Hkey; simpl;
         apply lookup_insert_ne; intros <-; by rewrite prefix_refl in Hkey).
  - split; [|exact I]. intros t p k key Hkey. rewrite flatten_entry_list.
    apply flatten_elems_frame; [exact Hl | apply extend_nonempty, sanitize_nonempty |].
    exact Hkey.
  - assert (Hvals : Forall (fun kv => entry_frame kv.2) d).
    { eapply Forall_impl; [exact Hd|]. by intros kv [H _]. }
    split; [|exact Hvals]. intros t p k key Hkey. rewrite flatten_entry_dict.
    apply flatten_items_frame; [exact Hvals|].
    apply items_under_prefix; [apply extend_nonempty, sanitize_nonempty | exact Hkey].
Qed.

(** [flatten_metric] under a prefix writes only keys that start with it. *)
Lemma flatten_metric_frame (t f : flat) (data : value) (p key : string) :
  flatten_metric t data p = Ok f ->
  p <> "" -> String.prefix p key = false ->
  f !! key = t !! key.
Proof.
  unfold flatten_metric. intros Hf Hp Hkey.
  destruct (truthy data); [|by injection Hf as <-].
  destruct data as [| | | | |d]; try discriminate. injection Hf as <-.
  apply flatten_items_frame; [|by apply items_under_prefix].
  apply Forall_forall. intros kv _. apply entry_frame_all.
Qed.

End FlattenFrame.

Section SaveLoop.
Import Py Flatten Persistence Writes.

Context {table world : Type}.
Context (batch_write_to_dynamodb :
           world -> list table -> list flat -> world * result Z).

Lemma save_loop_spec (metrics_tables : list table) (items : list flat)
    (acc : saved (table := table) (world := world)) :
  let outcomes :=
    write_outcomes batch_write_to_dynamodb (world_after acc) metrics_tables items in
  let s := save_loop batch_write_to_dynamodb metrics_tables items acc in
  total_saved s = default (total_saved acc) (last_success outcomes)
  /\ logged s
     = (logged acc
       ++ zip_with (log_of (Accumulator.len items)) metrics_tables outcomes)%list
  /\ world_after s
     = world_after_writes batch_write_to_dynamodb (world_after acc) metrics_tables items
  /\ length outcomes = length metrics_tables.
Proof.
  revert acc. induction metrics_tables as [|t rest IH]; intros acc; simpl.
  - by rewrite app_nil_r.
  - unfold world_after_writes. simpl.
    destruct (batch_write_to_dynamodb (world_after acc) [t] items) as [w [count|e]];
      simpl;
      match goal with |- context [save_loop _ _ _ ?a] => specialize (IH a) end;
      simpl in IH; destruct IH as (IH1 & IH2 & IH3 & IH4);
      rewrite IH1, IH2, IH3, <- app_assoc, IH4;
      repeat split; try reflexivity;
      by destruct (last_success _).
Qed.

End SaveLoop.

(** ** The assembled items *)

Section Assembled.
Import Py Flatten Keys Persistence.

Lemma result_bind_ok {A B : Type} (r : result A) (f : A -> result B) (b : B) :
  r ≫= f = Ok b -> exists a, r = Ok a /\ f a = Ok b.
Proof. destruct r as [a|e]; simpl; [eauto | discriminate]. Qed.

Lemma outside_metrics_prefix (key name : string) :
  outside_metrics key = true -> In name metric_names -> String.prefix name key = false.
Proof.
  unfold outside_metrics. rewrite forallb_forall. intros H Hin.
  by apply negb_true_iff, H.
Qed.

Lemma differs_by_prefix (name full key : string) :
  String.prefix name key = false -> String.prefix name full = true -> full <> key.
Proof. intros Hkey Hfull ->. congruence. Qed.

Lemma update_lookup_outside (item other : flat) (key : string) :
  other !! key = None -> update item other !! key = item !! key.
Proof. intros H. unfold update. by apply lookup_union_r. Qed.

Lemma include_section_frame (metrics : dict) (item item' : flat)
    (source_key prefix key : string) :
  _include_section metrics item source_key prefix = Ok item' ->
  prefix <> "" -> String.prefix prefix key = false ->
  item' !! key = item !! key.
Proof.
  unfold _include_section. intros H Hp Hkey.
  destruct (truthy _); [|by injection H as <-].
  apply result_bind_ok in H as (prefixed & Hflat & H). injection H as <-.
  apply update_lookup_outside.
  rewrite (flatten_metric_frame _ _ _ _ _ Hflat Hp Hkey). apply lookup_empty.
Qed.

Lemma network_fields_frame (network_health : dict) (item : flat) (key : string) :
  String.prefix "networkHealth" key = false ->
  network_fields network_health item !! key = item !! key.
Proof.
  intros Hkey. unfold network_fields. revert item.
  induction network_health as [|[bucket values] h IH]; intros item; simpl; [reflexivity|].
  rewrite IH. destruct values as [| | | | |d]; try reflexivity.
  clear IH. revert item.
  induction d as [|[metric_name metric_value] d IHd]; intros item; simpl; [reflexivity|].
  rewrite IHd. apply lookup_insert_ne.
  apply (differs_by_prefix "networkHealth"); [exact Hkey | reflexivity].
Qed.

End Assembled.

Ltac outside_name Hout :=
  apply (outside_metrics_prefix _ _ Hout); cbn; tauto.

Ltac insert_outside Hout name :=
  rewrite lookup_insert_ne
    by (apply (differs_by_prefix name); [outside_name Hout | reflexivity]).

Ltac top_name Hout :=
  match goal with
  | |- String.prefix ?name _ = false =>
      let v := eval vm_compute in name in change name with v
  end;
  outside_name Hout.

Section CurrentItem.
Import Py Flatten Keys Persistence.

Context (date_str_iso date_str_br iso_timestamp : string) (processing_duration : value).

(** No metric overwrites a field whose name starts with no metric name. *)
Lemma current_item_frame (metrics : dict) (cur : flat) (key : string) :
  current_item date_str_iso date_str_br iso_timestamp processing_duration metrics = Ok cur ->
  outside_metrics key = true ->
  cur !! key
  = base_item date_str_iso date_str_br iso_timestamp processing_duration !! key.
Proof.
  intros H Hout. unfold current_item in H.
  fold (base_item date_str_iso date_str_br iso_timestamp processing_duration) in H.
  set (base := base_item date_str_iso date_str_br iso_timestamp processing_duration) in *.
  apply result_bind_ok in H as (global_metrics & _ & H).
  apply result_bind_ok in H as (global_flat & Hglobal & H).
  apply result_bind_ok in H as (item1 & Hec2 & H).
  apply result_bind_ok in H as (item2 & Hec2' & H).
  apply result_bind_ok in H as (item3 & Hrds & H).
  apply result_bind_ok in H as (item4 & Hrds' & H).
  apply result_bind_ok in H as (item5 & Hstorage & H).
  apply result_bind_ok in H as (item6 & Hunattached & H).
  apply result_bind_ok in H as (item7 & Hsecurity & H).
  apply result_bind_ok in H as (network_health & _ & H).
  injection H as <-.
  rewrite network_fields_frame by outside_name Hout.
  rewrite (include_section_frame _ _ _ _ "security" key Hsecurity)
    by (done || outside_name Hout).
  rewrite (include_section_frame _ _ _ _ "unattached" key Hunattached)
    by (done || outside_name Hout).
  rewrite (include_section_frame _ _ _ _ "storage" key Hstorage)
    by (done || outside_name Hout).
  rewrite (include_section_frame _ _ _ _ "rds" key Hrds') by (done || outside_name Hout).
  assert (E3 : item3 !! key = item2 !! key).
  { destruct (truthy (Accumulator.get metrics "rds")); [|by injection Hrds as <-].
    apply result_bind_ok in Hrds as (rds & _ & Hrds). injection Hrds as <-.
    by insert_outside Hout "rds". }
  rewrite E3.
  rewrite (include_section_frame _ _ _ _ "ec2" key Hec2') by (done || outside_name Hout).
  assert (E1 : item1 !! key
               = update (update base
                  (<["regionDistribution" :=
                       Accumulator.get_default global_metrics "regionDistribution" (VList [])]>
                   (<["accountDistribution" :=
                       Accumulator.get_default global_metrics "accountDistribution"
                         (VList [])]> ∅))) global_flat !! key).
  { destruct (truthy (Accumulator.get metrics "ec2")); [|by injection Hec2 as <-].
    apply result_bind_ok in Hec2 as (ec2 & _ & Hec2).
    apply result_bind_ok in Hec2 as (patch & _ & Hec2).
    apply result_bind_ok in Hec2 as (compliant & _ & Hec2).
    apply result_bind_ok in Hec2 as (non_compliant & _ & Hec2).
    apply result_bind_ok in Hec2 as (unknown & _ & Hec2).
    injection Hec2 as <-.
    by do 5 insert_outside Hout "ec2". }
  rewrite E1.
  rewrite update_lookup_outside.
  - apply update_lookup_outside.
    insert_outside Hout "regionDistribution".
    insert_outside Hout "accountDistribution".
    apply lookup_empty.
  - unfold flatten_metric in Hglobal. cbn [truthy] in Hglobal. injection Hglobal as <-.
    repeat rewrite (proj1 (entry_frame_all _)) by top_name Hout.
    apply lookup_empty.
Qed.

End CurrentItem.

Section Assembles.
Import Py Accumulator Persistence.

(** Every snapshot of an accumulator can be assembled into the current item. *)
Lemma snapshot_assembles (date_str_iso date_str_br iso_timestamp : string)
    (processing_duration : value) (st : accumulator) :
  exists dashboard_item,
    current_item date_str_iso date_str_br iso_timestamp processing_duration
      (get_metrics st) = Ok dashboard_item.
Proof.
  unfold current_item, get_metrics, _build_network_health_metrics, _include_section.
  destruct (0 <? num st ec2_total), (0 <? num st rds_total), (network_health st);
    cbn -[Pct._safe_pct Flatten.flatten_items Flatten.flatten_entry network_fields
          insert union empty];
    eexists; reflexivity.
Qed.

End Assembles.

Lemma ok_unwrap {A : Type} (r : Py.result A) (d : A) :
  (match r with Py.Ok _ => true | Py.Raise _ => false end) = true ->
  r = Py.Ok (match r with Py.Ok a => a | Py.Raise _ => d end).
Proof. by destruct r. Qed.

(** C8.  The snapshot of every accumulator is assembled into a current
    item; and whenever the assembler has built the current item, the
    archived item agrees with it on every field other than [id], [isLatest]
    and [isArchive], so on every flattened metric field; the current item
    keeps the fixed id and has neither flag, the archived item has the id
    with the date and the flags false and true. *)
Theorem archived_item_differs_in_three_fields
    (date_str_iso date_str_br iso_timestamp : string) (processing_duration : Py.value) :
  (forall st : Accumulator.accumulator,
     exists dashboard_item,
       Persistence.current_item date_str_iso date_str_br iso_timestamp
         processing_duration (Accumulator.get_metrics st) = Py.Ok dashboard_item)
  /\ forall (metrics : Py.dict) (dashboard_item : Flatten.flat),
       Persistence.current_item date_str_iso date_str_br iso_timestamp
         processing_duration metrics = Py.Ok dashboard_item ->
       let dated_item := Persistence.archived_item date_str_br dashboard_item in
       (forall key : string,
          key <> "id" -> key <> "isLatest" -> key <> "isArchive" ->
          dated_item !! key = dashboard_item !! key)
       /\ dashboard_item !! "id" = Some (Py.VStr "METRIC_DASHBOARD_CURRENT")
       /\ dated_item !! "id" = Some (Py.VStr ("METRICS_DASHBOARD_" ++ date_str_br))
       /\ dashboard_item !! "id" <> dated_item !! "id"
       /\ dashboard_item !! "isLatest" = None
       /\ dated_item !! "isLatest" = Some (Py.VBool false)
       /\ dashboard_item !! "isArchive" = None
       /\ dated_item !! "isArchive" = Some (Py.VBool true).
Proof.
  split; [intros st; apply snapshot_assembles|].
  intros metrics dashboard_item Hcur dated_item. subst dated_item.
  unfold Persistence.archived_item.
  pose proof (current_item_frame _ _ _ _ _ _ "id" Hcur eq_refl) as Hid.
  pose proof (current_item_frame _ _ _ _ _ _ "isLatest" Hcur eq_refl) as Hlatest.
  pose proof (current_item_frame _ _ _ _ _ _ "isArchive" Hcur eq_refl) as Harchive.
  change (dashboard_item !! "id" = Some (Py.VStr "METRIC_DASHBOARD_CURRENT")) in Hid.
  change (dashboard_item !! "isLatest" = None) in Hlatest.
  change (dashboard_item !! "isArchive" = None) in Harchive.
  repeat split; try assumption.
  - intros key H1 H2 H3. by rewrite !lookup_insert_ne by done.
  - rewrite !lookup_insert_ne by done. apply lookup_insert_eq.
  - rewrite !lookup_insert_ne by done. rewrite lookup_insert_eq, Hid. discriminate.
  - rewrite lookup_insert_ne by done. apply lookup_insert_eq.
  - apply lookup_insert_eq.
Qed.

Lemma archived_item_differs_in_three_fields_witness :
  let dated_item := Persistence.archived_item "24_09_2025" Samples.current in
  dated_item !! "ec2_ssmAgent_connected" = Samples.current !! "ec2_ssmAgent_connected"
  /\ Samples.current !! "ec2_ssmAgent_connected" = Some (Py.VInt 1)
  /\ dated_item !! "id" = Some (Py.VStr "METRICS_DASHBOARD_24_09_2025").
Proof.
  destruct (proj2 (archived_item_differs_in_three_fields
                     "2025-09-24" "24_09_2025" "2025-09-24T12:00:00+00:00" (Py.VInt 2))
              Samples.snapshot Samples.current)
    as (Hsame & _ & Hid & _).
  - apply ok_unwrap. vm_compute. reflexivity.
  - split; [apply Hsame; discriminate|]. split; [vm_compute; reflexivity | exact Hid].
Defined.

Section SaveFacts.
Import Py Flatten Persistence Writes.

Lemma last_success_after (pre post : list (result Z)) (count : Z) :
  Forall raised post -> last_success (pre ++ Ok count :: post) = Some count.
Proof.
  intros Hpost.
  assert (Hnone : last_success post = None).
  { induction Hpost as [|r post Hr _ IH]; simpl; [reflexivity|].
    rewrite IH. by destruct r. }
  induction pre as [|r pre IH]; simpl; [by rewrite Hnone | by rewrite IH].
Qed.

Lemma last_success_none (outcomes : list (result Z)) :
  Forall raised outcomes -> last_success outcomes = None.
Proof.
  induction 1 as [|r rest Hr _ IH]; simpl; [reflexivity|].
  rewrite IH. by destruct r.
Qed.

End SaveFacts.

(** C9.  On the snapshot of every accumulator [save_metrics_to_dynamodb]
    returns, whatever the writes do; and once the two items are assembled,
    every table is written to in turn, a write that raises is logged and the
    loop goes on with the next table, and the value returned is the count
    of the last write that succeeded (the counts of earlier writes are
    dropped, not added) or 0 when none did. *)
Theorem save_survives_failed_writes
    (date_str_iso date_str_br iso_timestamp : string) (processing_duration : Py.value)
    {table world : Type}
    (batch_write_to_dynamodb :
       world -> list table -> list Flatten.flat -> world * Py.result Z)
    (w : world) (metrics_tables : list table) :
  let save :=
    Persistence.save_metrics_to_dynamodb date_str_iso date_str_br iso_timestamp
      processing_duration batch_write_to_dynamodb w metrics_tables in
  (forall st : Accumulator.accumulator,
     exists s, save (Accumulator.get_metrics st) = Py.Ok s)
  /\ forall (metrics : Py.dict) (dashboard_item : Flatten.flat),
       Persistence.current_item date_str_iso date_str_br iso_timestamp
         processing_duration metrics = Py.Ok dashboard_item ->
       let items_to_save :=
         [dashboard_item; Persistence.archived_item date_str_br dashboard_item] in
       let outcomes :=
         Writes.write_outcomes batch_write_to_dynamodb w metrics_tables items_to_save in
       exists s,
         save metrics = Py.Ok s
         /\ length outcomes = length metrics_tables
         /\ Persistence.world_after s
            = Writes.world_after_writes batch_write_to_dynamodb w metrics_tables
                items_to_save
         /\ Persistence.logged s = zip_with (Writes.log_of 2) metrics_tables outcomes
         /\ Persistence.total_saved s = default 0 (Writes.last_success outcomes)
         /\ (Forall Writes.raised outcomes -> Persistence.total_saved s = 0)
         /\ (forall pre count post,
               outcomes = (pre ++ Py.Ok count :: post)%list ->
               Forall Writes.raised post ->
               Persistence.total_saved s = count).
Proof.
  intros save.
  assert (Hmain : forall (metrics : Py.dict) (dashboard_item : Flatten.flat),
    Persistence.current_item date_str_iso date_str_br iso_timestamp
      processing_duration metrics = Py.Ok dashboard_item ->
    let items_to_save :=
      [dashboard_item; Persistence.archived_item date_str_br dashboard_item] in
    let outcomes :=
      Writes.write_outcomes batch_write_to_dynamodb w metrics_tables items_to_save in
    exists s,
      save metrics = Py.Ok s
      /\ length outcomes = length metrics_tables
      /\ Persistence.world_after s
         = Writes.world_after_writes batch_write_to_dynamodb w metrics_tables
             items_to_save
      /\ Persistence.logged s = zip_with (Writes.log_of 2) metrics_tables outcomes
      /\ Persistence.total_saved s = default 0 (Writes.last_success outcomes)
      /\ (Forall Writes.raised outcomes -> Persistence.total_saved s = 0)
      /\ (forall pre count post,
            outcomes = (pre ++ Py.Ok count :: post)%list ->
            Forall Writes.raised post ->
            Persistence.total_saved s = count)).
  { intros metrics dashboard_item Hcur items_to_save outcomes.
    destruct (save_loop_spec batch_write_to_dynamodb metrics_tables items_to_save
                {| Persistence.total_saved := 0; Persistence.logged := [];
                   Persistence.world_after := w |})
      as (Htotal & Hlog & Hworld & Hlen).
    cbn [Persistence.total_saved Persistence.logged Persistence.world_after app default]
      in Htotal, Hlog, Hworld, Hlen.
    fold outcomes in Htotal, Hlog, Hlen.
    eexists. split.
    { unfold save, Persistence.save_metrics_to_dynamodb. rewrite Hcur. reflexivity. }
    fold items_to_save.
    repeat split; try assumption.
    - intros Hall. rewrite Htotal. by rewrite last_success_none.
    - intros pre count post Hout Hpost. rewrite Htotal, Hout.
      by rewrite last_success_after. }
  split; [|exact Hmain].
  intros st.
  destruct (snapshot_assembles date_str_iso date_str_br iso_timestamp
              processing_duration st) as (dashboard_item & Hcur).
  destruct (Hmain _ _ Hcur) as (s & Hs & _). eauto.
Qed.

Lemma save_survives_failed_writes_witness :
  exists s,
    Persistence.save_metrics_to_dynamodb "2025-09-24" "24_09_2025"
      "2025-09-24T12:00:00+00:00" (Py.VInt 2) Writes.sample_writer [] [2; 3; 4; 5]%nat
      Samples.snapshot = Py.Ok s
    /\ Persistence.world_after s = [2; 3; 4; 5]%nat
    /\ Persistence.total_saved s = 2.
Proof.
  destruct (proj2 (save_survives_failed_writes
                     "2025-09-24" "24_09_2025" "2025-09-24T12:00:00+00:00" (Py.VInt 2)
                     Writes.sample_writer [] [2; 3; 4; 5]%nat)
              Samples.snapshot Samples.current)
    as (s & Hs & _ & Hworld & _ & Htotal & _).
  - apply ok_unwrap. vm_compute. reflexivity.
  - exists s. split; [exact Hs|]. split; [exact Hworld | exact Htotal].
Defined.

(** * Further properties of the code *)

(** ** Normalized states *)

Section StringFacts.
Import Py Accumulator Keys.

Lemma lower_char_idem (c : ascii) : lower_char (lower_char c) = lower_char c.
Proof. destruct c as [[] [] [] [] [] [] [] []]; reflexivity. Qed.

Lemma isspace_lower_char (c : ascii) : isspace (lower_char c) = isspace c.
Proof. destruct c as [[] [] [] [] [] [] [] []]; reflexivity. Qed.

Lemma lower_idem (s : string) : lower (lower s) = lower s.
Proof.
  unfold lower. induction s as [|c s IH]; simpl; [done|].
  by rewrite lower_char_idem, IH.
Qed.

Lemma lstrip_map (p : ascii -> bool) (f : ascii -> ascii) (s : string) :
  (forall c, p (f c) = p c) ->
  lstrip p (map_string f s) = map_string f (lstrip p s).
Proof.
  intros H. induction s as [|c s IH]; simpl; [done|].
  rewrite H. by destruct (p c).
Qed.

Lemma rstrip_map (p : ascii -> bool) (f : ascii -> ascii) (s : string) :
  (forall c, p (f c) = p c) ->
  rstrip p (map_string f s) = map_string f (rstrip p s).
Proof.
  intros H. induction s as [|c s IH]; simpl; [done|].
  rewrite IH, H. destruct (rstrip p s); simpl; [by destruct (p c) | done].
Qed.

Lemma strip_lower (s : string) : strip (lower s) = lower (strip s).
Proof.
  unfold strip, strip_with, lower.
  rewrite lstrip_map, rstrip_map by apply isspace_lower_char. reflexivity.
Qed.

Lemma lstrip_fixed (p : ascii -> bool) (s : string) :
  (forall c, head_char s = Some c -> p c = false) -> lstrip p s = s.
Proof.
  destruct s as [|c s]; simpl; [done|].
  intros H. by rewrite (H c eq_refl).
Qed.

Lemma rstrip_idem (p : ascii -> bool) (s : string) : rstrip p (rstrip p s) = rstrip p s.
Proof.
  induction s as [|c s IH]; simpl; [done|].
  destruct (rstrip p s) as [|c' r] eqn:E.
  - destruct (p c) eqn:Ep; simpl; [done | by rewrite Ep].
  - simpl in *. by rewrite IH.
Qed.

Lemma rstrip_fixed (p : ascii -> bool) (s : string) :
  (forall c, last_char s = Some c -> p c = false) -> rstrip p s = s.
Proof.
  induction s as [|c s IH]; simpl; [done|].
  intros H. destruct s as [|c' s'].
  - simpl. by rewrite (H c eq_refl).
  - rewrite IH by exact H. reflexivity.
Qed.

Lemma strip_with_idem (p : ascii -> bool) (s : string) :
  strip_with p (strip_with p s) = strip_with p s.
Proof.
  unfold strip_with.
  rewrite (lstrip_fixed p (rstrip p (lstrip p s))); [apply rstrip_idem|].
  intros c Hc. destruct (rstrip p (lstrip p s)) eqn:E; [discriminate|].
  rewrite <- E in Hc. rewrite rstrip_head in Hc by (rewrite E; discriminate).
  by apply lstrip_head in Hc.
Qed.

Lemma normalize_state_string (s : string) :
  _normalize_state (VStr s)
  = if String.eqb (lower (strip s)) "" then None else Some (lower (strip s)).
Proof. reflexivity. Qed.

End StringFacts.

(** X1.  A normalized state is canonical: it is not empty, it is in lower
    case, it has no white space at either end, and normalizing it again
    gives it back. *)
Theorem normalize_state_canonical (v : Py.value) (t : string) :
  Accumulator._normalize_state v = Some t ->
  t <> "" /\ Py.lower t = t /\ Py.strip t = t
  /\ Accumulator._normalize_state (Py.VStr t) = Some t.
Proof.
  intros H.
  assert (exists s, t = Py.lower (Py.strip s) /\ t <> "") as (s & -> & Hne).
  { unfold Accumulator._normalize_state in H.
    destruct v; try discriminate;
      match type of H with context [String.eqb ?x ""] =>
        destruct (String.eqb_spec x "") as [|Hne]; [discriminate|];
        injection H as <-; eexists; split; [reflexivity | exact Hne]
      end. }
  assert (Hl : Py.lower (Py.lower (Py.strip s)) = Py.lower (Py.strip s))
    by apply lower_idem.
  assert (Hs : Py.strip (Py.lower (Py.strip s)) = Py.lower (Py.strip s)).
  { rewrite strip_lower. f_equal. apply strip_with_idem. }
  repeat split; try assumption.
  rewrite normalize_state_string, Hs, Hl.
  by destruct (String.eqb_spec (Py.lower (Py.strip s)) "").
Qed.

Lemma normalize_state_canonical_witness :
  Accumulator._normalize_state (Py.VStr "  In-Use ") = Some "in-use"
  /\ Py.strip "in-use" = "in-use".
Proof.
  split; [reflexivity|].
  apply (normalize_state_canonical (Py.VStr "  In-Use ") "in-use"). reflexivity.
Defined.

(** ** Sanitized keys and volume names *)

Section SanitizeMore.
Import Py Flatten Keys.

Lemma sanitize_clean_any (k : value) : clean_key (_sanitize_flat_key k).
Proof.
  destruct k as [|b|n|s|l|d];
    [repeat split; discriminate | | | apply sanitize_clean | |];
    unfold _sanitize_flat_key;
    match goal with |- context [py_str ?v] =>
      change (clean_key (if String.eqb (replace_and_trim (py_str v)) "" then "value"
                         else replace_and_trim (py_str v)));
      destruct (String.eqb_spec (replace_and_trim (py_str v)) "") as [_|Hne];
      [repeat split; discriminate | by apply replace_and_trim_clean]
    end.
Qed.

Lemma map_string_fixed (f : ascii -> ascii) (q : ascii -> bool) (s : string) :
  (forall c, q c = true -> f c = c) -> string_forall q s = true -> map_string f s = s.
Proof.
  intros H. induction s as [|c s IH]; simpl; [done|].
  intros [Hc Hs]%andb_true_iff. by rewrite (H c Hc), IH.
Qed.

Lemma replace_and_trim_fixed (s : string) : clean_key s -> replace_and_trim s = s.
Proof.
  intros (Hne & Hall & Hhead & Hlast). unfold replace_and_trim, strip_with.
  rewrite (map_string_fixed _ (fun ch => isalnum ch || Ascii.eqb ch underscore) s);
    [| intros c Hc; by rewrite Hc | exact Hall].
  rewrite lstrip_fixed.
  - apply rstrip_fixed. intros c Hc.
    destruct (Ascii.eqb_spec underscore c) as [<-|]; [by destruct Hlast | done].
  - intros c Hc.
    destruct (Ascii.eqb_spec underscore c) as [<-|]; [by destruct Hhead | done].
Qed.

End SanitizeMore.

(** X2.  Sanitizing is idempotent: the sanitized form of any key, a string
    or not, is a clean key, and a clean key is sanitized to itself. *)
Theorem sanitize_idempotent (k : Py.value) :
  Keys.clean_key (Flatten._sanitize_flat_key k)
  /\ Flatten._sanitize_flat_key (Py.VStr (Flatten._sanitize_flat_key k))
     = Flatten._sanitize_flat_key k.
Proof.
  pose proof (sanitize_clean_any k) as Hclean. split; [exact Hclean|].
  rewrite sanitize_string, (replace_and_trim_fixed _ Hclean).
  destruct Hclean as [Hne _].
  by destruct (String.eqb_spec (Flatten._sanitize_flat_key k) "").
Qed.

Section VolumeNames.
Import Py Accumulator Helpers.

Lemma string_in_In (s : string) (l : list string) : string_in s l = true <-> In s l.
Proof.
  unfold string_in. rewrite existsb_exists. split.
  - intros (x & Hx & ->%String.eqb_eq). exact Hx.
  - intros H. exists s. split; [exact H | apply String.eqb_refl].
Qed.

Lemma volume_api_name_fixed (s : string) :
  In s volume_api_names -> _normalize_volume_api_name (VStr s) = Ok s.
Proof.
  simpl. intros H.
  repeat (destruct H as [<-|H]; [reflexivity|]). destruct H.
Qed.

End VolumeNames.

(** X3.  The volume type is normalized to one of the seven API names
    whenever the call returns, and an API name is normalized to itself; a
    string or a false value never makes the call raise, a false value gives
    gp3, and the case of the letters does not matter. *)
Theorem volume_api_name_canonical (vtype : Py.value) :
  (forall name, Helpers._normalize_volume_api_name vtype = Py.Ok name ->
     In name Helpers.volume_api_names
     /\ Helpers._normalize_volume_api_name (Py.VStr name) = Py.Ok name)
  /\ (Py.truthy vtype = false -> Helpers._normalize_volume_api_name vtype = Py.Ok "gp3")
  /\ (forall s, vtype = Py.VStr s ->
        exists name, Helpers._normalize_volume_api_name vtype = Py.Ok name
          /\ Helpers._normalize_volume_api_name (Py.VStr (Py.lower s)) = Py.Ok name).
Proof.
  split; [|split].
  - intros name H.
    assert (Hin : In name Helpers.volume_api_names).
    { unfold Helpers._normalize_volume_api_name in H.
      destruct (Accumulator.method_lower _) as [v|e]; [|discriminate].
      destruct (Accumulator.string_in v Helpers.volume_api_names) eqn:E;
        [injection H as <-; exact (proj1 (string_in_In _ _) E)|].
      repeat match type of H with context [if ?b then _ else _] => destruct b end;
        injection H as <-; simpl; tauto. }
    split; [exact Hin | by apply volume_api_name_fixed].
  - intros H. unfold Helpers._normalize_volume_api_name, Py.py_or. by rewrite H.
  - intros s ->. unfold Helpers._normalize_volume_api_name, Py.py_or.
    assert (Hlow : Accumulator.method_lower
                     (if Py.truthy (Py.VStr (Py.lower s)) then Py.VStr (Py.lower s)
                      else Py.VStr "")
                   = Accumulator.method_lower
                       (if Py.truthy (Py.VStr s) then Py.VStr s else Py.VStr "")).
    { destruct s as [|c s]; [reflexivity|]. simpl. by rewrite lower_idem. }
    rewrite Hlow.
    assert (exists v, Accumulator.method_lower
                        (if Py.truthy (Py.VStr s) then Py.VStr s else Py.VStr "") = Py.Ok v)
      as [v ->] by (destruct s; simpl; eauto).
    eauto.
Qed.

Lemma volume_api_name_canonical_witness :
  Helpers._normalize_volume_api_name (Py.VStr "General-Purpose") = Py.Ok "gp2"
  /\ Helpers._normalize_volume_api_name (Py.VStr "gp2") = Py.Ok "gp2".
Proof.
  split; [reflexivity|].
  apply (proj1 (volume_api_name_canonical (Py.VStr "General-Purpose")) "gp2").
  reflexivity.
Defined.

(** ** Resource identifiers *)

(** X4.  The identifier of a record is computed exactly when its resource
    type, an empty string if absent, is a string: any other type reaches
    [startswith] and raises.  A record that carries none of the identifying
    fields is named Unknown, whatever its type. *)
Theorem resource_identifier_fallback (item : Py.dict) :
  ((exists v, Helpers._get_resource_identifier item = Py.Ok v)
   <-> exists s, Accumulator.get_default item "resourceType" (Py.VStr "") = Py.VStr s)
  /\ ((forall field, In field Helpers.identifier_fields ->
         Accumulator.dict_get item (Py.VStr field) = None) ->
      forall v, Helpers._get_resource_identifier item = Py.Ok v -> v = Py.VStr "Unknown").
Proof.
  unfold Helpers._get_resource_identifier.
  set (resource_type := Accumulator.get_default item "resourceType" (Py.VStr "")).
  split.
  - destruct resource_type as [|b|n|s|l|d];
      simpl; try (split; [intros [v Hv]; discriminate Hv | intros [s Hs]; discriminate Hs]).
    split; [eauto|]. intros _.
    repeat match goal with |- context [if ?b then _ else _] => destruct b end; eauto.
  - intros Habsent v.
    unfold Accumulator.get, Accumulator.get_default.
    rewrite !Habsent by (simpl; tauto). simpl.
    repeat match goal with |- context [if ?b then _ else _] => destruct b end;
      try (by intros [= <-]).
    destruct (Helpers.method_startswith _ _) as [[]|]; by intros [= <-].
Qed.

Lemma resource_identifier_fallback_witness :
  Helpers._get_resource_identifier [(Py.VStr "resourceType", Py.VStr "EC2Instance")]
  = Py.Ok (Py.VStr "Unknown").
Proof.
  destruct (resource_identifier_fallback
              [(Py.VStr "resourceType", Py.VStr "EC2Instance")]) as [Hret Hunknown].
  destruct (proj2 Hret (ex_intro _ "EC2Instance" eq_refl)) as [v Hv].
  rewrite Hv. f_equal. apply Hunknown; [|exact Hv].
  intros field Hin. simpl in Hin.
  repeat (destruct Hin as [<-|Hin]; [reflexivity|]). destruct Hin.
Defined.

(** ** The type histogram of a run *)

Section TallyFacts.
Import Py Accumulator.

Lemma key_eqb_sym (a b : value) : key_eqb a b = key_eqb b a.
Proof.
  destruct a as [|x|n|s|l|d], b as [|y|m|t|l'|d']; simpl; try reflexivity.
  - by destruct x, y.
  - by rewrite Z.eqb_sym.
  - by rewrite String.eqb_sym.
Qed.

Lemma key_eqb_congr (a b c : value) :
  key_eqb a b = true -> key_eqb a c = key_eqb b c.
Proof.
  intros Hab. destruct (key_eqb b c) eqn:Hbc.
  - eauto using key_eqb_trans.
  - destruct (key_eqb a c) eqn:Hac; [|reflexivity].
    rewrite key_eqb_sym in Hab. by rewrite (key_eqb_trans b a c Hab Hac) in Hbc.
Qed.

Lemma key_eqb_hashable (a b : value) : key_eqb a b = true -> hashable a = true.
Proof. by destruct a, b. Qed.

(** [c[k] += 1] read at any key. *)
Lemma tally_get_incr_at (c : list (value * Z)) (k k' : value) :
  tally_get (tally_incr c k) k' = tally_get c k' + (if key_eqb k k' then 1 else 0).
Proof.
  induction c as [|[k0 n] c IH]; simpl.
  - by destruct (key_eqb k k').
  - destruct (key_eqb k0 k) eqn:E; simpl.
    + rewrite (key_eqb_congr k0 k k' E). destruct (key_eqb k k'); lia.
    + destruct (key_eqb k0 k') eqn:E'; [|exact IH].
      destruct (key_eqb k k') eqn:E''; [|lia].
      rewrite key_eqb_sym in E''. by rewrite (key_eqb_trans k0 k' k E' E'') in E.
Qed.

Lemma tally_sum_incr (c : list (value * Z)) (k : value) :
  tally_sum (tally_incr c k) = tally_sum c + 1.
Proof.
  unfold tally_sum. induction c as [|[k0 n] c IH]; simpl; [reflexivity|].
  destruct (key_eqb k0 k); simpl; lia.
Qed.

End TallyFacts.

Section FirstStep.
Import Py Accumulator Reasoning.

(** What follows the first step of a method, when it keeps a reading. *)
Lemma first_step {A B X : Type} (f : accumulator -> X) (m : M A) (k : A -> M B)
    (st : accumulator) :
  (forall a, preserves (keeps f) (k a)) -> f (fst (bind m k st)) = f (fst (m st)).
Proof.
  intros Hk. unfold bind. destruct (m st) as [s1 [a|e]]; [apply Hk | reflexivity].
Qed.

Lemma feed_preserves (json_loads : string -> option value) (R : relation accumulator)
    `{!PreOrder R} :
  (forall c st, R st (perform json_loads c st)) ->
  forall calls st, R st (feed json_loads calls st).
Proof.
  intros Hstep calls. induction calls as [|c calls IH]; intros st; simpl.
  - reflexivity.
  - etransitivity; [apply Hstep | apply IH].
Qed.

Lemma feed_cons (json_loads : string -> option value) c calls st :
  feed json_loads (c :: calls) st = feed json_loads calls (perform json_loads c st).
Proof. reflexivity. Qed.

End FirstStep.

Section ResourceCounts.
Import Py Accumulator Reasoning Census.

Context (json_loads : string -> option value).

(** The type histogram after one call. *)
Lemma perform_resource_counts (c : call) (st : accumulator) :
  tallies (perform json_loads c st) resource_counts
  = match c with
    | AddResource item =>
        if counted c then tally_incr (tallies st resource_counts) (get item "resourceType")
        else tallies st resource_counts
    | AddCollectedRegion _ => tallies st resource_counts
    end.
Proof.
  destruct c as [item|region]; simpl.
  - unfold add_resource. destruct (truthy (get item "resourceType")); [|reflexivity].
    cbn [negb andb].
    rewrite (first_step (fun s => tallies s resource_counts)).
    + unfold tally. destruct (hashable _); simpl; [by rewrite fn_lookup_insert | done].
    + intros []. unfold_methods. frame_walk keeps_leaf.
  - revert st.
    change (preserves (keeps (fun s => tallies s resource_counts))
              (add_collected_region region)).
    unfold_methods. frame_walk keeps_leaf.
Qed.

Lemma feed_resource_counts (k : value) (calls : list call) (st : accumulator) :
  tally_get (tallies (feed json_loads calls st) resource_counts) k
  = tally_get (tallies st resource_counts) k + count (of_type k) calls
  /\ tally_sum (tallies (feed json_loads calls st) resource_counts)
     = tally_sum (tallies st resource_counts) + count counted calls.
Proof.
  revert st. induction calls as [|c calls IH]; intros st.
  - simpl. lia.
  - rewrite feed_cons. destruct (IH (perform json_loads c st)) as [-> ->].
    rewrite perform_resource_counts. cbn [count].
    destruct c as [item|region]; cbn [of_type counted]; [|lia].
    destruct (truthy (get item "resourceType")); cbn [andb]; [|lia].
    destruct (hashable (get item "resourceType")) eqn:Hh.
    + rewrite tally_get_incr_at, tally_sum_incr. lia.
    + destruct (key_eqb (get item "resourceType") k) eqn:E; [|lia].
      apply key_eqb_hashable in E. congruence.
Qed.

End ResourceCounts.

(** X5.  After any run from a fresh accumulator, raising calls included,
    the count kept for a resource type is the number of [add_resource]
    calls whose record had that type, and the total is the number of
    records that had a type usable as a key; a record with no type, or an
    empty one, is not counted anywhere. *)
Theorem resource_counts_exact (json_loads : string -> option Py.value)
    (calls : list Accumulator.call) (k : Py.value) :
  let st := Accumulator.feed json_loads calls Accumulator.reset in
  Accumulator.tally_get (Accumulator.tallies st Accumulator.resource_counts) k
  = Census.count (Census.of_type k) calls
  /\ Accumulator.get (Census.section_of (Accumulator.get_metrics st) "global")
       "totalResources"
     = Py.VInt (Census.count Census.counted calls).
Proof.
  intros st. destruct (feed_resource_counts json_loads k calls Accumulator.reset) as [H1 H2].
  split; [exact H1|].
  unfold st. cbn -[Accumulator.feed Accumulator.tally_sum]. rewrite H2. reflexivity.
Qed.

(** ** Taking any outcome of a method apart *)

Section Outcomes.
Import Py Accumulator Reasoning Invariants.

Lemma bind_inv {A B : Type} (m : M A) (k : A -> M B) (st st' : accumulator)
    (r : result B) :
  bind m k st = (st', r) ->
  (exists s1 a, m st = (s1, Ok a) /\ k a s1 = (st', r))
  \/ (exists e, m st = (st', Raise e) /\ r = Raise e).
Proof.
  unfold bind. destruct (m st) as [s1 [a|e]]; [eauto|].
  intros [= <- <-]. eauto.
Qed.

Lemma bind_assoc3 (m1 m2 m3 m4 : M unit) (st : accumulator) :
  (m1 ;; m2 ;; m3 ;; m4) st = ((m1 ;; m2 ;; m3) ;; m4) st.
Proof.
  unfold bind.
  destruct (m1 st) as [s1 [[]|e]]; [|reflexivity].
  destruct (m2 s1) as [s2 [[]|e]]; [|reflexivity].
  destruct (m3 s2) as [s3 [[]|e]]; reflexivity.
Qed.

#[global] Instance carries_preorder (I : accumulator -> Prop) : PreOrder (carries I).
Proof. split; unfold carries; [intros s; auto | intros s1 s2 s3; auto]. Qed.

Lemma triple_bind {A B : Type} (P Mid Q E : accumulator -> Prop) (m : M A) (k : A -> M B) :
  triple P m Mid E -> (forall a, triple Mid (k a) Q E) -> triple P (bind m k) Q E.
Proof.
  intros Hm Hk st HP. specialize (Hm st HP). unfold bind.
  destruct (m st) as [s1 [a|e]]; [by apply Hk | exact Hm].
Qed.

Lemma triple_val_bind {A B : Type} (P : accumulator -> Prop)
    (Mid : A -> accumulator -> Prop) (Q E : accumulator -> Prop) (m : M A) (k : A -> M B) :
  triple_val P m Mid E -> (forall a, triple (Mid a) (k a) Q E) -> triple P (bind m k) Q E.
Proof.
  intros Hm Hk st HP. specialize (Hm st HP). unfold bind.
  destruct (m st) as [s1 [a|e]]; [by apply Hk | exact Hm].
Qed.

Lemma triple_pre {A : Type} (P P' Q E : accumulator -> Prop) (m : M A) :
  (forall s, P' s -> P s) -> triple P m Q E -> triple P' m Q E.
Proof. intros HP H st HP'. apply H, HP, HP'. Qed.

Lemma frame_triple {A : Type} (I E : accumulator -> Prop) (m : M A) :
  preserves (carries I) m -> (forall s, I s -> E s) -> triple I m I E.
Proof.
  intros H HE st HI. specialize (H st HI). destruct (m st) as [s1 [a|e]]; auto.
Qed.

Lemma triple_carries {A : Type} (I : accumulator -> Prop) (m : M A) :
  triple I m I I -> preserves (carries I) m.
Proof.
  intros H st HI. specialize (H st HI). by destruct (m st) as [s1 [a|e]].
Qed.

End Outcomes.

Ltac settle H :=
  first
    [ discriminate H
    | match type of H with ?x = ?y => first [subst y | subst x] end
    | injection H as H; settle H
    | idtac ].

(** The store and the outcome of each step get a name and an equation. *)
Ltac step_inv H :=
  lazymatch type of H with
  | Accumulator.bind _ _ _ = _ =>
      let s := fresh "s" in
      let a := fresh "a" in
      let e := fresh "e" in
      let H1 := fresh "Hrun" in
      let Hr := fresh "Hres" in
      apply bind_inv in H as [(s & a & H1 & H) | (e & H & Hr)];
      [step_inv H1; step_inv H | settle Hr; step_inv H]
  | Accumulator.ret _ _ = _ =>
      let Hr := fresh "Hres" in
      unfold Accumulator.ret in H; injection H as H Hr; same_store H; settle Hr
  | Accumulator.raise _ _ = _ =>
      let Hr := fresh "Hres" in
      unfold Accumulator.raise in H; injection H as H Hr; same_store H; settle Hr
  | Accumulator.lift _ _ = _ =>
      let Hr := fresh "Hlift" in
      unfold Accumulator.lift in H; injection H as H Hr; same_store H
  | Accumulator.read _ _ = _ =>
      let Hr := fresh "Hread" in
      unfold Accumulator.read in H; injection H as H Hr; same_store H; settle Hr
  | Accumulator.modify _ _ = _ =>
      let Hr := fresh "Hres" in
      unfold Accumulator.modify in H; injection H as H Hr; settle Hr
  | Accumulator.bump _ _ = _ => unfold Accumulator.bump in H; step_inv H
  | Accumulator.tally _ _ _ = _ => unfold Accumulator.tally in H; step_inv H
  | Accumulator._increment_network_health _ _ _ = _ =>
      unfold Accumulator._increment_network_health in H; step_inv H
  | Accumulator.when ?b _ _ = _ =>
      let E := fresh "Hwhen" in
      unfold Accumulator.when in H; destruct b eqn:E; step_inv H
  | (if ?b then _ else _) _ = _ =>
      let E := fresh "Hif" in destruct b eqn:E; step_inv H
  | (match ?x with _ => _ end) _ = _ =>
      let E := fresh "Hcase" in destruct x eqn:E; step_inv H
  | _ => idtac
  end.

(** The readings of a store that a step made, in terms of the one before. *)
Ltac readings :=
  repeat
    match goal with
    | H : ?new = ?s |- _ =>
        is_var s;
        lazymatch type of s with Accumulator.accumulator => idtac end;
        lazymatch new with
        | Accumulator.set_num _ _ _ => idtac
        | Accumulator.set_tally _ _ _ => idtac
        | Accumulator.set_account_names _ _ => idtac
        | Accumulator.set_regions_collected _ _ => idtac
        | Accumulator.set_network_health _ _ => idtac
        | Accumulator.set_seen_ebs _ _ => idtac
        end;
        let E1 := fresh "Enum" in
        let E2 := fresh "Etal" in
        let E3 := fresh "Enam" in
        let E4 := fresh "Ereg" in
        let E5 := fresh "Enet" in
        let E6 := fresh "Eebs" in
        pose proof (eq_sym (f_equal Accumulator.num H)) as E1;
        pose proof (eq_sym (f_equal Accumulator.tallies H)) as E2;
        pose proof (eq_sym (f_equal Accumulator.account_names H)) as E3;
        pose proof (eq_sym (f_equal Accumulator.regions_collected H)) as E4;
        pose proof (eq_sym (f_equal Accumulator.network_health H)) as E5;
        pose proof (eq_sym (f_equal Accumulator._seen_ebs H)) as E6;
        cbn [Accumulator.num Accumulator.tallies Accumulator.account_names
             Accumulator.regions_collected Accumulator.network_health
             Accumulator._seen_ebs
             Accumulator.set_num Accumulator.set_tally Accumulator.set_account_names
             Accumulator.set_regions_collected Accumulator.set_network_health
             Accumulator.set_seen_ebs] in E1, E2, E3, E4, E5, E6;
        clear H
    end.

Ltac chase :=
  repeat
    first
      [ rewrite fn_lookup_insert
      | rewrite fn_lookup_insert_ne by discriminate
      | match goal with
        | E : Accumulator.num ?s = _ |- context [Accumulator.num ?s] => rewrite E
        | E : Accumulator.tallies ?s = _ |- context [Accumulator.tallies ?s] => rewrite E
        | E : Accumulator.account_names ?s = _
          |- context [Accumulator.account_names ?s] => rewrite E
        | E : Accumulator.regions_collected ?s = _
          |- context [Accumulator.regions_collected ?s] => rewrite E
        | E : Accumulator.network_health ?s = _
          |- context [Accumulator.network_health ?s] => rewrite E
        | E : Accumulator._seen_ebs ?s = _ |- context [Accumulator._seen_ebs ?s] =>
            rewrite E
        end ].

(** ** Counters of a type against the type histogram *)

Section Totals.
Import Py Accumulator Reasoning Invariants.

Context (json_loads : string -> option value).

Lemma key_eqb_str (v : value) (s : string) : key_eqb v (VStr s) = str_is v s.
Proof. by destruct v. Qed.

Lemma str_is_eq (v : value) (s : string) : str_is v s = true -> v = VStr s.
Proof. destruct v; simpl; try discriminate. by intros ->%String.eqb_eq. Qed.

Lemma agree_weaken (strict : bool) (x y : Z) : agree strict x y -> x <= y.
Proof. destruct strict; simpl; lia. Qed.

Lemma totals_between_weaken (strict : bool) (pending : value) (st : accumulator) :
  totals_between strict pending st -> totals_between false VNone st.
Proof.
  intros H name a Hin. specialize (H name a Hin). apply agree_weaken in H.
  simpl. destruct (str_is pending name); lia.
Qed.

(** The pairs of the table, one goal for each. *)
Ltac each_total :=
  let name := fresh "name" in
  let a := fresh "a" in
  let Hin := fresh "Hin" in
  intros name a Hin;
  match goal with H : totals_between _ _ _ |- _ => specialize (H name a Hin) end;
  simpl in Hin;
  repeat (destruct Hin as [Hin|Hin]; [injection Hin as <- <-|]);
  [..|destruct Hin].

Ltac totals_leaf :=
  let H := fresh "H" in
  unfold carries; simpl; intros H; each_total;
  simpl in *; rewrite ?fn_lookup_insert_ne by discriminate; exact H.

Lemma prelude_totals (strict : bool) (item : dict) :
  triple (totals_between strict VNone) (prelude item)
    (totals_between strict (get item "resourceType")) (totals_between false VNone).
Proof.
  unfold prelude.
  apply (triple_bind _ (totals_between strict (get item "resourceType"))).
  - intros st H. unfold tally.
    destruct (hashable (get item "resourceType")); simpl;
      [|by apply totals_between_weaken in H].
    intros name a Hin. specialize (H name a Hin). simpl in *.
    rewrite fn_lookup_insert, tally_get_incr_at, key_eqb_str.
    destruct strict, (str_is (get item "resourceType") name); simpl in *; lia.
  - intros _. apply frame_triple; [|apply totals_between_weaken].
    unfold_methods. frame_walk totals_leaf.
Qed.

(** What is known of the resource type on a branch of the dispatch. *)
Ltac known_type :=
  repeat match goal with
         | E : _ || _ = false |- _ => apply orb_false_iff in E as [? ?]
         | E : str_is _ _ = true |- _ => apply str_is_eq in E; rewrite ?E in *; clear E
         end;
  repeat match goal with
         | E : str_is _ _ = false |- _ => try rewrite E in *; clear E
         end.

Ltac bump_step :=
  let st := fresh "st" in
  let H := fresh "H" in
  intros st H; unfold bump, modify; cbn [fst snd];
  each_total; simpl in *; known_type;
  rewrite ?fn_lookup_insert, ?fn_lookup_insert_ne by discriminate;
  match goal with |- agree ?strict _ _ => destruct strict end; simpl in *; lia.

Ltac pending_done :=
  let st := fresh "st" in
  let H := fresh "H" in
  intros st H; each_total; simpl in *; known_type; simpl in *; exact H.

Lemma dispatch_totals (strict : bool) (item : dict) :
  triple (totals_between strict (get item "resourceType")) (dispatch json_loads item)
    (totals_between strict VNone) (totals_between false VNone).
Proof.
  unfold dispatch.
  repeat lazymatch goal with
         | |- triple _ (if ?b then _ else _) _ _ => destruct b eqn:?
         end;
    try match goal with E : _ || _ = true |- _ => apply orb_true_iff in E as [E|E] end;
    unfold _process_ec2_item, _process_rds_item, _process_s3_item, _process_sg_item;
    lazymatch goal with
    | |- triple _ (bind (bump _) _) _ _ =>
        apply (triple_bind _ (totals_between strict VNone));
        [ bump_step
        | intros _; apply frame_triple;
          [unfold_methods; frame_walk totals_leaf | apply totals_between_weaken] ]
    | |- triple _ (bump _) _ _ => bump_step
    | |- _ =>
        apply (triple_pre (totals_between strict VNone)); [pending_done|];
        apply frame_triple;
        [unfold_methods; frame_walk totals_leaf | apply totals_between_weaken]
    end.
Qed.

Lemma add_resource_totals (strict : bool) (item : dict) :
  triple (totals_between strict VNone) (add_resource json_loads item)
    (totals_between strict VNone) (totals_between false VNone).
Proof.
  intros st H. rewrite add_resource_split.
  destruct (negb (truthy (get item "resourceType"))); [exact H|].
  revert st H. apply (triple_bind _ _ _ _ _ _ (prelude_totals strict item)).
  intros _. apply dispatch_totals.
Qed.

Lemma perform_totals_le (c : call) (st : accumulator) :
  carries (totals_between false VNone) st (perform json_loads c st).
Proof.
  destruct c as [item|region]; simpl.
  - revert st. apply triple_carries, add_resource_totals.
  - revert st.
    change (preserves (carries (totals_between false VNone)) (add_collected_region region)).
    unfold_methods. frame_walk totals_leaf.
Qed.

Lemma feed_totals_eq (calls : list call) (st : accumulator) :
  all_return json_loads calls st = true ->
  totals_between true VNone st ->
  totals_between true VNone (feed json_loads calls st).
Proof.
  revert st. induction calls as [|c calls IH]; intros st; simpl; [done|].
  intros [Hc Hrest]%andb_true_iff H. apply IH; [exact Hrest|].
  destruct c as [item|region]; simpl in *.
  - pose proof (add_resource_totals true item st H) as Hstep.
    destruct (add_resource json_loads item st) as [st' [[]|e]]; [exact Hstep | discriminate].
  - revert st H Hc Hrest. intros st H _ _. revert H.
    change (carries (totals_between true VNone) st
              (fst (add_collected_region region st))).
    revert st.
    change (preserves (carries (totals_between true VNone)) (add_collected_region region)).
    unfold_methods. frame_walk totals_leaf.
Qed.

End Totals.

(** X6.  The counter of a resource type and the count kept for that type in
    the type histogram: after any run from a fresh accumulator the counter
    is at most the count, and when every call of the run returned they are
    equal, so that the properties [s3_buckets], [efs_filesystems] and
    [fsx_filesystems] give what the storage section of the snapshot gives. *)
Theorem totals_match_type_counts (json_loads : string -> option Py.value)
    (calls : list Accumulator.call) :
  let st := Accumulator.feed json_loads calls Accumulator.reset in
  let counted name :=
    Accumulator.tally_get (Accumulator.tallies st Accumulator.resource_counts)
      (Py.VStr name) in
  (forall name a, In (name, a) Invariants.type_totals ->
     Accumulator.num st a <= counted name)
  /\ (Reasoning.all_return json_loads calls Accumulator.reset = true ->
      (forall name a, In (name, a) Invariants.type_totals ->
         Accumulator.num st a = counted name)
      /\ Helpers.s3_buckets st = Accumulator.num st Accumulator.s3_total
      /\ Helpers.efs_filesystems st = Accumulator.num st Accumulator.efs_total
      /\ Helpers.fsx_filesystems st = Accumulator.num st Accumulator.fsx_total).
Proof.
  intros st counted. split.
  - assert (H : Invariants.totals_between false Py.VNone st).
    { apply (feed_preserves json_loads
               (Invariants.carries (Invariants.totals_between false Py.VNone))
               (perform_totals_le json_loads) calls Accumulator.reset).
      intros name a _. simpl. lia. }
    intros name a Hin. specialize (H name a Hin). simpl in H. unfold counted. lia.
  - intros Hret.
    assert (H : Invariants.totals_between true Py.VNone st).
    { apply feed_totals_eq; [exact Hret|]. intros name a _. simpl. lia. }
    assert (Heq : forall name a, In (name, a) Invariants.type_totals ->
                    Accumulator.num st a = counted name).
    { intros name a Hin. specialize (H name a Hin). simpl in H. unfold counted. lia. }
    split; [exact Heq|].
    unfold Helpers.s3_buckets, Helpers.efs_filesystems, Helpers.fsx_filesystems.
    repeat split; symmetry; apply Heq; simpl; tauto.
Qed.

Lemma totals_match_type_counts_witness :
  let st :=
    Accumulator.feed Samples.no_json
      [ Accumulator.AddResource Samples.ec2_running;
        Accumulator.AddResource Samples.rds_available ]
      Accumulator.reset in
  Accumulator.num st Accumulator.rds_total
  = Accumulator.tally_get (Accumulator.tallies st Accumulator.resource_counts)
      (Py.VStr "RDSInstance").
Proof.
  apply (proj2 (totals_match_type_counts Samples.no_json
                  [ Accumulator.AddResource Samples.ec2_running;
                    Accumulator.AddResource Samples.rds_available ]));
    [vm_compute; reflexivity | simpl; tauto].
Defined.

(** ** Accounts and regions *)

Section Dimensions.
Import Py Accumulator Reasoning Census Invariants.

Context (json_loads : string -> option value).

Lemma not_global (region : value) :
  str_is region "global" = false -> key_eqb region (VStr "global") = false.
Proof. by destruct region. Qed.

Lemma prelude_dimensions (item : dict) :
  preserves (carries dimensions_bounded) (prelude item).
Proof.
  intros st. unfold prelude. rewrite bind_assoc3.
  apply preserves_bind; [typeclasses eauto | |].
  - clear st. unfold preserves, carries. intros st (Hglobal & Hacc & Hreg).
    match goal with |- context [fst (?m st)] =>
      destruct (m st) as [st' r] eqn:Hrun end. cbn [fst].
    unfold dimensions_bounded.
    step_inv Hrun; readings; chase;
      rewrite ?tally_sum_incr, ?tally_get_incr_at;
      try match goal with
          | H : _ && negb (str_is _ "global") = true |- _ =>
              apply andb_true_iff in H as [_ H];
              apply negb_true_iff, not_global in H; rewrite H
          end;
      lia.
  - intros _. unfold_methods.
    frame_walk ltac:(unfold carries, dimensions_bounded; simpl; tauto).
Qed.

Lemma dispatch_dimensions (item : dict) :
  preserves (carries dimensions_bounded) (dispatch json_loads item).
Proof.
  unfold_methods.
  frame_walk ltac:(unfold carries, dimensions_bounded; simpl;
                   rewrite ?fn_lookup_insert_ne by discriminate; tauto).
Qed.

Lemma perform_dimensions (c : call) (st : accumulator) :
  carries dimensions_bounded st (perform json_loads c st).
Proof.
  destruct c as [item|region]; simpl.
  - apply (add_resource_preserves json_loads (carries dimensions_bounded) item
             (prelude_dimensions item) (dispatch_dimensions item)).
  - revert st. change (preserves (carries dimensions_bounded) (add_collected_region region)).
    unfold_methods.
    frame_walk ltac:(unfold carries, dimensions_bounded; simpl; tauto).
Qed.

End Dimensions.

(** X7.  After any run from a fresh accumulator, raising calls included, no
    record is counted under the region global, and neither the account
    histogram nor the region histogram counts more records than the type
    histogram, whose sum is the total of resources. *)
Theorem dimensions_never_exceed_total (json_loads : string -> option Py.value)
    (calls : list Accumulator.call) :
  let st := Accumulator.feed json_loads calls Accumulator.reset in
  Accumulator.tally_get (Accumulator.tallies st Accumulator.region_counts)
    (Py.VStr "global") = 0
  /\ Accumulator.tally_sum (Accumulator.tallies st Accumulator.account_counts)
     <= Accumulator.tally_sum (Accumulator.tallies st Accumulator.resource_counts)
  /\ Accumulator.tally_sum (Accumulator.tallies st Accumulator.region_counts)
     <= Accumulator.tally_sum (Accumulator.tallies st Accumulator.resource_counts).
Proof.
  apply (feed_preserves json_loads (Invariants.carries Invariants.dimensions_bounded)
           (perform_dimensions json_loads) calls Accumulator.reset).
  repeat split; simpl; lia.
Qed.

Section AccountNames.
Import Py Accumulator Reasoning Invariants.

Context (json_loads : string -> option value).

Lemma dict_get_set (d : dict) (k v k' : value) :
  dict_get (dict_set d k v) k' = if key_eqb k k' then Some v else dict_get d k'.
Proof.
  induction d as [|[k0 v0] d IH]; simpl; [reflexivity|].
  destruct (key_eqb k0 k) eqn:E; simpl.
  - rewrite (key_eqb_congr k0 k k' E). by destruct (key_eqb k k').
  - destruct (key_eqb k0 k') eqn:E'; [|exact IH].
    destruct (key_eqb k k') eqn:E''; [|reflexivity].
    rewrite key_eqb_sym in E''. by rewrite (key_eqb_trans k0 k' k E' E'') in E.
Qed.

Lemma bind_assoc2 {A : Type} (m1 m2 : M unit) (k : M A) (st : accumulator) :
  (m1 ;; m2 ;; k) st = ((m1 ;; m2) ;; k) st.
Proof.
  unfold bind.
  destruct (m1 st) as [s1 [[]|e]]; [|reflexivity].
  destruct (m2 s1) as [s2 [[]|e]]; reflexivity.
Qed.

(** The names of the accounts after one [add_resource]. *)
Lemma add_resource_account_names (item : dict) (st : accumulator) :
  account_names (fst (add_resource json_loads item st))
  = if names_account item
    then dict_set (account_names st) (get item "accountId") (get item "accountName")
    else account_names st.
Proof.
  unfold add_resource, names_account.
  destruct (truthy (get item "resourceType")); [|reflexivity]. cbn [negb andb].
  rewrite bind_assoc2.
  rewrite (first_step account_names).
  - match goal with |- context [fst (?m st)] =>
      destruct (m st) as [st' r] eqn:Hrun end. cbn [fst].
    step_inv Hrun; readings; chase;
      repeat match goal with H : _ = _ |- _ => rewrite H end; reflexivity.
  - intros []. unfold_methods. frame_walk keeps_leaf.
Qed.

End AccountNames.

(** X8.  The name of an account is the last one written: a record with a
    type, an account id and an account name leaves that name under its
    account id, whatever was there and whether or not the call later
    raises, and leaves the names of all other accounts alone; a record
    that lacks one of the three leaves every name alone. *)
Theorem account_name_last_wins (json_loads : string -> option Py.value)
    (item : Py.dict) (st : Accumulator.accumulator) :
  let st' := fst (Accumulator.add_resource json_loads item st) in
  (Invariants.names_account item = true ->
     Accumulator.dict_get (Accumulator.account_names st') (Accumulator.get item "accountId")
     = Some (Accumulator.get item "accountName")
     /\ forall k, Py.key_eqb (Accumulator.get item "accountId") k = false ->
          Accumulator.dict_get (Accumulator.account_names st') k
          = Accumulator.dict_get (Accumulator.account_names st) k)
  /\ (Invariants.names_account item = false ->
        Accumulator.account_names st' = Accumulator.account_names st).
Proof.
  intros st'. unfold st'. rewrite add_resource_account_names.
  split; intros H; rewrite H; [|reflexivity].
  split; [|intros k Hk]; rewrite dict_get_set; [|by rewrite Hk].
  rewrite key_eqb_refl; [reflexivity|].
  unfold Invariants.names_account in H.
  by apply andb_true_iff in H as [[_ H]%andb_true_iff _].
Qed.

Lemma account_name_last_wins_witness :
  Accumulator.dict_get
    (Accumulator.account_names
       (fst (Accumulator.add_resource Samples.no_json Samples.ec2_running
               Accumulator.reset)))
    (Py.VStr "111122223333")
  = Some (Py.VStr "prod").
Proof.
  apply (proj1 (account_name_last_wins Samples.no_json Samples.ec2_running
                  Accumulator.reset)).
  reflexivity.
Defined.

(** ** Network buckets *)

Section Network.
Import Py Accumulator Reasoning Invariants.

Context (json_loads : string -> option value).

Lemma bucket_incr_keys (h : list (string * bucket)) (key : string) (is_healthy : bool) :
  In key (map fst h) -> map fst (bucket_incr h key is_healthy) = map fst h.
Proof.
  induction h as [|[k b] h IH]; simpl; [done|].
  destruct (String.eqb_spec k key) as [->|Hne]; simpl; [done|].
  intros [Heq|Hin]; [done | by rewrite IH].
Qed.

Lemma bucket_incr_ok (h : list (string * bucket)) (key : string) (is_healthy : bool) :
  Forall (fun kb => bucket_ok (snd kb)) h ->
  Forall (fun kb => bucket_ok (snd kb)) (bucket_incr h key is_healthy).
Proof.
  unfold bucket_ok. induction h as [|[k b] h IH]; simpl; intros H.
  - constructor; [|done]. destruct is_healthy; simpl; lia.
  - inversion H as [|? ? Hb Hh]; subst. simpl in Hb.
    destruct (String.eqb k key).
    + constructor; [|done]. destruct is_healthy; simpl; lia.
    + constructor; [done | by apply IH].
Qed.

Lemma increment_network_ok (key : string) (is_healthy : bool) (st : accumulator) :
  In key network_keys -> network_ok st ->
  network_ok (set_network_health (bucket_incr (network_health st) key is_healthy) st).
Proof.
  intros Hkey [Hkeys Hall]. split; simpl.
  - rewrite bucket_incr_keys; [exact Hkeys | by rewrite Hkeys].
  - by apply bucket_incr_ok.
Qed.

Ltac network_leaf :=
  unfold carries; simpl;
  first [ exact (fun H => H)
        | apply increment_network_ok; simpl; tauto ].

Lemma perform_network_ok (c : call) (st : accumulator) :
  carries network_ok st (perform json_loads c st).
Proof.
  destruct c as [item|region]; simpl.
  - apply (add_resource_preserves json_loads (carries network_ok) item);
      unfold_methods; frame_walk network_leaf.
  - revert st. change (preserves (carries network_ok) (add_collected_region region)).
    unfold_methods. frame_walk network_leaf.
Qed.

Lemma add_resource_network_frame (item : dict) (st : accumulator) :
  network_type (get item "resourceType") = false ->
  network_health (fst (add_resource json_loads item st)) = network_health st.
Proof.
  unfold network_type. rewrite !orb_false_iff. intros [[[H1 H2] H3] H4].
  revert st. change (preserves (keeps network_health) (add_resource json_loads item)).
  apply add_resource_preserves; [typeclasses eauto | |].
  - unfold_methods. rewrite H1, H2, H3, H4. frame_walk keeps_leaf.
  - unfold_methods. frame_walk keeps_leaf.
Qed.

Lemma network_report_entry (st : accumulator) (key : string) (b : bucket) :
  map fst (network_health st) = network_keys ->
  In (key, b) (network_health st) ->
  match _build_network_health_metrics st with
  | VDict report => dict_get report (VStr key)
  | _ => None
  end
  = Some (VDict [ (VStr "total", VInt (total b));
                  (VStr "healthy", VInt (healthy b));
                  (VStr "unhealthy", VInt (Z.max (total b - healthy b) 0));
                  (VStr "healthyPercentage",
                   VInt (Pct._safe_pct (healthy b) (total b))) ]).
Proof.
  unfold _build_network_health_metrics, network_keys.
  destruct (network_health st) as [|[k1 b1] [|[k2 b2] [|[k3 b3] [|[k4 b4] [|]]]]];
    try discriminate.
  intros Hkeys Hin. injection Hkeys as -> -> -> ->.
  destruct Hin as [H|[H|[H|[H|[]]]]]; injection H as <- <-; reflexivity.
Qed.

End Network.

(** X9.  After any run from a fresh accumulator, raising calls included,
    the network health holds the four buckets of [reset] and no other, and
    in each bucket the healthy resources are at most the resources.  What
    [get_metrics] reports under [network], and again under [networkHealth]
    in its global section, is what [_build_network_health_metrics] builds:
    for each bucket an entry under the bucket's key whose [total] and
    [healthy] are the bucket's and whose [unhealthy] is their exact
    difference, the floor at zero never being reached.  A record of a type
    other than the four network types leaves every bucket as it was. *)
Theorem network_buckets_consistent (json_loads : string -> option Py.value)
    (calls : list Accumulator.call) :
  let st := Accumulator.feed json_loads calls Accumulator.reset in
  let metrics := Accumulator.get_metrics st in
  map fst (Accumulator.network_health st) = Invariants.network_keys
  /\ Accumulator.get metrics "network" = Accumulator._build_network_health_metrics st
  /\ Accumulator.get (Census.section_of metrics "global") "networkHealth"
     = Accumulator._build_network_health_metrics st
  /\ (forall key b, In (key, b) (Accumulator.network_health st) ->
        let entry := Census.section_of (Census.section_of metrics "network") key in
        0 <= Accumulator.healthy b <= Accumulator.total b
        /\ Accumulator.get entry "total" = Py.VInt (Accumulator.total b)
        /\ Accumulator.get entry "healthy" = Py.VInt (Accumulator.healthy b)
        /\ Accumulator.get entry "unhealthy"
           = Py.VInt (Accumulator.total b - Accumulator.healthy b))
  /\ (forall item st0,
        Invariants.network_type (Accumulator.get item "resourceType") = false ->
        Accumulator.network_health (fst (Accumulator.add_resource json_loads item st0))
        = Accumulator.network_health st0).
Proof.
  intros st metrics.
  assert (Hok : Invariants.network_ok st).
  { apply (feed_preserves json_loads (Invariants.carries Invariants.network_ok)
             (perform_network_ok json_loads) calls Accumulator.reset).
    split; [reflexivity|]. repeat constructor; simpl; lia. }
  destruct Hok as [Hkeys Hall].
  split; [exact Hkeys|]. split; [reflexivity|]. split; [reflexivity|]. split.
  - intros key b Hin entry. rewrite List.Forall_forall in Hall.
    specialize (Hall (key, b) Hin). unfold Invariants.bucket_ok in Hall. simpl in Hall.
    split; [exact Hall|].
    pose proof (network_report_entry st key b Hkeys Hin) as Hentry.
    assert (Hread : entry
                    = [ (Py.VStr "total", Py.VInt (Accumulator.total b));
                        (Py.VStr "healthy", Py.VInt (Accumulator.healthy b));
                        (Py.VStr "unhealthy",
                         Py.VInt (Z.max (Accumulator.total b - Accumulator.healthy b) 0));
                        (Py.VStr "healthyPercentage",
                         Py.VInt (Pct._safe_pct (Accumulator.healthy b)
                                    (Accumulator.total b))) ]).
    { subst entry metrics. unfold Census.section_of at 1.
      change (Census.section_of (Accumulator.get_metrics st) "network")
        with (match Accumulator._build_network_health_metrics st with
              | Py.VDict report => report
              | _ => []
              end).
      unfold Accumulator.get.
      unfold Accumulator._build_network_health_metrics in *.
      rewrite Hentry. reflexivity. }
    rewrite Hread. split; [reflexivity|]. split; [reflexivity|].
    cbn -[Z.max]. f_equal. lia.
  - intros item st0. apply add_resource_network_frame.
Qed.

Lemma network_buckets_consistent_witness :
  Accumulator.network_health
    (fst (Accumulator.add_resource Samples.no_json Samples.ec2_running Accumulator.reset))
  = Accumulator.network_health Accumulator.reset.
Proof.
  apply (proj2 (proj2 (proj2 (proj2 (network_buckets_consistent Samples.no_json []))))).
  reflexivity.
Defined.

(** ** Parts and wholes *)

Section Parts.
Import Py Accumulator Reasoning Invariants.

Context (json_loads : string -> option value).

(** Every path of a method, each with the readings of its stores. *)
Ltac triple_paths :=
  let st := fresh "st" in
  let Hinv := fresh "Hinv" in
  unfold triple, parts_within, parts_between; intros st Hinv;
  match goal with |- match ?m st with _ => _ end =>
    let st' := fresh "st'" in
    let r := fresh "r" in
    let Hrun := fresh "Hrun" in
    destruct (m st) as [st' r] eqn:Hrun;
    step_inv Hrun; try (destruct r); readings; chase; lia
  end.

Lemma process_s3_parts (item : dict) :
  triple parts_within (_process_s3_item item) parts_within parts_within.
Proof. unfold _process_s3_item. triple_paths. Qed.

Lemma process_sg_parts (item : dict) :
  triple parts_within (_process_sg_item item) parts_within parts_within.
Proof. unfold _process_sg_item. triple_paths. Qed.

Lemma process_rds_parts (item : dict) :
  triple parts_within (_process_rds_item item) parts_within parts_within.
Proof. unfold _process_rds_item. triple_paths. Qed.

Lemma process_ec2_parts (item : dict) :
  triple parts_within (_process_ec2_item item) parts_within parts_within.
Proof.
  unfold _process_ec2_item.
  apply (triple_bind _ (parts_between 1 1)); [triple_paths|]. intros _.
  apply (triple_bind _ (parts_between 1 1)); [triple_paths|]. intros state.
  apply (triple_bind _ (parts_between 1 1)); [triple_paths|]. intros _.
  apply (triple_bind _ (parts_between 0 1)); [triple_paths|]. intros _.
  apply (triple_bind _ (parts_between 0 1)); [triple_paths|]. intros _.
  apply (triple_bind _ (parts_between 0 1)); [triple_paths|]. intros patch_status.
  triple_paths.
Qed.

Ltac parts_leaf :=
  unfold carries, parts_within, parts_between; simpl;
  rewrite ?fn_lookup_insert_ne by discriminate; tauto.

Lemma dispatch_parts (item : dict) :
  preserves (carries parts_within) (dispatch json_loads item).
Proof.
  unfold dispatch.
  repeat lazymatch goal with
         | |- preserves _ (if ?b then _ else _) => destruct b
         end;
    first
      [ apply triple_carries, process_ec2_parts
      | apply triple_carries, process_rds_parts
      | apply triple_carries, process_s3_parts
      | apply triple_carries, process_sg_parts
      | unfold_methods; frame_walk parts_leaf ].
Qed.

Lemma perform_parts (c : call) (st : accumulator) :
  carries parts_within st (perform json_loads c st).
Proof.
  destruct c as [item|region]; simpl.
  - apply (add_resource_preserves json_loads (carries parts_within) item);
      [unfold_methods; frame_walk parts_leaf | apply dispatch_parts].
  - revert st. change (preserves (carries parts_within) (add_collected_region region)).
    unfold_methods. frame_walk parts_leaf.
Qed.

End Parts.

(** X10.  After any run from a fresh accumulator, raising calls included,
    every counter of a part is at most the counter of its whole: buckets
    with lifecycle rules against buckets, the three RDS flags against the
    instances, exposed groups against groups, running and stopped together
    against instances, both agents against each agent, instances with one
    of the agents against running ones, the SSM buckets against running
    ones and the patch buckets against all.  So the floors at zero in the
    snapshot are never reached: the [s3WithoutLifecycle] that [get_metrics]
    reports in its storage section is the buckets less those with lifecycle
    rules, and the [noneEnabled] it reports for the CloudWatch agent, in
    the EC2 section that is there once an instance was counted, is the
    running instances less the larger of the two agent counters. *)
Theorem parts_never_exceed_wholes (json_loads : string -> option Py.value)
    (calls : list Accumulator.call) :
  let st := Accumulator.feed json_loads calls Accumulator.reset in
  let n := Accumulator.num st in
  let metrics := Accumulator.get_metrics st in
  (n Accumulator.s3_with_lifecycle <= n Accumulator.s3_total
   /\ n Accumulator.rds_available <= n Accumulator.rds_total
   /\ n Accumulator.rds_multiaz <= n Accumulator.rds_total
   /\ n Accumulator.rds_performance_insights <= n Accumulator.rds_total
   /\ n Accumulator.sg_with_exposed_ports <= n Accumulator.sg_total
   /\ n Accumulator.ec2_running + n Accumulator.ec2_stopped <= n Accumulator.ec2_total
   /\ n Accumulator.ec2_cw_both <= n Accumulator.ec2_cw_memory
   /\ n Accumulator.ec2_cw_both <= n Accumulator.ec2_cw_disk
   /\ n Accumulator.ec2_cw_memory + n Accumulator.ec2_cw_disk - n Accumulator.ec2_cw_both
      <= n Accumulator.ec2_running
   /\ n Accumulator.ec2_ssm_connected + n Accumulator.ec2_ssm_notconnected
      + n Accumulator.ec2_ssm_notinstalled <= n Accumulator.ec2_running
   /\ n Accumulator.ec2_patch_compliant + n Accumulator.ec2_patch_noncompliant
      + n Accumulator.ec2_patch_unknown <= n Accumulator.ec2_total)
  /\ Accumulator.get (Census.section_of metrics "storage") "s3WithoutLifecycle"
     = Py.VInt (n Accumulator.s3_total - n Accumulator.s3_with_lifecycle)
  /\ (0 < n Accumulator.ec2_total ->
      Accumulator.get
        (Census.section_of (Census.section_of metrics "ec2") "cloudwatchAgent")
        "noneEnabled"
      = Py.VInt (n Accumulator.ec2_running
                 - Z.max (n Accumulator.ec2_cw_memory) (n Accumulator.ec2_cw_disk))).
Proof.
  intros st n metrics.
  assert (H : Invariants.parts_within st).
  { apply (feed_preserves json_loads (Invariants.carries Invariants.parts_within)
             (perform_parts json_loads) calls Accumulator.reset).
    unfold Invariants.parts_within, Invariants.parts_between. simpl. lia. }
  unfold Invariants.parts_within, Invariants.parts_between in H. fold n in H.
  split; [lia|]. split.
  - subst metrics. cbn -[Accumulator.feed Z.max]. fold st. fold n. f_equal. lia.
  - intros Hsome. apply Z.ltb_lt in Hsome. subst metrics.
    unfold Census.section_of, Accumulator.get_metrics.
    cbn -[Accumulator.feed Z.max Z.ltb]. fold st. fold n. rewrite Hsome.
    cbn -[Accumulator.feed Z.max]. fold st. fold n. f_equal. lia.
Qed.

Lemma parts_never_exceed_wholes_witness :
  let st := Accumulator.feed Samples.no_json
              [Accumulator.AddResource Samples.ec2_running] Accumulator.reset in
  0 < Accumulator.num st Accumulator.ec2_total
  /\ Accumulator.get
       (Census.section_of
          (Census.section_of (Accumulator.get_metrics st) "ec2") "cloudwatchAgent")
       "noneEnabled"
     = Py.VInt (Accumulator.num st Accumulator.ec2_running
                - Z.max (Accumulator.num st Accumulator.ec2_cw_memory)
                        (Accumulator.num st Accumulator.ec2_cw_disk)).
Proof.
  assert (Hsome : 0 < Accumulator.num
                        (Accumulator.feed Samples.no_json
                           [Accumulator.AddResource Samples.ec2_running]
                           Accumulator.reset) Accumulator.ec2_total)
    by (vm_compute; reflexivity).
  split; [exact Hsome|].
  exact (proj2 (proj2 (parts_never_exceed_wholes Samples.no_json
                         [Accumulator.AddResource Samples.ec2_running])) Hsome).
Defined.

(** ** Volumes seen *)

Section Volumes.
Import Py Accumulator Reasoning Invariants.

Context (json_loads : string -> option value).

Lemma seen_distinct_snoc (s : list (value * value * value)) k :
  seen_distinct s = true -> seen_mem s k = false -> seen_distinct (s ++ [k]) = true.
Proof.
  unfold seen_mem. induction s as [|k0 s IH]; simpl; [done|].
  rewrite !andb_true_iff, !negb_true_iff, orb_false_iff.
  intros [Hk0 Hs] [Hk Hmem]. split; [|by apply IH].
  rewrite existsb_app, Hk0. simpl. by rewrite Hk.
Qed.

Lemma ebs_between_weaken (st : accumulator) : ebs_between 1 st -> ebs_between 0 st.
Proof. unfold ebs_between. intros (H1 & H2 & H3). repeat split; [lia | lia | done]. Qed.

Ltac ebs_leaf :=
  let H1 := fresh "H" in
  let H2 := fresh "H" in
  let H3 := fresh "H" in
  unfold carries, ebs_between; simpl; intros (H1 & H2 & H3);
  rewrite ?fn_lookup_insert, ?fn_lookup_insert_ne by discriminate;
  rewrite ?tally_get_incr_at;
  repeat split; try assumption;
  try match goal with |- context [key_eqb ?a ?b] => destruct (key_eqb a b) end; lia.

Lemma process_ebs_between (item : dict) :
  triple (ebs_between 1) (_process_ebs_item json_loads item) (ebs_between 0)
    (ebs_between 0).
Proof.
  unfold _process_ebs_item, triple, ebs_between. intros st (H1 & H2 & H3).
  match goal with |- match ?m st with _ => _ end =>
    destruct (m st) as [st' r] eqn:Hrun end.
  step_inv Hrun; readings; chase; unfold len in *;
    rewrite ?length_app, ?seen_distinct_snoc by assumption;
    simpl length; repeat split; try reflexivity; try assumption; lia.
Qed.

Lemma prelude_ebs_between (item : dict) :
  triple (ebs_between 0) (prelude item)
    (ebs_between (if str_is (get item "resourceType") "EBSVolume" then 1 else 0))
    (ebs_between 0).
Proof.
  unfold prelude.
  apply (triple_bind _
           (ebs_between (if str_is (get item "resourceType") "EBSVolume" then 1 else 0))).
  - unfold triple, ebs_between. intros st (H1 & H2 & H3).
    match goal with |- match ?m st with _ => _ end =>
      destruct (m st) as [st' r] eqn:Hrun end.
    step_inv Hrun; readings; chase; [|repeat split; assumption].
    rewrite tally_get_incr_at. repeat split; try assumption.
    destruct (get item "resourceType") as [| | |s| |]; simpl;
      try destruct (String.eqb s "EBSVolume"); lia.
  - intros _. apply frame_triple.
    + unfold_methods. frame_walk ebs_leaf.
    + intros s. destruct (str_is _ _); [apply ebs_between_weaken | done].
Qed.

Lemma dispatch_ebs_between (item : dict) :
  triple (ebs_between (if str_is (get item "resourceType") "EBSVolume" then 1 else 0))
    (dispatch json_loads item) (ebs_between 0) (ebs_between 0).
Proof.
  unfold dispatch. destruct (str_is (get item "resourceType") "EBSVolume") eqn:Hebs.
  - apply is_ebs_type in Hebs. rewrite Hebs. cbn [str_is String.eqb Ascii.eqb Bool.eqb].
    apply process_ebs_between.
  - cbn iota.
    repeat lazymatch goal with
           | |- triple _ (if ?b then _ else _) _ _ => destruct b
           end;
      (apply frame_triple; [unfold_methods; frame_walk ebs_leaf | done]).
Qed.

Lemma perform_ebs_between (c : call) (st : accumulator) :
  carries (ebs_between 0) st (perform json_loads c st).
Proof.
  destruct c as [item|region]; simpl.
  - revert st. apply triple_carries. intros st H.
    rewrite add_resource_split.
    destruct (negb (truthy (get item "resourceType"))); [exact H|].
    revert st H. apply (triple_bind _ _ _ _ _ _ (prelude_ebs_between item)).
    intros _. apply dispatch_ebs_between.
  - revert st. change (preserves (carries (ebs_between 0)) (add_collected_region region)).
    unfold_methods. frame_walk ebs_leaf.
Qed.

End Volumes.

(** X11.  After any run from a fresh accumulator, raising calls included,
    the unattached volumes are at most the distinct volume keys seen, which
    are at most the EBS records counted (the [ebs_volumes] property), and no
    two of the keys seen are equal. *)
Theorem unattached_volumes_bounded (json_loads : string -> option Py.value)
    (calls : list Accumulator.call) :
  let st := Accumulator.feed json_loads calls Accumulator.reset in
  Accumulator.num st Accumulator.ebs_unattached
  <= Accumulator.len (Accumulator._seen_ebs st) <= Helpers.ebs_volumes st
  /\ Invariants.seen_distinct (Accumulator._seen_ebs st) = true.
Proof.
  intros st.
  assert (H : Invariants.ebs_between 0 st).
  { apply (feed_preserves json_loads (Invariants.carries (Invariants.ebs_between 0))
             (perform_ebs_between json_loads) calls Accumulator.reset).
    repeat split; simpl; first [lia | reflexivity]. }
  destruct H as (H1 & H2 & H3). unfold Helpers.ebs_volumes. repeat split; [lia | lia | done].
Qed.

(** ** Addresses and snapshots *)

Section Addresses.
Import Py Accumulator Reasoning Invariants.

Context (json_loads : string -> option value).

Lemma addresses_weaken (st : accumulator) :
  addresses_between 1 st -> addresses_between 0 st.
Proof. unfold addresses_between. intros [H1 H2]. split; [lia | done]. Qed.

Ltac addresses_leaf :=
  let H1 := fresh "H" in
  let H2 := fresh "H" in
  unfold carries, addresses_between; simpl; intros [H1 H2];
  rewrite ?fn_lookup_insert, ?fn_lookup_insert_ne by discriminate;
  rewrite ?tally_get_incr_at;
  split; try assumption;
  try match goal with |- context [key_eqb ?a ?b] => destruct (key_eqb a b) end; lia.

Lemma prelude_addresses (item : dict) :
  triple (addresses_between 0) (prelude item)
    (addresses_between (if str_is (get item "resourceType") "ElasticIP" then 1 else 0))
    (addresses_between 0).
Proof.
  unfold prelude.
  apply (triple_bind _
           (addresses_between
              (if str_is (get item "resourceType") "ElasticIP" then 1 else 0))).
  - unfold triple, addresses_between. intros st [H1 H2].
    match goal with |- match ?m st with _ => _ end =>
      destruct (m st) as [st' r] eqn:Hrun end.
    step_inv Hrun; readings; chase; [|split; assumption].
    rewrite tally_get_incr_at, key_eqb_str. split; [|assumption].
    destruct (str_is (get item "resourceType") "ElasticIP"); lia.
  - intros _. apply frame_triple.
    + unfold_methods. frame_walk addresses_leaf.
    + intros s. destruct (str_is _ _); [apply addresses_weaken | done].
Qed.

Lemma dispatch_addresses (item : dict) :
  triple (addresses_between (if str_is (get item "resourceType") "ElasticIP" then 1 else 0))
    (dispatch json_loads item) (addresses_between 0) (addresses_between 0).
Proof.
  unfold dispatch. destruct (str_is (get item "resourceType") "ElasticIP") eqn:Heip.
  - apply str_is_eq in Heip. rewrite Heip. cbn [str_is String.eqb Ascii.eqb Bool.eqb].
    unfold _process_eip_item, triple, addresses_between. intros st [H1 H2].
    match goal with |- match ?m st with _ => _ end =>
      destruct (m st) as [st' r] eqn:Hrun end.
    step_inv Hrun; readings; chase; split; first [assumption | lia].
  - cbn iota.
    repeat lazymatch goal with
           | |- triple _ (if ?b then _ else _) _ _ => destruct b
           end;
      (apply frame_triple; [unfold_methods; frame_walk addresses_leaf | done]).
Qed.

Lemma perform_addresses (c : call) (st : accumulator) :
  carries (addresses_between 0) st (perform json_loads c st).
Proof.
  destruct c as [item|region]; simpl.
  - revert st. apply triple_carries. intros st H.
    rewrite add_resource_split.
    destruct (negb (truthy (get item "resourceType"))); [exact H|].
    revert st H. apply (triple_bind _ _ _ _ _ _ (prelude_addresses item)).
    intros _. apply dispatch_addresses.
  - revert st.
    change (preserves (carries (addresses_between 0)) (add_collected_region region)).
    unfold_methods. frame_walk addresses_leaf.
Qed.

End Addresses.

(** X12.  After any run from a fresh accumulator, raising calls included,
    the unassociated addresses are at most the Elastic IP records counted,
    and the counter of orphaned snapshots is still zero: no record of any
    type raises it. *)
Theorem unassociated_addresses_bounded (json_loads : string -> option Py.value)
    (calls : list Accumulator.call) :
  let st := Accumulator.feed json_loads calls Accumulator.reset in
  Accumulator.num st Accumulator.eip_unassociated
  <= Accumulator.tally_get (Accumulator.tallies st Accumulator.resource_counts)
       (Py.VStr "ElasticIP")
  /\ Accumulator.num st Accumulator.snapshots_orphaned = 0.
Proof.
  intros st.
  assert (H : Invariants.addresses_between 0 st).
  { apply (feed_preserves json_loads
             (Invariants.carries (Invariants.addresses_between 0))
             (perform_addresses json_loads) calls Accumulator.reset).
    split; simpl; [lia | reflexivity]. }
  destruct H as [H1 H2]. split; [lia | exact H2].
Qed.

(** ** Histograms of states, health and engines *)

Section Histograms.
Import Py Accumulator Reasoning Invariants.

Context (json_loads : string -> option value).

Lemma histograms_weaken (strict : bool) (a b c : Z) (st : accumulator) :
  0 <= a -> 0 <= b -> 0 <= c ->
  histograms_between strict a b c st -> histograms_between false 0 0 0 st.
Proof.
  unfold histograms_between. intros Ha Hb Hc (H1 & H2 & H3).
  destruct strict; simpl in *; lia.
Qed.

Ltac hist_leaf :=
  let H := fresh "H" in
  unfold carries, histograms_between; simpl; intros H;
  rewrite ?fn_lookup_insert_ne by discriminate; exact H.

(** Every path of one step, each with the readings of its stores. *)
Ltac hist_paths :=
  let st := fresh "st" in
  let H1 := fresh "H" in
  let H2 := fresh "H" in
  let H3 := fresh "H" in
  unfold triple, histograms_between; intros st (H1 & H2 & H3);
  match goal with |- match ?m st with _ => _ end =>
    let st' := fresh "st'" in
    let r := fresh "r" in
    let Hrun := fresh "Hrun" in
    destruct (m st) as [st' r] eqn:Hrun;
    step_inv Hrun; try (destruct r); readings; chase; rewrite ?tally_sum_incr;
    match goal with H : agree ?strict _ _ |- _ => destruct strict end;
    unfold agree in *; lia
  end.

Ltac hist_frame :=
  apply frame_triple;
  [ unfold_methods; frame_walk hist_leaf
  | intros ?; apply histograms_weaken; lia ].

Lemma process_ec2_histograms (strict : bool) (item : dict) :
  triple (histograms_between strict 0 0 0) (_process_ec2_item item)
    (histograms_between strict 0 0 0) (histograms_between false 0 0 0).
Proof.
  unfold _process_ec2_item.
  apply (triple_bind _ (histograms_between strict 1 1 0)); [hist_paths|]. intros _.
  apply (triple_bind _ (histograms_between strict 1 1 0)); [hist_paths|]. intros state.
  apply (triple_bind _ (histograms_between strict 0 1 0)); [hist_paths|]. intros _.
  apply (triple_bind _ (histograms_between strict 0 1 0)); [hist_frame|]. intros _.
  apply (triple_bind _ (histograms_between strict 0 0 0)); [hist_paths|]. intros _.
  hist_frame.
Qed.

Lemma process_rds_histograms (strict : bool) (item : dict) :
  triple (histograms_between strict 0 0 0) (_process_rds_item item)
    (histograms_between strict 0 0 0) (histograms_between false 0 0 0).
Proof.
  unfold _process_rds_item.
  apply (triple_bind _ (histograms_between strict 0 0 1)); [hist_paths|]. intros _.
  apply (triple_bind _ (histograms_between strict 0 0 1)); [hist_paths|]. intros status.
  apply (triple_bind _ (histograms_between strict 0 0 1)); [hist_frame|]. intros _.
  apply (triple_bind _ (histograms_between strict 0 0 0)); [hist_paths|]. intros _.
  hist_frame.
Qed.

Lemma add_resource_histograms (strict : bool) (item : dict) :
  triple (histograms_between strict 0 0 0) (add_resource json_loads item)
    (histograms_between strict 0 0 0) (histograms_between false 0 0 0).
Proof.
  intros st H. rewrite add_resource_split.
  destruct (negb (truthy (get item "resourceType"))); [exact H|].
  revert st H. apply (triple_bind _ (histograms_between strict 0 0 0)); [hist_frame|].
  intros _. unfold dispatch.
  repeat lazymatch goal with
         | |- triple _ (if ?b then _ else _) _ _ => destruct b
         end;
    first [ apply process_ec2_histograms | apply process_rds_histograms | hist_frame ].
Qed.

Lemma perform_histograms_le (c : call) (st : accumulator) :
  carries (histograms_between false 0 0 0) st (perform json_loads c st).
Proof.
  destruct c as [item|region]; simpl.
  - revert st. apply triple_carries, add_resource_histograms.
  - revert st.
    change (preserves (carries (histograms_between false 0 0 0))
              (add_collected_region region)).
    unfold_methods. frame_walk hist_leaf.
Qed.

Lemma feed_histograms_eq (calls : list call) (st : accumulator) :
  all_return json_loads calls st = true ->
  histograms_between true 0 0 0 st ->
  histograms_between true 0 0 0 (feed json_loads calls st).
Proof.
  revert st. induction calls as [|c calls IH]; intros st; simpl; [done|].
  intros [Hc Hrest]%andb_true_iff H. apply IH; [exact Hrest|].
  destruct c as [item|region]; simpl in *.
  - pose proof (add_resource_histograms true item st H) as Hstep.
    destruct (add_resource json_loads item st) as [st' [[]|e]]; [exact Hstep | discriminate].
  - clear Hc Hrest. revert H.
    change (carries (histograms_between true 0 0 0) st
              (fst (add_collected_region region st))).
    revert st.
    change (preserves (carries (histograms_between true 0 0 0))
              (add_collected_region region)).
    unfold_methods. frame_walk hist_leaf.
Qed.

End Histograms.

(** X13.  The histograms against the instances they sort: after any run from
    a fresh accumulator the states and the health values counted are at
    most the EC2 instances and the engines counted at most the RDS
    instances; when every call of the run returned they are equal, each
    instance being in exactly one bucket of each histogram. *)
Theorem histograms_sum_to_totals (json_loads : string -> option Py.value)
    (calls : list Accumulator.call) :
  let st := Accumulator.feed json_loads calls Accumulator.reset in
  let sum t := Accumulator.tally_sum (Accumulator.tallies st t) in
  (sum Accumulator.ec2_states <= Accumulator.num st Accumulator.ec2_total
   /\ sum Accumulator.ec2_health <= Accumulator.num st Accumulator.ec2_total
   /\ sum Accumulator.rds_engines <= Accumulator.num st Accumulator.rds_total)
  /\ (Reasoning.all_return json_loads calls Accumulator.reset = true ->
      sum Accumulator.ec2_states = Accumulator.num st Accumulator.ec2_total
      /\ sum Accumulator.ec2_health = Accumulator.num st Accumulator.ec2_total
      /\ sum Accumulator.rds_engines = Accumulator.num st Accumulator.rds_total).
Proof.
  intros st sum. split.
  - assert (H : Invariants.histograms_between false 0 0 0 st).
    { apply (feed_preserves json_loads
               (Invariants.carries (Invariants.histograms_between false 0 0 0))
               (perform_histograms_le json_loads) calls Accumulator.reset).
      unfold Invariants.histograms_between, Invariants.agree, Accumulator.tally_sum.
      simpl. lia. }
    destruct H as (H1 & H2 & H3). unfold Invariants.agree in *. unfold sum. lia.
  - intros Hret.
    assert (H : Invariants.histograms_between true 0 0 0 st).
    { apply feed_histograms_eq; [exact Hret|].
      unfold Invariants.histograms_between, Invariants.agree, Accumulator.tally_sum.
      simpl. lia. }
    destruct H as (H1 & H2 & H3). unfold Invariants.agree in *. unfold sum. lia.
Qed.

Lemma histograms_sum_to_totals_witness :
  let st :=
    Accumulator.feed Samples.no_json
      [ Accumulator.AddResource Samples.ec2_running;
        Accumulator.AddResource Samples.ec2_stopped ]
      Accumulator.reset in
  Accumulator.tally_sum (Accumulator.tallies st Accumulator.ec2_states)
  = Accumulator.num st Accumulator.ec2_total.
Proof.
  apply (proj2 (histograms_sum_to_totals Samples.no_json
                  [ Accumulator.AddResource Samples.ec2_running;
                    Accumulator.AddResource Samples.ec2_stopped ])).
  vm_compute. reflexivity.
Defined.

(** ** The records that are accepted *)

Section Accepted.
Import Py Accumulator Reasoning Invariants.

Context (json_loads : string -> option value).

Lemma lower_is_str (v : value) :
  match method_lower v with
  | Ok _ => is_str v = true
  | Raise _ => is_str v = false
  end.
Proof. by destruct v. Qed.

Lemma strip_lower_is_str (v : value) :
  match method_strip_lower v with
  | Ok _ => is_str v = true
  | Raise _ => is_str v = false
  end.
Proof. by destruct v. Qed.

(** What the outcome of a lowering tells of the field. *)
Ltac lowered :=
  repeat match goal with
         | H : method_lower ?v = _ |- _ =>
             let Hs := fresh "Hstr" in
             pose proof (lower_is_str v) as Hs; rewrite H in Hs; revert H
         | H : method_strip_lower ?v = _ |- _ =>
             let Hs := fresh "Hstr" in
             pose proof (strip_lower_is_str v) as Hs; rewrite H in Hs; revert H
         end;
  intros.

(** The outcome of one step against what is left to check of the record. *)
Ltac accept_paths :=
  let st := fresh "st" in
  let Hacc := fresh "Hacc" in
  unfold triple, triple_val; intros st Hacc;
  match goal with |- match ?m st with _ => _ end =>
    let st' := fresh "st'" in
    let r := fresh "r" in
    let Hrun := fresh "Hrun" in
    destruct (m st) as [st' r] eqn:Hrun;
    step_inv Hrun; try (destruct r); lowered;
    try match goal with H : hashable (VStr _) = false |- _ => discriminate H end;
    repeat match goal with
           | H : negb _ = true |- _ => apply negb_true_iff in H
           | H : negb _ = false |- _ => apply negb_false_iff in H
           end;
    repeat match goal with
           | H : _ = true |- _ =>
               lazymatch H with
               | Hacc => fail
               | _ => try rewrite H in Hacc; clear H
               end
           | H : _ = false |- _ =>
               lazymatch H with
               | Hacc => fail
               | _ => try rewrite H in Hacc; clear H
               end
           end;
    cbn [andb orb negb] in Hacc; exact Hacc
  end.

Lemma prelude_accepts (item : dict) :
  triple (fun _ => accepted item
                   = (hashable (get item "resourceType")
                      && ((negb (truthy (get item "accountId"))
                           || hashable (get item "accountId"))
                          && ((negb (truthy (get item "region")
                                     && negb (str_is (get item "region") "global"))
                               || hashable (get item "region"))
                              && processor_accepts item))))
    (prelude item)
    (fun _ => accepted item = processor_accepts item)
    (fun _ => accepted item = false).
Proof.
  unfold prelude.
  eapply triple_bind; [accept_paths|]. intros _.
  eapply triple_bind; [accept_paths|]. intros _.
  eapply triple_bind; [accept_paths|]. intros _.
  unfold _process_network_resource. accept_paths.
Qed.

Lemma process_ec2_accepts (item : dict) :
  triple (fun _ => accepted item = ec2_accepted item) (_process_ec2_item item)
    (fun _ => accepted item = true) (fun _ => accepted item = false).
Proof.
  unfold _process_ec2_item, ec2_accepted.
  eapply triple_bind; [accept_paths|]. intros _.
  apply (triple_val_bind _
           (fun state _ =>
              accepted item
              = ((negb (String.eqb state "running")
                  || is_str (py_or (get item "ssmStatus") (VStr "")))
                 && (hashable (get_default item "healthStatus" (VStr "Unknown"))
                     && is_str (py_or (get item "patchCompliance") (VStr "Unknown")))))).
  { intros st Hacc. unfold lift, is_running in *.
    pose proof (lower_is_str (py_or (get item "instanceState") (VStr "unknown"))) as Hstr.
    destruct (method_lower _) as [state|e]; rewrite Hstr in Hacc; exact Hacc. }
  intros state.
  eapply triple_bind; [accept_paths|]. intros _.
  eapply triple_bind; [accept_paths|]. intros _.
  eapply triple_bind; [accept_paths|]. intros _.
  eapply triple_bind; [accept_paths|]. intros patch_status.
  accept_paths.
Qed.

Lemma process_rds_accepts (item : dict) :
  triple (fun _ => accepted item = rds_accepted item) (_process_rds_item item)
    (fun _ => accepted item = true) (fun _ => accepted item = false).
Proof.
  unfold _process_rds_item, rds_accepted.
  eapply triple_bind; [accept_paths|]. intros _.
  eapply triple_bind; [accept_paths|]. intros status.
  eapply triple_bind; [accept_paths|]. intros _.
  eapply triple_bind; [accept_paths|]. intros _.
  accept_paths.
Qed.

Lemma process_ebs_accepts (item : dict) :
  triple (fun _ => accepted item = triple_hashable (ebs_key item))
    (_process_ebs_item json_loads item)
    (fun _ => accepted item = true) (fun _ => accepted item = false).
Proof. unfold _process_ebs_item. accept_paths. Qed.

Lemma dispatch_accepts (item : dict) :
  triple (fun _ => accepted item = processor_accepts item) (dispatch json_loads item)
    (fun _ => accepted item = true) (fun _ => accepted item = false).
Proof.
  unfold dispatch, processor_accepts.
  repeat lazymatch goal with
         | |- triple _ (if ?b then _ else _) _ _ => destruct b
         end;
    first
      [ apply process_ec2_accepts
      | apply process_rds_accepts
      | apply process_ebs_accepts
      | unfold_methods; accept_paths ].
Qed.

Lemma add_resource_accepts (item : dict) (st : accumulator) :
  returns (snd (add_resource json_loads item st)) = accepted item.
Proof.
  rewrite add_resource_split. unfold accepted.
  destruct (truthy (get item "resourceType")) eqn:Htype; [|reflexivity].
  cbn [negb orb].
  pose proof (triple_bind _ _ _ _ _ (fun _ => dispatch json_loads item)
                (prelude_accepts item) (fun _ => dispatch_accepts item) st) as H.
  unfold accepted in H. rewrite Htype in H. specialize (H eq_refl).
  cbn [negb orb] in H.
  destruct (bind (prelude item) _ st) as [st' [[]|e]]; simpl; symmetry; exact H.
Qed.

End Accepted.

(** X14.  Which records [add_resource] accepts: the call returns exactly
    when the record has no type, or its type, its account id and its
    region, where they are counted, can be dictionary keys and the fields
    its processor lowers are strings when they are true (for an EC2
    instance the state, the SSM status if it is running and the patch
    compliance, with a health status that can be a key; for an RDS instance
    the status, with an engine that can be a key; for a volume the parts of
    its key); otherwise it raises.  Neither the store nor the JSON parser
    has a say in it. *)
Theorem add_resource_accepts_well_formed_records
    (json_loads : string -> option Py.value) (item : Py.dict)
    (st : Accumulator.accumulator) :
  Reasoning.returns (snd (Accumulator.add_resource json_loads item st))
  = Invariants.accepted item.
Proof. apply add_resource_accepts. Qed.

(** ** Collected regions *)

Section Regions.
Import Py Accumulator Reasoning Invariants Census.

Context (json_loads : string -> option value).

Lemma set_mem_add (s : list value) (x y : value) :
  set_mem (set_add s x) y = set_mem s y || key_eqb x y.
Proof.
  unfold set_add. destruct (set_mem s x) eqn:Hx.
  - destruct (key_eqb x y) eqn:Hxy; [|by rewrite orb_false_r].
    rewrite orb_true_r. unfold set_mem in *.
    apply existsb_exists in Hx as (z & Hz & Hzx).
    apply existsb_exists. exists z. eauto using key_eqb_trans.
  - unfold set_mem. rewrite existsb_app. simpl. by rewrite orb_false_r.
Qed.

Lemma set_distinct_add (s : list value) (x : value) :
  set_distinct s = true -> set_distinct (set_add s x) = true.
Proof.
  unfold set_add. destruct (set_mem s x) eqn:Hx; [done|].
  unfold set_mem in Hx. induction s as [|z s IH]; simpl in *; [done|].
  rewrite !andb_true_iff, !negb_true_iff.
  apply orb_false_iff in Hx as [Hzx Hx]. intros [Hz Hs]. split; [|by apply IH].
  rewrite existsb_app, Hz. simpl. by rewrite Hzx.
Qed.

(** The collected regions after one call. *)
Lemma perform_regions (c : call) (st : accumulator) :
  regions_collected (perform json_loads c st)
  = match c with
    | AddCollectedRegion region =>
        if truthy region && hashable region
        then set_add (regions_collected st) region
        else regions_collected st
    | AddResource _ => regions_collected st
    end.
Proof.
  destruct c as [item|region]; simpl.
  - revert st. change (preserves (keeps regions_collected) (add_resource json_loads item)).
    apply add_resource_preserves; [typeclasses eauto | |];
      unfold_methods; frame_walk keeps_leaf.
  - unfold add_collected_region. by destruct (truthy region), (hashable region).
Qed.

Lemma feed_regions (calls : list call) (st : accumulator) :
  (forall x, set_mem (regions_collected (feed json_loads calls st)) x
             = set_mem (regions_collected st) x || existsb (collects x) calls)
  /\ (set_distinct (regions_collected st) = true ->
      set_distinct (regions_collected (feed json_loads calls st)) = true).
Proof.
  revert st. induction calls as [|c calls IH]; intros st.
  - simpl. split; [intros x; by rewrite orb_false_r | done].
  - rewrite feed_cons. destruct (IH (perform json_loads c st)) as [IHmem IHdis].
    rewrite perform_regions in IHmem, IHdis. split.
    + intros x. rewrite IHmem.
      destruct c as [item|region]; cbn [existsb collects orb]; [reflexivity|].
      destruct (truthy region); cbn [andb orb]; [|reflexivity].
      destruct (hashable region) eqn:Hh.
      * by rewrite set_mem_add, orb_assoc.
      * destruct (key_eqb region x) eqn:E; [|reflexivity].
        apply key_eqb_hashable in E. congruence.
    + intros H. apply IHdis.
      destruct c as [item|region]; [exact H|].
      destruct (truthy region && hashable region); [by apply set_distinct_add | exact H].
Qed.

End Regions.

(** X15.  The collected regions are a set: after any run from a fresh
    accumulator a value is a member exactly when some call of
    [add_collected_region] gave a region that is true and equal to it, no
    two members are equal, so that giving a region again changes nothing,
    and [add_resource] never touches the set. *)
Theorem collected_regions_form_a_set (json_loads : string -> option Py.value)
    (calls : list Accumulator.call) :
  let st := Accumulator.feed json_loads calls Accumulator.reset in
  (forall x, Accumulator.set_mem (Accumulator.regions_collected st) x
             = existsb (Census.collects x) calls)
  /\ Invariants.set_distinct (Accumulator.regions_collected st) = true
  /\ (forall region st0,
        Accumulator.set_mem (Accumulator.regions_collected st0) region = true ->
        fst (Accumulator.add_collected_region region st0) = st0)
  /\ (forall item st0,
        Accumulator.regions_collected (fst (Accumulator.add_resource json_loads item st0))
        = Accumulator.regions_collected st0).
Proof.
  intros st. destruct (feed_regions json_loads calls Accumulator.reset) as [Hmem Hdis].
  split; [exact Hmem|]. split; [by apply Hdis|]. split.
  - intros region st0 H. unfold Accumulator.add_collected_region, Accumulator.set_add.
    destruct (Py.truthy region), (Py.hashable region); try reflexivity.
    simpl. rewrite H. by destruct st0.
  - intros item st0.
    exact (perform_regions json_loads (Accumulator.AddResource item) st0).
Qed.

Lemma collected_regions_form_a_set_witness :
  fst (Accumulator.add_collected_region (Py.VStr "us-east-1")
         (Accumulator.feed Samples.no_json
            [Accumulator.AddCollectedRegion (Py.VStr "us-east-1")] Accumulator.reset))
  = Accumulator.feed Samples.no_json
      [Accumulator.AddCollectedRegion (Py.VStr "us-east-1")] Accumulator.reset.
Proof.
  apply (proj1 (proj2 (proj2 (collected_regions_form_a_set Samples.no_json [])))).
  reflexivity.
Defined.

(** ** The values and keys of a flattened target *)

Section FlattenFlat.
Import Py Flatten Keys Flatness.

Lemma flatten_items_flat (d : dict) (t : flat) (p : string) :
  Forall (fun kv => entry_flat kv.2) d -> all_scalar t -> all_scalar (flatten_items t d p).
Proof.
  unfold flatten_items. intros Hd. revert t.
  induction Hd as [|[k v] d Hv Hd IH]; intros t Ht; simpl; [exact Ht|].
  apply IH. by apply Hv.
Qed.

Lemma flatten_elems_flat (l : list value) (t : flat) (i : nat) (p : string) :
  Forall (fun v => entry_flat v
                   /\ match v with
                      | VDict d => Forall (fun kv => entry_flat kv.2) d
                      | _ => True
                      end) l ->
  all_scalar t -> all_scalar (flatten_elems t l i p).
Proof.
  intros Hl. revert t i.
  induction Hl as [|elem l [Helem Hsub] Hl IH]; intros t i Ht; simpl; [exact Ht|].
  apply IH.
  destruct elem as [|b|n|s|l'|d];
    try (by apply map_Forall_insert_2).
  - by apply Helem.
  - by apply flatten_items_flat.
Qed.

Lemma entry_flat_all (v : value) :
  entry_flat v
  /\ match v with
     | VDict d => Forall (fun kv => entry_flat kv.2) d
     | _ => True
     end.
Proof.
  induction v as [|b|n|s|l Hl|d Hd] using value_nested_ind;
    try (split; [|exact I]; intros t p k Ht; simpl; by apply map_Forall_insert_2).
  - split; [|exact I]. intros t p k Ht. rewrite flatten_entry_list.
    by apply flatten_elems_flat.
  - assert (Hvals : Forall (fun kv => entry_flat kv.2) d).
    { eapply Forall_impl; [exact Hd|]. by intros kv [H _]. }
    split; [|exact Hvals]. intros t p k Ht. rewrite flatten_entry_dict.
    by apply flatten_items_flat.
Qed.

End FlattenFlat.

(** X16.  What [flatten_metric] adds to a target is flat and stays under
    its prefix: if the values of the target are scalars then so are the
    values of the result, however deep the data is nested; and with a
    prefix that is not empty a key that does not start with the prefix
    keeps what it had in the target.  Flattened into an empty target, the
    data gives only scalar values under keys that start with the prefix. *)
Theorem flatten_is_flat_and_prefixed (target f : Flatten.flat) (data : Py.value)
    (prefix : string) :
  Flatten.flatten_metric target data prefix = Py.Ok f ->
  (Flatness.all_scalar target -> Flatness.all_scalar f)
  /\ (prefix <> "" ->
      (forall key, String.prefix prefix key = false -> f !! key = target !! key)
      /\ (target = ∅ ->
          forall key v, f !! key = Some v ->
            Flatness.scalar v = true /\ String.prefix prefix key = true)).
Proof.
  intros Hf.
  assert (Hflat : Flatness.all_scalar target -> Flatness.all_scalar f).
  { unfold Flatten.flatten_metric in Hf. intros Ht.
    destruct (Py.truthy data); [|by injection Hf as <-].
    destruct data as [| | | | |d]; try discriminate. injection Hf as <-.
    apply flatten_items_flat; [|exact Ht].
    apply Forall_forall. intros kv _. apply entry_flat_all. }
  split; [exact Hflat|]. intros Hp.
  assert (Hframe : forall key, String.prefix prefix key = false -> f !! key = target !! key).
  { intros key Hkey. by apply (flatten_metric_frame _ _ _ _ _ Hf Hp Hkey). }
  split; [exact Hframe|]. intros -> key v Hv. split.
  - apply (Hflat (map_Forall_empty _) key v Hv).
  - destruct (String.prefix prefix key) eqn:E; [reflexivity|].
    rewrite (Hframe key E), lookup_empty in Hv. discriminate.
Qed.

Lemma flatten_is_flat_and_prefixed_witness :
  let data :=
    Py.VDict [ (Py.VStr "ssmAgent", Py.VDict [(Py.VStr "connected", Py.VInt 97)]);
               (Py.VStr "tags", Py.VList [Py.VStr "a"; Py.VList []]) ] in
  let target : Flatten.flat := {[ "id" := Py.VStr "x" ]} in
  let f :=
    match Flatten.flatten_metric target data "ec2" with
    | Py.Ok f => f
    | Py.Raise _ => ∅
    end in
  f !! "id" = target !! "id".
Proof.
  intros data target f.
  assert (Hf : Flatten.flatten_metric target data "ec2" = Py.Ok f)
    by (apply ok_unwrap; reflexivity).
  apply (proj1 (proj2 (flatten_is_flat_and_prefixed target f data "ec2" Hf)
                 ltac:(discriminate))).
  reflexivity.
Defined.

(** ** Lists in a flattened target *)

Section FlattenLists.
Import Py Flatten Keys Flatness.

Lemma append_cancel (a x y : string) : a ++ x = a ++ y -> x = y.
Proof. induction a as [|c a IH]; simpl; [done|]. intros [= H]. by apply IH. Qed.

Lemma indexed_inj (new_key : string) (i j : nat) :
  indexed new_key i = indexed new_key j -> i = j.
Proof.
  unfold indexed. intros H%append_cancel%append_cancel.
  by apply pretty_nat_inj in H.
Qed.

(** A list of scalars, flattened from index [i]: element by element. *)
Lemma flatten_elems_scalars (l : list value) (t : flat) (i j : nat) (p : string) :
  Forall (fun x => scalar x = true) l ->
  flatten_elems t l i p !! indexed p j
  = if decide (i <= j < i + length l)%nat then l !! (j - i)%nat else t !! indexed p j.
Proof.
  intros Hl. revert t i. induction Hl as [|x l Hx Hl IH]; intros t i; simpl.
  - destruct (decide _); [lia | reflexivity].
  - assert (Hstep : match x with
                    | VDict d => flatten_items t d (indexed p i)
                    | VList _ => flatten_entry t p (VStr (pretty i)) x
                    | _ => <[indexed p i := x]> t
                    end = <[indexed p i := x]> t) by (by destruct x).
    rewrite Hstep, IH.
    destruct (decide (S i <= j < S i + length l)%nat) as [Hin|Hout].
    + destruct (decide _) as [_|]; [|lia].
      replace (j - i)%nat with (S (j - S i)) by lia. reflexivity.
    + destruct (decide (i = j)) as [<-|Hne].
      * rewrite lookup_insert_eq. destruct (decide _) as [_|]; [|lia].
        by rewrite Nat.sub_diag.
      * rewrite lookup_insert_ne by (intros H%indexed_inj; done).
        destruct (decide _); [lia | reflexivity].
Qed.

End FlattenLists.

(** X17.  A list of scalars is flattened element by element: under a key
    [k], element number [j] of the list is stored under the key [k_j], the
    sanitized key followed by an underscore and the index, whatever the
    target held before. *)
Theorem list_elements_are_indexed (target : Flatten.flat) (prefix : string)
    (k : Py.value) (l : list Py.value) (j : nat) (x : Py.value) :
  Forall (fun e => Flatness.scalar e = true) l ->
  l !! j = Some x ->
  Flatten.flatten_entry target prefix k (Py.VList l)
    !! Flatten.indexed (Flatten.extend prefix (Flatten._sanitize_flat_key k)) j
  = Some x.
Proof.
  intros Hl Hj. rewrite flatten_entry_list, flatten_elems_scalars by exact Hl.
  apply lookup_lt_Some in Hj as Hlt.
  destruct (decide _) as [_|]; [|lia]. by rewrite Nat.sub_0_r.
Qed.

Lemma list_elements_are_indexed_witness :
  Flatten.flatten_entry ∅ "ec2" (Py.VStr "tags") (Py.VList [Py.VStr "a"; Py.VInt 7])
    !! "ec2_tags_1"
  = Some (Py.VInt 7).
Proof.
  apply (list_elements_are_indexed ∅ "ec2" (Py.VStr "tags") [Py.VStr "a"; Py.VInt 7] 1);
    [repeat constructor | reflexivity].
Defined.

(** ** The fields of the dashboard item *)

(** X18.  No metric can overwrite a field of the dashboard item whose name
    starts with none of the metric names: whatever the metrics hold, the
    item built from them has there what the assembler set first.  So the
    resource type, the account, the region, the dates, the time stamps,
    the metric flag and the duration are the assembler's own. *)
Theorem identity_fields_are_kept
    (date_str_iso date_str_br iso_timestamp : string) (processing_duration : Py.value)
    (metrics : Py.dict) (dashboard_item : Flatten.flat) :
  Persistence.current_item date_str_iso date_str_br iso_timestamp processing_duration
    metrics = Py.Ok dashboard_item ->
  (forall key, Keys.outside_metrics key = true ->
     dashboard_item !! key
     = Keys.base_item date_str_iso date_str_br iso_timestamp processing_duration !! key)
  /\ dashboard_item !! "resourceType" = Some (Py.VStr "METRICS_DASHBOARD")
  /\ dashboard_item !! "accountId" = Some (Py.VStr "GLOBAL")
  /\ dashboard_item !! "accountName" = Some (Py.VStr "Metrics Dashboard")
  /\ dashboard_item !! "region" = Some (Py.VStr "global")
  /\ dashboard_item !! "metricDate" = Some (Py.VStr date_str_iso)
  /\ dashboard_item !! "metricDateKey" = Some (Py.VStr date_str_br)
  /\ dashboard_item !! "isMetric" = Some (Py.VBool true)
  /\ dashboard_item !! "createdAt" = Some (Py.VStr iso_timestamp)
  /\ dashboard_item !! "updatedAt" = Some (Py.VStr iso_timestamp)
  /\ dashboard_item !! "processingDurationSeconds" = Some processing_duration.
Proof.
  intros Hcur.
  pose proof (current_item_frame _ _ _ _ _ _ "resourceType" Hcur eq_refl) as H1.
  pose proof (current_item_frame _ _ _ _ _ _ "accountId" Hcur eq_refl) as H2.
  pose proof (current_item_frame _ _ _ _ _ _ "accountName" Hcur eq_refl) as H3.
  pose proof (current_item_frame _ _ _ _ _ _ "region" Hcur eq_refl) as H4.
  pose proof (current_item_frame _ _ _ _ _ _ "metricDate" Hcur eq_refl) as H5.
  pose proof (current_item_frame _ _ _ _ _ _ "metricDateKey" Hcur eq_refl) as H6.
  pose proof (current_item_frame _ _ _ _ _ _ "isMetric" Hcur eq_refl) as H7.
  pose proof (current_item_frame _ _ _ _ _ _ "createdAt" Hcur eq_refl) as H8.
  pose proof (current_item_frame _ _ _ _ _ _ "updatedAt" Hcur eq_refl) as H9.
  pose proof (current_item_frame _ _ _ _ _ _ "processingDurationSeconds" Hcur eq_refl)
    as H10.
  split; [intros key Hkey; by apply (current_item_frame _ _ _ _ metrics)|].
  repeat split; assumption.
Qed.

Lemma identity_fields_are_kept_witness :
  Samples.current !! "region" = Some (Py.VStr "global")
  /\ Samples.current !! "accountId" = Some (Py.VStr "GLOBAL").
Proof.
  destruct (identity_fields_are_kept "2025-09-24" "24_09_2025" "2025-09-24T12:00:00+00:00"
              (Py.VInt 2) Samples.snapshot Samples.current)
    as (_ & _ & Haccount & _ & Hregion & _).
  - apply ok_unwrap. vm_compute. reflexivity.
  - split; [exact Hregion | exact Haccount].
Defined.

(** ** Patch compliance in the dashboard item *)

Section Persisted.
Import Py Flatten Keys Persistence.

Context (date_str_iso date_str_br iso_timestamp : string) (processing_duration : value).

Lemma prefix_split (a s : string) :
  String.prefix a s = true -> exists rest, s = a ++ rest.
Proof.
  revert s. induction a as [|c a IH]; intros s; [simpl; eauto|].
  destruct s as [|c' s]; simpl; [done|].
  destruct (Ascii.ascii_dec c c') as [<-|]; [|done].
  intros [rest ->]%IH. eauto.
Qed.

(** The sections merged after the EC2 one leave the EC2 fields alone. *)
Lemma ec2_fields_kept (metrics global_metrics : dict) (item2 cur : flat) (key : string) :
  (item3 ←
     (let rds_section := Accumulator.get metrics "rds" in
      if truthy rds_section then
        rds ← as_dict rds_section;
        mret (<["rds_engines" := Accumulator.get_default rds "engines" (VDict [])]> item2)
      else mret item2);
   item4 ← _include_section metrics item3 "rds" "rds";
   item5 ← _include_section metrics item4 "storage" "storage";
   item6 ← _include_section metrics item5 "unattached" "unattached";
   item7 ← _include_section metrics item6 "security" "security";
   network_health ←
     as_dict (py_or (Accumulator.get_default global_metrics "networkHealth" (VDict []))
                    (VDict []));
   mret (network_fields network_health item7)) = Ok cur ->
  String.prefix "ec2_" key = true ->
  cur !! key = item2 !! key.
Proof.
  intros H Hkey.
  apply prefix_split in Hkey as [rest ->].
  apply result_bind_ok in H as (item3 & Hrds & H).
  apply result_bind_ok in H as (item4 & Hrds' & H).
  apply result_bind_ok in H as (item5 & Hstorage & H).
  apply result_bind_ok in H as (item6 & Hunattached & H).
  apply result_bind_ok in H as (item7 & Hsecurity & H).
  apply result_bind_ok in H as (network_health & _ & H).
  injection H as <-.
  rewrite network_fields_frame by reflexivity.
  rewrite (include_section_frame _ _ _ _ "security" _ Hsecurity) by (done || reflexivity).
  rewrite (include_section_frame _ _ _ _ "unattached" _ Hunattached)
    by (done || reflexivity).
  rewrite (include_section_frame _ _ _ _ "storage" _ Hstorage) by (done || reflexivity).
  rewrite (include_section_frame _ _ _ _ "rds" _ Hrds') by (done || reflexivity).
  cbv zeta in Hrds.
  destruct (truthy (Accumulator.get metrics "rds")); [|by injection Hrds as <-].
  apply result_bind_ok in Hrds as (rds & _ & Hrds). injection Hrds as <-.
  apply lookup_insert_ne. discriminate.
Qed.

Lemma ok_inj {A : Type} (a b : A) : Ok a = Ok b -> a = b.
Proof. by intros [= ->]. Qed.

Ltac flat_key_ne :=
  let H := fresh "H" in intros H; vm_compute in H; discriminate H.

(** The patch compliance of the snapshot in the item built from it. *)
Lemma patch_fields_of_snapshot (st : Accumulator.accumulator) (cur : flat) :
  current_item date_str_iso date_str_br iso_timestamp processing_duration
    (Accumulator.get_metrics st) = Ok cur ->
  0 < Accumulator.num st Accumulator.ec2_total ->
  let compliant := Some (VInt (Accumulator.num st Accumulator.ec2_patch_compliant)) in
  let non_compliant := Some (VInt (Accumulator.num st Accumulator.ec2_patch_noncompliant)) in
  let unknown := Some (VInt (Accumulator.num st Accumulator.ec2_patch_unknown)) in
  (cur !! "ec2_ssm_compliant" = compliant
   /\ cur !! "ec2_ssm_not_compliant" = non_compliant
   /\ cur !! "ec2_ssm_unknown" = unknown)
  /\ (cur !! "ec2_patchCompliance_compliant" = compliant
      /\ cur !! "ec2_patchCompliance_nonCompliant" = non_compliant
      /\ cur !! "ec2_patchCompliance_unknown" = unknown).
Proof.
  intros H Hpos. apply Z.ltb_lt in Hpos. unfold current_item in H.
  apply result_bind_ok in H as (global_metrics & _ & H).
  apply result_bind_ok in H as (global_flat & Hglobal & H).
  apply result_bind_ok in H as (item1 & Hec2 & H).
  apply result_bind_ok in H as (item2 & Hec2' & H).
  intros compliant non_compliant unknown.
  rewrite (ec2_fields_kept _ _ _ _ "ec2_ssm_compliant" H eq_refl),
    (ec2_fields_kept _ _ _ _ "ec2_ssm_not_compliant" H eq_refl),
    (ec2_fields_kept _ _ _ _ "ec2_ssm_unknown" H eq_refl),
    (ec2_fields_kept _ _ _ _ "ec2_patchCompliance_compliant" H eq_refl),
    (ec2_fields_kept _ _ _ _ "ec2_patchCompliance_nonCompliant" H eq_refl),
    (ec2_fields_kept _ _ _ _ "ec2_patchCompliance_unknown" H eq_refl).
  clear H.
  unfold Accumulator.get_metrics in Hec2, Hec2'. rewrite Hpos in Hec2, Hec2'.
  unfold _include_section in Hec2'.
  cbn -[Pct._safe_pct Flatten.flatten_items Flatten.flatten_entry Flatten.flatten_metric
        insert union empty update] in Hec2, Hec2'.
  apply result_bind_ok in Hec2' as (prefixed & Hflat & Hup). injection Hup as <-.
  unfold flatten_metric in Hflat. cbn [truthy] in Hflat.
  apply ok_inj in Hflat. subst prefixed.
  apply ok_inj in Hec2. subst item1.
  split.
  - repeat split;
      (rewrite update_lookup_outside;
       [ rewrite ?lookup_insert_ne by done; apply lookup_insert_eq
       | rewrite flatten_items_frame;
         [ apply lookup_empty
         | apply Forall_forall; intros kv _; apply entry_frame_all
         | repeat constructor ] ]).
  - unfold update.
    repeat split; apply lookup_union_Some_l;
      unfold flatten_items at 1; cbn [fold_left];
      rewrite flatten_entry_dict; unfold flatten_items at 1; cbn [fold_left flatten_entry];
      rewrite ?lookup_insert_ne by flat_key_ne;
      match goal with |- lookup _ (insert ?key _ _) = _ =>
        let v := eval vm_compute in key in change key with v
      end;
      apply lookup_insert_eq.
Qed.

End Persisted.

(** X19.  The item built from the snapshot of an accumulator that has
    counted an EC2 instance carries the patch compliance twice: under the
    three fields named after SSM and under the flattened fields of the
    patch compliance section, each with the counter of the accumulator. *)
Theorem patch_compliance_is_persisted
    (date_str_iso date_str_br iso_timestamp : string) (processing_duration : Py.value)
    (st : Accumulator.accumulator) (dashboard_item : Flatten.flat) :
  Persistence.current_item date_str_iso date_str_br iso_timestamp processing_duration
    (Accumulator.get_metrics st) = Py.Ok dashboard_item ->
  0 < Accumulator.num st Accumulator.ec2_total ->
  let compliant := Some (Py.VInt (Accumulator.num st Accumulator.ec2_patch_compliant)) in
  let non_compliant :=
    Some (Py.VInt (Accumulator.num st Accumulator.ec2_patch_noncompliant)) in
  let unknown := Some (Py.VInt (Accumulator.num st Accumulator.ec2_patch_unknown)) in
  (dashboard_item !! "ec2_ssm_compliant" = compliant
   /\ dashboard_item !! "ec2_ssm_not_compliant" = non_compliant
   /\ dashboard_item !! "ec2_ssm_unknown" = unknown)
  /\ (dashboard_item !! "ec2_patchCompliance_compliant" = compliant
      /\ dashboard_item !! "ec2_patchCompliance_nonCompliant" = non_compliant
      /\ dashboard_item !! "ec2_patchCompliance_unknown" = unknown).
Proof. apply patch_fields_of_snapshot. Qed.

Lemma patch_compliance_is_persisted_witness :
  Samples.current !! "ec2_ssm_not_compliant" = Some (Py.VInt 1)
  /\ Samples.current !! "ec2_patchCompliance_nonCompliant" = Some (Py.VInt 1).
Proof.
  destruct (patch_compliance_is_persisted "2025-09-24" "24_09_2025"
              "2025-09-24T12:00:00+00:00" (Py.VInt 2)
              (Accumulator.feed Samples.no_json
                 [ Accumulator.AddResource Samples.ec2_running;
                   Accumulator.AddCollectedRegion (Py.VStr "us-east-1");
                   Accumulator.AddResource Samples.ec2_stopped;
                   Accumulator.AddResource Samples.rds_available;
                   Accumulator.AddResource Samples.ebs_available ]
                 Accumulator.reset)
              Samples.current)
    as [(_ & Hssm & _) (_ & Hpatch & _)].
  - apply ok_unwrap. vm_compute. reflexivity.
  - reflexivity.
  - split; [exact Hssm | exact Hpatch].
Defined.

(** ** The range of a percentage *)

(** X20.  A percentage of a part in a whole lies between 0 and 100: for
    [0 <= n <= d] and [1 <= d <= 300] the helper gives a value in that
    range, 0 for no part and 100 for the whole. *)
Theorem safe_pct_within_bounds (n d : Z) :
  0 <= n <= d -> 1 <= d <= 300 ->
  0 <= Pct._safe_pct n d <= 100
  /\ (n = 0 -> Pct._safe_pct n d = 0)
  /\ (n = d -> Pct._safe_pct n d = 100).
Proof.
  intros Hn Hd.
  pose proof (safe_pct_nearest n d ltac:(lia) ltac:(lia)) as H.
  unfold Pct.nearest_percent in H. rewrite (Z.abs_eq d) in H by lia.
  set (r := Pct._safe_pct n d) in *. clearbody r.
  repeat split; try intros ->; nia.
Qed.

Lemma safe_pct_within_bounds_witness :
  0 <= Pct._safe_pct 23 40 <= 100.
Proof. apply (safe_pct_within_bounds 23 40); lia. Defined.

(** ** The signals of a virtual interface *)

Section Peers.
Import Py Accumulator Invariants.

Lemma any_peer_up_exists (peers : list value) :
  any_peer_up peers = existsb peer_up peers.
Proof.
  induction peers as [|peer peers IH]; simpl; [reflexivity|].
  destruct peer as [| | | | |p]; simpl; try exact IH.
  destruct (_normalize_state (get p "bgpStatus")) as [status|].
  - by destruct (String.eqb status "up").
  - by destruct (state_is _ _).
Qed.

End Peers.

(** X21.  The signals of a virtual interface after [bgpAllUp], in the order
    the code consults them, for a record that is not empty and whose
    [bgpAllUp] is not a boolean: a boolean [bgpAnyUp] decides; without it
    the first status string that is not empty decides, healthy only when
    it is up; without any, the interface is healthy exactly when some entry
    of [bgpPeers] is a dictionary whose status is up or, lacking a status,
    whose session state is available, so the order of the peers does not
    matter and a peer with a status other than up never counts. *)
Theorem vif_signals_in_order (item : Py.dict) :
  item <> [] ->
  (forall b, Accumulator.get item "bgpAllUp" <> Py.VBool b) ->
  let healthy := Accumulator._is_direct_connect_virtual_interface_healthy item in
  let status :=
    Accumulator.first_state item ["bgpStatus"; "bgpStatusIpv4"; "bgpStatusIpv6"] in
  (forall b, Accumulator.get item "bgpAnyUp" = Py.VBool b -> healthy = b)
  /\ ((forall b, Accumulator.get item "bgpAnyUp" <> Py.VBool b) ->
      (forall s, status = Some s -> healthy = String.eqb s "up")
      /\ (status = None ->
          healthy = match Accumulator.get item "bgpPeers" with
                    | Py.VList peers => existsb Invariants.peer_up peers
                    | _ => false
                    end)).
Proof.
  intros Hitem Hall healthy status. subst healthy status.
  unfold Accumulator._is_direct_connect_virtual_interface_healthy.
  destruct item as [|entry item]; [done|].
  destruct (Accumulator.get (entry :: item) "bgpAllUp") as [|b| | | |] eqn:E1;
    try (by destruct (Hall b));
    (split;
     [ intros ? ->; reflexivity
     | intros Hany;
       destruct (Accumulator.get (entry :: item) "bgpAnyUp") as [|b| | | |] eqn:E2;
       try (by destruct (Hany b));
       (split;
        [ intros ? ->; reflexivity
        | intros ->;
          destruct (Accumulator.get (entry :: item) "bgpPeers"); try reflexivity;
          apply any_peer_up_exists ]) ]).
Qed.

Lemma vif_signals_in_order_witness :
  Accumulator._is_direct_connect_virtual_interface_healthy
    [ (Py.VStr "bgpPeers",
       Py.VList [ Py.VDict [ (Py.VStr "bgpStatus", Py.VStr "down");
                             (Py.VStr "bgpPeerState", Py.VStr "available") ];
                  Py.VStr "up";
                  Py.VDict [ (Py.VStr "bgpPeerState", Py.VStr " Available ") ] ]) ]
  = true.
Proof.
  match goal with |- Accumulator._is_direct_connect_virtual_interface_healthy ?item = _ =>
    destruct (vif_signals_in_order item ltac:(discriminate) ltac:(discriminate))
      as [_ H];
    destruct (H ltac:(discriminate)) as [_ Hpeers];
    rewrite (Hpeers eq_refl)
  end.
  reflexivity.
Defined.

(** ** Distributions *)

Section Sorting.
Import Py Accumulator Census.

Lemma insert_by_count_perm (x : value * Z) (l : list (value * Z)) :
  insert_by_count x l ≡ₚ x :: l.
Proof.
  induction l as [|y l IH]; simpl; [reflexivity|].
  destruct (snd y <? snd x); [reflexivity|].
  rewrite IH. apply Permutation_swap.
Qed.

Lemma insert_by_count_sorted (x : value * Z) (l : list (value * Z)) :
  descending l -> descending (insert_by_count x l).
Proof.
  induction l as [|y l IH]; simpl; [by repeat constructor|].
  intros [Hy Hl]. destruct (Z.ltb_spec (snd y) (snd x)); simpl.
  - repeat split; [|exact Hy | exact Hl].
    constructor; [unfold count_ge; lia|].
    eapply Forall_impl; [exact Hy|]. unfold count_ge. intros z Hz. lia.
  - split; [|by apply IH].
    rewrite insert_by_count_perm. constructor; [unfold count_ge; lia | exact Hy].
Qed.

Lemma insert_by_count_stable (n : Z) (x : value * Z) (l : list (value * Z)) :
  descending l ->
  with_count n (insert_by_count x l)
  = (with_count n l ++ (if snd x =? n then [x] else []))%list.
Proof.
  unfold with_count. induction l as [|y l IH]; simpl.
  - by destruct (snd x =? n).
  - intros [Hy Hl]. specialize (IH Hl). unfold count_ge in Hy.
    destruct (Z.ltb_spec (snd y) (snd x)); simpl.
    + destruct (Z.eqb_spec (snd x) n) as [Hx|Hx]; [|by rewrite app_nil_r].
      destruct (Z.eqb_spec (snd y) n); [lia|].
      assert (Hnone : List.filter (fun z => snd z =? n) l = []).
      { clear IH Hl. induction Hy as [|z l Hz Hy IHl]; simpl; [done|].
        destruct (Z.eqb_spec (snd z) n); [lia | exact IHl]. }
      by rewrite Hnone.
    + rewrite IH. by destruct (snd y =? n).
Qed.

Lemma sorted_by_count_spec (n : Z) (c acc : list (value * Z)) :
  descending acc ->
  let sorted := fold_left (fun acc x => insert_by_count x acc) c acc in
  sorted ≡ₚ (acc ++ c)%list
  /\ descending sorted
  /\ with_count n sorted = (with_count n acc ++ with_count n c)%list.
Proof.
  revert acc. induction c as [|x c IH]; intros acc Hacc; simpl.
  - rewrite !app_nil_r. done.
  - destruct (IH (insert_by_count x acc) (insert_by_count_sorted x acc Hacc))
      as (Hperm & Hsorted & Hstable).
    split; [|split; [exact Hsorted|]].
    + rewrite Hperm, insert_by_count_perm. simpl. apply Permutation_middle.
    + rewrite Hstable, insert_by_count_stable by exact Hacc.
      unfold with_count at 4. simpl. rewrite <- app_assoc.
      by destruct (snd x =? n).
Qed.

Lemma account_distribution_read (st : accumulator) :
  let distribution :=
    get (section_of (get_metrics st) "global") "accountDistribution" in
  distribution_entries "accountId" distribution
  = sorted_by_count (tallies st account_counts)
  /\ distribution_field "accountName" distribution
     = map (fun x => default (fst x) (dict_get (account_names st) (fst x)))
           (sorted_by_count (tallies st account_counts)).
Proof.
  cbn -[sorted_by_count]. rewrite !map_map. split.
  - rewrite <- (map_id (sorted_by_count _)) at 2.
    apply map_ext. by intros [account_id count].
  - apply map_ext. by intros [account_id count].
Qed.

Lemma region_distribution_read (st : accumulator) :
  distribution_entries "region"
    (get (section_of (get_metrics st) "global") "regionDistribution")
  = sorted_by_count (tallies st region_counts).
Proof.
  cbn -[sorted_by_count]. rewrite !map_map.
  rewrite <- (map_id (sorted_by_count _)) at 2.
  apply map_ext. by intros [region count].
Qed.

End Sorting.

(** X22.  The account and region distributions that [get_metrics] reports
    in its global section are the histograms sorted by count.  Read back
    from the snapshot, the pairs of [accountId] and [count] of
    [accountDistribution] are the entries of the account histogram, each
    once, no entry comes before one with a larger count, and entries with
    the same count keep the order in which they were first counted; the
    [accountName] of each entry is the name recorded for its account, or
    the account id where none was recorded.  The same holds of the pairs of
    [region] and [count] of [regionDistribution] and the region
    histogram. *)
Theorem distributions_sorted_by_count (st : Accumulator.accumulator) (n : Z) :
  let report := Census.section_of (Accumulator.get_metrics st) "global" in
  let accounts :=
    Census.distribution_entries "accountId"
      (Accumulator.get report "accountDistribution") in
  let regions :=
    Census.distribution_entries "region"
      (Accumulator.get report "regionDistribution") in
  (accounts ≡ₚ Accumulator.tallies st Accumulator.account_counts
   /\ Census.descending accounts
   /\ Census.with_count n accounts
      = Census.with_count n (Accumulator.tallies st Accumulator.account_counts)
   /\ Census.distribution_field "accountName"
        (Accumulator.get report "accountDistribution")
      = map (fun x => default (fst x)
                        (Accumulator.dict_get (Accumulator.account_names st) (fst x)))
            accounts)
  /\ (regions ≡ₚ Accumulator.tallies st Accumulator.region_counts
      /\ Census.descending regions
      /\ Census.with_count n regions
         = Census.with_count n (Accumulator.tallies st Accumulator.region_counts)).
Proof.
  intros report accounts regions.
  destruct (account_distribution_read st) as [Haccounts Hnames].
  pose proof (region_distribution_read st) as Hregions.
  fold report in Haccounts, Hnames, Hregions.
  fold accounts in Haccounts. fold regions in Hregions.
  rewrite Hnames, Haccounts, Hregions.
  destruct (sorted_by_count_spec n
              (Accumulator.tallies st Accumulator.account_counts) [] I)
    as (Hperm & Hsorted & Hstable).
  destruct (sorted_by_count_spec n
              (Accumulator.tallies st Accumulator.region_counts) [] I)
    as (Hperm' & Hsorted' & Hstable').
  split; [split; [exact Hperm|]; split; [exact Hsorted|]; split;
          [exact Hstable | reflexivity]|].
  split; [exact Hperm'|]. split; [exact Hsorted' | exact Hstable'].
Qed.
